(** * The MINIX terminal driver, device-independent part (drivers/tty/tty.c)

    A shallow embedding of the line discipline of [tty.c] and the proofs of
    the properties its specification states about it.

    Conventions.
    - A [tty_t] is the record [tty].  Its fields keep the names of the C
      structure; they are grouped in sub-records (input queue, reader slot,
      writer slot, ...) and reached through coercions, so [tty_incount tp]
      reads as [tp->tty_incount].
    - [tty.h], [termios.h] and the kernel headers are not part of the
      sources at hand: every constant they define is a field of the class
      [Params], and [minix] is the instance with the values of the MINIX 3
      headers, used to run the model on concrete inputs.
    - The device back-ends (console, rs232, pty) and the kernel calls are
      collaborators of [tty.c]: the class [Env] holds the functions a line
      is wired to; every call that leaves [tty.c] is also recorded in the
      ghost field [tty_trace] of the line, oldest call first.
    - Pointers into [tty_inbuf] are offsets ([nat]) from its start; C [int]
      values are [Z].  The locals of [out_process], whose arguments are
      arbitrary, wrap at 32 bits ([int_of]); the open count, a [char]
      that nothing bounds, wraps at 8 bits ([schar_of]); the other
      counters kept in the structure are bounded by the queue capacity or
      by the request size and are written with plain [Z] arithmetic. *)

From Stdlib Require Import ZArith Lia Bool List.
From stdpp Require Import base numbers list.
Import ListNotations.
Local Open Scope Z_scope.

(** ** C integers *)

Definition INT_MIN : Z := -2147483648.
Definition INT_MAX : Z := 2147483647.

(** Two's complement wrap-around of a 32-bit [int]. *)
Definition int_of (z : Z) : Z := (z - INT_MIN) mod 4294967296 + INT_MIN.

Definition is_int (z : Z) : Prop := INT_MIN <= z <= INT_MAX.

(** [x & m] used as a C truth value. *)
Definition tst (x m : Z) : bool := negb (Z.land x m =? 0).

(** [(x & m) == m]. *)
Definition all_set (x m : Z) : bool := Z.land x m =? m.

(** ** Constants of the absent headers *)

Class Params := {
  (* <minix/const.h>, <minix/com.h>, <errno.h>, <signal.h>, <fcntl.h> *)
  BYTE : Z;
  HZ : Z;
  OK : Z; EIO : Z; EINVAL : Z; EFAULT : Z; EAGAIN : Z; EACCES : Z;
  EINTR : Z; ENXIO : Z; ENOTTY : Z; SUSPEND : Z;
  TASK_REPLY : Z; REVIVE : Z;
  DEV_REVIVE : Z; DEV_IO_READY : Z; DEV_NO_STATUS : Z;
  SEL_RD : Z; SEL_WR : Z; SEL_ERR : Z; SEL_NOTIFY : Z;
  R_BIT : Z; W_BIT : Z; O_NOCTTY : Z; O_NONBLOCK : Z;
  CONS_MINOR : Z; LOG_MINOR : Z; RS232_MINOR : Z; TTYPX_MINOR : Z;
  SIGINT : Z; SIGQUIT : Z; SIGHUP : Z;
  NR_CONS : Z; NR_RS_LINES : Z; NR_PTYS : Z;
  (* <termios.h> *)
  ISTRIP : Z; IGNCR : Z; ICRNL : Z; INLCR : Z; IXON : Z; IXANY : Z;
  OPOST : Z; ONLCR : Z; XTABS : Z;
  ECHO : Z; ECHOE : Z; ECHOK : Z; ECHONL : Z; ICANON : Z; IEXTEN : Z;
  ISIG : Z; NOFLSH : Z;
  VEOF : nat; VEOL : nat; VERASE : nat; VINTR : nat; VKILL : nat;
  VMIN : nat; VQUIT : nat; VTIME : nat; VSTART : nat; VSTOP : nat;
  VREPRINT : nat; VLNEXT : nat;
  _POSIX_VDISABLE : Z;
  B0 : Z;
  TCDRAIN : Z; TCSETSF : Z;
  (* tty.h *)
  TTY_IN_BYTES : nat;            (* buflen(tp->tty_inbuf) *)
  TAB_SIZE : Z; TAB_MASK : Z;
  IN_CHAR : Z; IN_LEN : Z; IN_LSHIFT : Z;
  IN_EOT : Z; IN_EOF : Z; IN_ESC : Z;
  NOT_ESCAPED : Z; ESCAPED : Z;
  RUNNING : Z; STOPPED : Z;
  (* the state a device back-end keeps for a line (tp->tty_priv) *)
  dev_state : Type
}.

Record termios := {
  c_iflag : Z; c_oflag : Z; c_cflag : Z; c_lflag : Z;
  c_ispeed : Z; c_ospeed : Z;
  c_cc : list Z
}.

(** [u16_t] and [char] stores keep the low bits. *)
Definition u16_of (z : Z) : Z := z mod 65536.
Definition char_of (z : Z) : Z := z mod 256.

(** A store to a [char] that is read back as a number: [tty_openct] is a
    [char] field, and a [char] is signed on the machines MINIX runs on, so
    what is stored wraps round into -128 .. 127. *)
Definition schar_of (z : Z) : Z := (z + 128) mod 256 - 128.
Definition is_schar (z : Z) : Prop := -128 <= z <= 127.

(** ** The tty structure *)

(** Calls that leave [tty.c]. *)
Inductive event :=
| EvEcho (c : Z)                           (* tp->tty_echo(tp, c) *)
| EvOcancel                                (* tp->tty_ocancel(tp, 0) *)
| EvIcancel                                (* tp->tty_icancel(tp, 0) *)
| EvIoctl                                  (* tp->tty_ioctl(tp, 0) *)
| EvKill (pgrp sig : Z)                    (* sys_kill(pgrp, sig) *)
| EvCopy (proc vir : Z) (bytes : list Z)   (* sys_vircopy to the reader *)
| EvNotify (proc : Z)                      (* notify(proc) *)
| EvReply (code replyee proc status : Z)   (* tty_reply(...) *)
| EvSetTimer (ticks : Z)                   (* tmrs_settimer, now + ticks *)
| EvClrTimer.                              (* tmrs_clrtimer *)

Record inqueue := {
  tty_inbuf : list Z;      (* u16_t tty_inbuf[TTY_IN_BYTES] *)
  tty_inhead : nat;        (* next free slot *)
  tty_intail : nat;        (* next cell to deliver *)
  tty_incount : Z;
  tty_eotct : Z
}.

Record reader := {
  tty_inrepcode : Z; tty_inrevived : Z; tty_incaller : Z; tty_inproc : Z;
  tty_in_vir : Z; tty_inleft : Z; tty_incum : Z
}.

Record writer := {
  tty_outrepcode : Z; tty_outrevived : Z; tty_outcaller : Z; tty_outproc : Z;
  tty_out_vir : Z; tty_outleft : Z; tty_outcum : Z
}.

Record ioslot := {
  tty_iocaller : Z; tty_ioproc : Z; tty_ioreq : Z; tty_iovir : Z
}.

Record selslot := { tty_select_ops : Z; tty_select_proc : Z }.

Record control := {
  tty_index : Z; tty_minor : Z;
  tty_min : Z;
  tty_tmr : option Z;      (* armed timer: ticks from the time it was set *)
  tty_escaped : Z; tty_inhibited : Z;
  tty_pgrp : Z; tty_openct : Z
}.

(** The fields a device back-end writes when [tty.c] calls it. *)
Record devside `{Params} := {
  tty_priv : dev_state;
  tty_position : Z;
  tty_reprint : Z;
  tty_events : Z;
  tty_winsize : Z * Z * Z * Z
}.

Record tty `{Params} := {
  inq :> inqueue;
  rd :> reader;
  wr :> writer;
  io :> ioslot;
  sel :> selslot;
  ctl :> control;
  dev :> devside;
  tty_termios : termios;
  tty_trace : list event
}.

(** A request message, with the fields [tty.c] reads. *)
Record message := {
  m_source : Z; m_type : Z;
  TTY_LINE : Z; PROC_NR : Z; COUNT : Z; TTY_FLAGS : Z; ADDRESS : Z
}.

(** The message of a DEV_STATUS request, rewritten in place into the reply:
    [DEV_MINOR], [DEV_SEL_OPS], [REP_PROC_NR] and [REP_STATUS]. *)
Record status_msg := {
  st_source : Z; st_type : Z;
  DEV_MINOR : Z; DEV_SEL_OPS : Z; REP_PROC_NR : Z; REP_STATUS : Z
}.

(** ** Collaborators of tty.c *)

Class Env `{Params} := {
  tty_devread : tty -> tty;              (* tp->tty_devread(tp, 0) *)
  tty_devwrite : tty -> tty;             (* tp->tty_devwrite(tp, 0) *)
  tty_devwrite_try : tty -> Z;           (* tp->tty_devwrite(tp, 1) *)
  tty_devecho : tty -> Z -> devside;     (* tp->tty_echo(tp, c) *)
  tty_devocancel : tty -> devside;
  tty_devicancel : tty -> devside;
  tty_devioctl : tty -> devside;
  tty_devinit : Z -> devside;            (* scr_init, rs_init, pty_init *)
  termios_defaults : termios;            (* built from the T*_DEF constants *)
  select_retry_pty : tty -> tty;         (* pty.c, when NR_PTYS > 0 *)
  pty_status : status_msg -> Z * status_msg;      (* pty.c, likewise *)
  sys_umap : Z -> Z -> Z -> Z;           (* proc, address, count: OK or not *)
  user_termios : Z -> Z -> Z * termios;  (* sys_vircopy of a termios in *)
  uninit_int : Z                         (* an int local read before set *)
}.

(** ** Assignments to the fields of a line *)

Section Setters.
Context `{Params}.

Definition with_inq (f : inqueue -> inqueue) (tp : tty) : tty :=
  {| inq := f tp; rd := tp; wr := tp; io := tp; sel := tp; ctl := tp;
     dev := tp; tty_termios := tty_termios tp; tty_trace := tty_trace tp |}.
Definition with_rd (f : reader -> reader) (tp : tty) : tty :=
  {| inq := tp; rd := f tp; wr := tp; io := tp; sel := tp; ctl := tp;
     dev := tp; tty_termios := tty_termios tp; tty_trace := tty_trace tp |}.
Definition with_wr (f : writer -> writer) (tp : tty) : tty :=
  {| inq := tp; rd := tp; wr := f tp; io := tp; sel := tp; ctl := tp;
     dev := tp; tty_termios := tty_termios tp; tty_trace := tty_trace tp |}.
Definition with_io (f : ioslot -> ioslot) (tp : tty) : tty :=
  {| inq := tp; rd := tp; wr := tp; io := f tp; sel := tp; ctl := tp;
     dev := tp; tty_termios := tty_termios tp; tty_trace := tty_trace tp |}.
Definition with_sel (f : selslot -> selslot) (tp : tty) : tty :=
  {| inq := tp; rd := tp; wr := tp; io := tp; sel := f tp; ctl := tp;
     dev := tp; tty_termios := tty_termios tp; tty_trace := tty_trace tp |}.
Definition with_ctl (f : control -> control) (tp : tty) : tty :=
  {| inq := tp; rd := tp; wr := tp; io := tp; sel := tp; ctl := f tp;
     dev := tp; tty_termios := tty_termios tp; tty_trace := tty_trace tp |}.
Definition with_dev (f : devside -> devside) (tp : tty) : tty :=
  {| inq := tp; rd := tp; wr := tp; io := tp; sel := tp; ctl := tp;
     dev := f tp; tty_termios := tty_termios tp; tty_trace := tty_trace tp |}.
Definition set_termios (t : termios) (tp : tty) : tty :=
  {| inq := tp; rd := tp; wr := tp; io := tp; sel := tp; ctl := tp;
     dev := tp; tty_termios := t; tty_trace := tty_trace tp |}.
(** Record a call that leaves [tty.c]. *)
Definition emit (e : event) (tp : tty) : tty :=
  {| inq := tp; rd := tp; wr := tp; io := tp; sel := tp; ctl := tp;
     dev := tp; tty_termios := tty_termios tp;
     tty_trace := tty_trace tp ++ [e] |}.

Definition set_inbuf (v : list Z) : tty -> tty :=
  with_inq (fun q => {| tty_inbuf := v; tty_inhead := tty_inhead q;
    tty_intail := tty_intail q; tty_incount := tty_incount q;
    tty_eotct := tty_eotct q |}).
Definition set_inhead (v : nat) : tty -> tty :=
  with_inq (fun q => {| tty_inbuf := tty_inbuf q; tty_inhead := v;
    tty_intail := tty_intail q; tty_incount := tty_incount q;
    tty_eotct := tty_eotct q |}).
Definition set_intail (v : nat) : tty -> tty :=
  with_inq (fun q => {| tty_inbuf := tty_inbuf q; tty_inhead := tty_inhead q;
    tty_intail := v; tty_incount := tty_incount q;
    tty_eotct := tty_eotct q |}).
Definition set_incount (v : Z) : tty -> tty :=
  with_inq (fun q => {| tty_inbuf := tty_inbuf q; tty_inhead := tty_inhead q;
    tty_intail := tty_intail q; tty_incount := v;
    tty_eotct := tty_eotct q |}).
Definition set_eotct (v : Z) : tty -> tty :=
  with_inq (fun q => {| tty_inbuf := tty_inbuf q; tty_inhead := tty_inhead q;
    tty_intail := tty_intail q; tty_incount := tty_incount q;
    tty_eotct := v |}).

Definition set_inrepcode (v : Z) : tty -> tty :=
  with_rd (fun r => {| tty_inrepcode := v; tty_inrevived := tty_inrevived r;
    tty_incaller := tty_incaller r; tty_inproc := tty_inproc r;
    tty_in_vir := tty_in_vir r; tty_inleft := tty_inleft r;
    tty_incum := tty_incum r |}).
Definition set_inrevived (v : Z) : tty -> tty :=
  with_rd (fun r => {| tty_inrepcode := tty_inrepcode r; tty_inrevived := v;
    tty_incaller := tty_incaller r; tty_inproc := tty_inproc r;
    tty_in_vir := tty_in_vir r; tty_inleft := tty_inleft r;
    tty_incum := tty_incum r |}).
Definition set_incaller (v : Z) : tty -> tty :=
  with_rd (fun r => {| tty_inrepcode := tty_inrepcode r;
    tty_inrevived := tty_inrevived r;
    tty_incaller := v; tty_inproc := tty_inproc r;
    tty_in_vir := tty_in_vir r; tty_inleft := tty_inleft r;
    tty_incum := tty_incum r |}).
Definition set_inproc (v : Z) : tty -> tty :=
  with_rd (fun r => {| tty_inrepcode := tty_inrepcode r;
    tty_inrevived := tty_inrevived r;
    tty_incaller := tty_incaller r; tty_inproc := v;
    tty_in_vir := tty_in_vir r; tty_inleft := tty_inleft r;
    tty_incum := tty_incum r |}).
Definition set_in_vir (v : Z) : tty -> tty :=
  with_rd (fun r => {| tty_inrepcode := tty_inrepcode r;
    tty_inrevived := tty_inrevived r;
    tty_incaller := tty_incaller r; tty_inproc := tty_inproc r;
    tty_in_vir := v; tty_inleft := tty_inleft r;
    tty_incum := tty_incum r |}).
Definition set_inleft (v : Z) : tty -> tty :=
  with_rd (fun r => {| tty_inrepcode := tty_inrepcode r;
    tty_inrevived := tty_inrevived r;
    tty_incaller := tty_incaller r; tty_inproc := tty_inproc r;
    tty_in_vir := tty_in_vir r; tty_inleft := v;
    tty_incum := tty_incum r |}).
Definition set_incum (v : Z) : tty -> tty :=
  with_rd (fun r => {| tty_inrepcode := tty_inrepcode r;
    tty_inrevived := tty_inrevived r;
    tty_incaller := tty_incaller r; tty_inproc := tty_inproc r;
    tty_in_vir := tty_in_vir r; tty_inleft := tty_inleft r;
    tty_incum := v |}).

Definition set_outrepcode (v : Z) : tty -> tty :=
  with_wr (fun r => {| tty_outrepcode := v;
    tty_outrevived := tty_outrevived r;
    tty_outcaller := tty_outcaller r; tty_outproc := tty_outproc r;
    tty_out_vir := tty_out_vir r; tty_outleft := tty_outleft r;
    tty_outcum := tty_outcum r |}).
Definition set_outrevived (v : Z) : tty -> tty :=
  with_wr (fun r => {| tty_outrepcode := tty_outrepcode r;
    tty_outrevived := v;
    tty_outcaller := tty_outcaller r; tty_outproc := tty_outproc r;
    tty_out_vir := tty_out_vir r; tty_outleft := tty_outleft r;
    tty_outcum := tty_outcum r |}).
Definition set_outcaller (v : Z) : tty -> tty :=
  with_wr (fun r => {| tty_outrepcode := tty_outrepcode r;
    tty_outrevived := tty_outrevived r;
    tty_outcaller := v; tty_outproc := tty_outproc r;
    tty_out_vir := tty_out_vir r; tty_outleft := tty_outleft r;
    tty_outcum := tty_outcum r |}).
Definition set_outproc (v : Z) : tty -> tty :=
  with_wr (fun r => {| tty_outrepcode := tty_outrepcode r;
    tty_outrevived := tty_outrevived r;
    tty_outcaller := tty_outcaller r; tty_outproc := v;
    tty_out_vir := tty_out_vir r; tty_outleft := tty_outleft r;
    tty_outcum := tty_outcum r |}).
Definition set_out_vir (v : Z) : tty -> tty :=
  with_wr (fun r => {| tty_outrepcode := tty_outrepcode r;
    tty_outrevived := tty_outrevived r;
    tty_outcaller := tty_outcaller r; tty_outproc := tty_outproc r;
    tty_out_vir := v; tty_outleft := tty_outleft r;
    tty_outcum := tty_outcum r |}).
Definition set_outleft (v : Z) : tty -> tty :=
  with_wr (fun r => {| tty_outrepcode := tty_outrepcode r;
    tty_outrevived := tty_outrevived r;
    tty_outcaller := tty_outcaller r; tty_outproc := tty_outproc r;
    tty_out_vir := tty_out_vir r; tty_outleft := v;
    tty_outcum := tty_outcum r |}).
Definition set_outcum (v : Z) : tty -> tty :=
  with_wr (fun r => {| tty_outrepcode := tty_outrepcode r;
    tty_outrevived := tty_outrevived r;
    tty_outcaller := tty_outcaller r; tty_outproc := tty_outproc r;
    tty_out_vir := tty_out_vir r; tty_outleft := tty_outleft r;
    tty_outcum := v |}).

Definition set_ioreq (v : Z) : tty -> tty :=
  with_io (fun r => {| tty_iocaller := tty_iocaller r;
    tty_ioproc := tty_ioproc r; tty_ioreq := v; tty_iovir := tty_iovir r |}).

Definition set_select_ops (v : Z) : tty -> tty :=
  with_sel (fun r => {| tty_select_ops := v;
    tty_select_proc := tty_select_proc r |}).

Definition set_min (v : Z) : tty -> tty :=
  with_ctl (fun c => {| tty_index := tty_index c; tty_minor := tty_minor c;
    tty_min := v; tty_tmr := tty_tmr c; tty_escaped := tty_escaped c;
    tty_inhibited := tty_inhibited c; tty_pgrp := tty_pgrp c;
    tty_openct := tty_openct c |}).
Definition set_tmr (v : option Z) : tty -> tty :=
  with_ctl (fun c => {| tty_index := tty_index c; tty_minor := tty_minor c;
    tty_min := tty_min c; tty_tmr := v; tty_escaped := tty_escaped c;
    tty_inhibited := tty_inhibited c; tty_pgrp := tty_pgrp c;
    tty_openct := tty_openct c |}).
Definition set_escaped (v : Z) : tty -> tty :=
  with_ctl (fun c => {| tty_index := tty_index c; tty_minor := tty_minor c;
    tty_min := tty_min c; tty_tmr := tty_tmr c; tty_escaped := v;
    tty_inhibited := tty_inhibited c; tty_pgrp := tty_pgrp c;
    tty_openct := tty_openct c |}).
Definition set_inhibited (v : Z) : tty -> tty :=
  with_ctl (fun c => {| tty_index := tty_index c; tty_minor := tty_minor c;
    tty_min := tty_min c; tty_tmr := tty_tmr c;
    tty_escaped := tty_escaped c;
    tty_inhibited := v; tty_pgrp := tty_pgrp c;
    tty_openct := tty_openct c |}).
Definition set_pgrp (v : Z) : tty -> tty :=
  with_ctl (fun c => {| tty_index := tty_index c; tty_minor := tty_minor c;
    tty_min := tty_min c; tty_tmr := tty_tmr c;
    tty_escaped := tty_escaped c;
    tty_inhibited := tty_inhibited c; tty_pgrp := v;
    tty_openct := tty_openct c |}).
Definition set_openct (v : Z) : tty -> tty :=
  with_ctl (fun c => {| tty_index := tty_index c; tty_minor := tty_minor c;
    tty_min := tty_min c; tty_tmr := tty_tmr c;
    tty_escaped := tty_escaped c;
    tty_inhibited := tty_inhibited c; tty_pgrp := tty_pgrp c;
    tty_openct := v |}).

Definition set_position (v : Z) : tty -> tty :=
  with_dev (fun d => {| tty_priv := tty_priv d; tty_position := v;
    tty_reprint := tty_reprint d; tty_events := tty_events d;
    tty_winsize := tty_winsize d |}).
Definition set_reprint (v : Z) : tty -> tty :=
  with_dev (fun d => {| tty_priv := tty_priv d;
    tty_position := tty_position d;
    tty_reprint := v; tty_events := tty_events d;
    tty_winsize := tty_winsize d |}).
Definition set_events (v : Z) : tty -> tty :=
  with_dev (fun d => {| tty_priv := tty_priv d;
    tty_position := tty_position d;
    tty_reprint := tty_reprint d; tty_events := v;
    tty_winsize := tty_winsize d |}).

End Setters.

(** ** The model of tty.c *)

(** How one pass through a loop body ends: the loop goes on with the next
    element ([continue], or the end of the body), or it is left ([break],
    [goto out_done]). *)
Inductive flow := Next | Stop.

(** The locals of [out_process]: [bstart] is offset 0 of [o_buf] and [bend]
    its length. *)
Record olocals := {
  o_ict : Z; o_oct : Z; o_pos : Z; o_bpos : nat; o_buf : list Z
}.

(** [if (++bpos == bend) bpos = bstart;] *)
Definition bnext (bend : nat) (bpos : nat) : nat :=
  if (S bpos =? bend)%nat then 0%nat else S bpos.

(** The [do ... while (--tablen != 0)] that writes a space at [bpos] and
    steps [bpos] round the buffer, for a [tablen] of at least 1. *)
Fixpoint tab_fill (tablen : nat) (bpos : nat) (buf : list Z) : nat * list Z :=
  match tablen with
  | O => (bpos, buf)
  | S n => tab_fill n (bnext (length buf) bpos) (<[bpos := 32]> buf)
  end.

Section Model.
Context `{E : Env}.

(** *** out_process *)

(** The end of the loop body: [if (++bpos == bend) bpos = bstart; ict--; oct--;] *)
Definition out_advance (pos : Z) (s : olocals) : olocals * flow :=
  ({| o_ict := int_of (o_ict s - 1); o_oct := int_of (o_oct s - 1);
      o_pos := pos; o_bpos := bnext (length (o_buf s)) (o_bpos s);
      o_buf := o_buf s |}, Next).

(** The body of [while (ict > 0)]: the [switch] on the character at [bpos]. *)
Definition out_char (oflag : Z) (s : olocals) : olocals * flow :=
  let c := o_buf s !!! o_bpos s in
  if c =? 7 then out_advance (o_pos s) s
  else if c =? 8 then out_advance (int_of (o_pos s - 1)) s
  else if c =? 13 then out_advance 0 s
  else if c =? 10 then
    if all_set oflag (Z.lor OPOST ONLCR) then
      if 2 <=? o_oct s then
        let bpos' := bnext (length (o_buf s)) (o_bpos s) in
        ({| o_ict := int_of (o_ict s - 1); o_oct := int_of (o_oct s - 2);
            o_pos := 0; o_bpos := bpos';
            o_buf := <[bpos' := 10]> (<[o_bpos s := 13]> (o_buf s)) |}, Stop)
      else (s, Stop)
    else out_advance (o_pos s) s
  else if c =? 9 then
    let tablen := int_of (TAB_SIZE - Z.land (o_pos s) TAB_MASK) in
    if all_set oflag (Z.lor OPOST XTABS) then
      if tablen <=? o_oct s then
        let '(bpos', buf') := tab_fill (Z.to_nat tablen) (o_bpos s) (o_buf s) in
        ({| o_ict := int_of (o_ict s - 1); o_oct := int_of (o_oct s - tablen);
            o_pos := int_of (o_pos s + tablen); o_bpos := bpos';
            o_buf := buf' |}, Stop)
      else (s, Stop)
    else out_advance (int_of (o_pos s + tablen)) s
  else out_advance (int_of (o_pos s + 1)) s.

(** [while (ict > 0) { ... }]; every pass that stays in the loop takes one
    from [ict], so [ict] passes are all the loop can make. *)
Fixpoint out_loop (passes : nat) (oflag : Z) (s : olocals) : olocals :=
  match passes with
  | O => s
  | S n =>
    if 0 <? o_ict s then
      match out_char oflag s with
      | (s', Next) => out_loop n oflag s'
      | (s', Stop) => s'
      end
    else s
  end.

(** [out_process(tp, bstart, bpos, bend, icount, ocount)]: the line, the
    buffer and the two counts on return. *)
Definition out_process (tp : tty) (buf : list Z) (bpos : nat)
    (icount ocount : Z) : tty * list Z * Z * Z :=
  let s := out_loop (Z.to_nat icount) (c_oflag (tty_termios tp))
             {| o_ict := icount; o_oct := ocount; o_pos := tty_position tp;
                o_bpos := bpos; o_buf := buf |} in
  (set_position (Z.land (o_pos s) TAB_MASK) tp, o_buf s,
   int_of (icount - o_ict s), int_of (ocount - o_oct s)).

(** *** Reading the attributes of a line *)

Definition lflag (tp : tty) : Z := c_lflag (tty_termios tp).
Definition iflag (tp : tty) : Z := c_iflag (tty_termios tp).
Definition cc (tp : tty) (i : nat) : Z := c_cc (tty_termios tp) !!! i.

(** [bufend(tp->tty_inbuf)], as an offset. *)
Definition inbuf_end : nat := TTY_IN_BYTES.

(** *** Calls into the device back-end *)

Definition call_echo (tp : tty) (c : Z) : tty :=
  with_dev (fun _ => tty_devecho tp c) (emit (EvEcho c) tp).
Definition call_ocancel (tp : tty) : tty :=
  with_dev (fun _ => tty_devocancel tp) (emit EvOcancel tp).
Definition call_icancel (tp : tty) : tty :=
  with_dev (fun _ => tty_devicancel tp) (emit EvIcancel tp).
Definition call_ioctl (tp : tty) : tty :=
  with_dev (fun _ => tty_devioctl tp) (emit EvIoctl tp).

(** *** settimer

    The line's timer is armed [c_cc[VTIME] * (HZ/10)] ticks ahead or
    cleared; the alarm that serves the list of all timers is not part of a
    line. *)
Definition settimer (tp : tty) (enable : bool) : tty :=
  if enable then
    let ticks := cc tp VTIME * (HZ / 10) in
    emit (EvSetTimer ticks) (set_tmr (Some ticks) tp)
  else emit EvClrTimer (set_tmr None tp).

(** *** rawecho *)
Definition rawecho (tp : tty) (ch : Z) : tty :=
  let rp := tty_reprint tp in
  let tp := if tst (lflag tp) ECHO then call_echo tp ch else tp in
  set_reprint rp tp.

(** *** tty_echo *)

(** The tab case: [do { echo ' '; len++; } while (len < TAB_SIZE &&
    (tp->tty_position & TAB_MASK) != 0);] with [more] passes left after
    this one. *)
Fixpoint echo_tab (more : nat) (tp : tty) (len : Z) : tty * Z :=
  let tp := call_echo tp 32 in
  let len := len + 1 in
  match more with
  | O => (tp, len)
  | S n =>
    if (len <? TAB_SIZE) && negb (Z.land (tty_position tp) TAB_MASK =? 0)
    then echo_tab n tp len
    else (tp, len)
  end.

(** [while (len > 0) { echo '\b'; len--; }] *)
Fixpoint echo_bs (len : nat) (tp : tty) : tty :=
  match len with
  | O => tp
  | S n => echo_bs n (call_echo tp 8)
  end.

Definition tty_echo (tp : tty) (ch : Z) : tty * Z :=
  let ch := Z.land ch (Z.lnot IN_LEN) in
  if negb (tst (lflag tp) ECHO) then
    let tp :=
      if (ch =? Z.lor 10 IN_EOT) && all_set (lflag tp) (Z.lor ICANON ECHONL)
      then call_echo tp 10 else tp in
    (tp, ch)
  else
    let rp := if tty_incount tp =? 0 then 0 else tty_reprint tp in
    let '(tp, len) :=
      if Z.land ch IN_CHAR <? 32 then
        let k := Z.land ch (Z.lor (Z.lor (Z.lor IN_ESC IN_EOF) IN_EOT) IN_CHAR) in
        if k =? 9 then echo_tab (Z.to_nat (TAB_SIZE - 1)) tp 0
        else if (k =? Z.lor 13 IN_EOT) || (k =? Z.lor 10 IN_EOT)
        then (call_echo tp (Z.land ch IN_CHAR), 0)
        else (call_echo (call_echo tp 94) (64 + Z.land ch IN_CHAR), 2)
      else if Z.land ch IN_CHAR =? 127 then
        (call_echo (call_echo tp 94) 63, 2)
      else (call_echo tp (Z.land ch IN_CHAR), 1) in
    let '(tp, len) :=
      if tst ch IN_EOF then (echo_bs (Z.to_nat len) tp, Z.min len 0)
      else (tp, len) in
    let tp := set_reprint rp tp in
    (tp, Z.lor ch (Z.shiftl len IN_LSHIFT)).

(** *** reprint *)

(** [while (count > 0) { if (head == inbuf) head = bufend;
    if (head[-1] & IN_EOT) break; head--; count--; }] *)
Fixpoint reprint_back (passes : nat) (buf : list Z) (head : nat) (count : Z)
    : nat * Z :=
  match passes with
  | O => (head, count)
  | S n =>
    if 0 <? count then
      let head := if (head =? 0)%nat then inbuf_end else head in
      if tst (buf !!! (head - 1)%nat) IN_EOT then (head, count)
      else reprint_back n buf (head - 1)%nat (count - 1)
    else (head, count)
  end.

(** [do { if (head == bufend) head = inbuf; *head = tty_echo(tp, *head);
    head++; count++; } while (count < tp->tty_incount);] *)
Fixpoint reprint_fwd (passes : nat) (tp : tty) (head : nat) : tty :=
  match passes with
  | O => tp
  | S n =>
    let head := if (head =? inbuf_end)%nat then 0%nat else head in
    let '(tp, c) := tty_echo tp (tty_inbuf tp !!! head) in
    let tp := set_inbuf (<[head := u16_of c]> (tty_inbuf tp)) tp in
    reprint_fwd n tp (S head)
  end.

Definition reprint (tp : tty) : tty :=
  let tp := set_reprint 0 tp in
  let '(head, count) :=
    reprint_back (Z.to_nat (tty_incount tp)) (tty_inbuf tp)
                 (tty_inhead tp) (tty_incount tp) in
  if count =? tty_incount tp then tp
  else
    let tp := fst (tty_echo tp (Z.lor (cc tp VREPRINT) IN_ESC)) in
    let tp := rawecho tp 13 in
    let tp := rawecho tp 10 in
    reprint_fwd (Z.to_nat (tty_incount tp - count)) tp head.

(** *** back_over *)

(** [while (len > 0) { rawecho '\b'; rawecho ' '; rawecho '\b'; len--; }] *)
Fixpoint rub_out (len : nat) (tp : tty) : tty :=
  match len with
  | O => tp
  | S n => rub_out n (rawecho (rawecho (rawecho tp 8) 32) 8)
  end.

Definition back_over (tp : tty) : tty * Z :=
  if tty_incount tp =? 0 then (tp, 0)
  else
    let head := tty_inhead tp in
    let head := if (head =? 0)%nat then inbuf_end else head in
    let head := (head - 1)%nat in
    if tst (tty_inbuf tp !!! head) IN_EOT then (tp, 0)
    else
      let tp := if negb (tty_reprint tp =? 0) then reprint tp else tp in
      let tp := set_inhead head tp in
      let tp := set_incount (tty_incount tp - 1) tp in
      let tp :=
        if tst (lflag tp) ECHOE then
          let len := Z.shiftr (Z.land (tty_inbuf tp !!! head) IN_LEN) IN_LSHIFT in
          rub_out (Z.to_nat len) tp
        else tp in
      (tp, 1).

(** *** sigchar

    [sys_kill] is taken to succeed (its failure is a panic). *)
Definition sigchar (tp : tty) (sig : Z) : tty :=
  let tp := if negb (tty_pgrp tp =? 0) then emit (EvKill (tty_pgrp tp) sig) tp
            else tp in
  if negb (tst (lflag tp) NOFLSH) then
    let tp := set_eotct 0 tp in
    let tp := set_incount 0 tp in
    let tp := set_intail (tty_inhead tp) tp in
    let tp := call_ocancel tp in
    let tp := set_inhibited RUNNING tp in
    set_events 1 tp
  else tp.

(** *** tty_icancel *)
Definition tty_icancel (tp : tty) : tty :=
  let tp := set_eotct 0 tp in
  let tp := set_incount 0 tp in
  let tp := set_intail (tty_inhead tp) tp in
  call_icancel tp.

(** *** in_transfer *)

(** [sys_vircopy] of the staged bytes to the reader, and the two
    additions that follow it. *)
Definition copy_out (tp : tty) (bytes : list Z) : tty :=
  let n := Z.of_nat (length bytes) in
  let tp := emit (EvCopy (tty_inproc tp) (tty_in_vir tp) bytes) tp in
  let tp := set_in_vir (tty_in_vir tp + n) tp in
  set_incum (tty_incum tp + n) tp.

(** What is done when a request is complete: a revived caller is notified,
    a waiting one gets its reply and the slot is freed. *)
Definition reply_reader (tp : tty) : tty :=
  if tty_inrepcode tp =? REVIVE then
    set_inrevived 1 (emit (EvNotify (tty_incaller tp)) tp)
  else
    let tp := emit (EvReply (tty_inrepcode tp) (tty_incaller tp)
                            (tty_inproc tp) (tty_incum tp)) tp in
    set_inleft 0 (set_incum 0 tp).

(** The body of [while (tp->tty_inleft > 0 && tp->tty_eotct > 0)]; [bp] is
    the filled part of [buf[64]]. *)
Definition in_transfer_cell (tp : tty) (bp : list Z) : tty * list Z :=
  let ch := tty_inbuf tp !!! tty_intail tp in
  let '(tp, bp) :=
    if negb (tst ch IN_EOF) then
      let bp := bp ++ [char_of (Z.land ch IN_CHAR)] in
      let tp := set_inleft (tty_inleft tp - 1) tp in
      if (length bp =? 64)%nat then (copy_out tp bp, [])
      else (tp, bp)
    else (tp, bp) in
  let tail := S (tty_intail tp) in
  let tp := set_intail (if (tail =? inbuf_end)%nat then 0%nat else tail) tp in
  let tp := set_incount (tty_incount tp - 1) tp in
  let tp :=
    if tst ch IN_EOT then
      let tp := set_eotct (tty_eotct tp - 1) tp in
      if tst (lflag tp) ICANON then set_inleft 0 tp else tp
    else tp in
  (tp, bp).

Fixpoint in_transfer_loop (passes : nat) (tp : tty) (bp : list Z)
    : tty * list Z :=
  match passes with
  | O => (tp, bp)
  | S n =>
    if (0 <? tty_inleft tp) && (0 <? tty_eotct tp) then
      let '(tp, bp) := in_transfer_cell tp bp in
      in_transfer_loop n tp bp
    else (tp, bp)
  end.

(** The queue holds [tty_incount] cells and every pass takes one, so that
    many passes are allowed for (see [in_transfer_loop_done]). *)
(** What follows the loop: the bytes left in [buf] are copied out, and the
    reader is answered when nothing is left to read. *)
Definition in_transfer_end (tp : tty) (bp : list Z) : tty :=
  let tp := if (0 <? length bp)%nat then copy_out tp bp else tp in
  if tty_inleft tp =? 0 then reply_reader tp else tp.

Definition in_transfer (tp : tty) : tty :=
  let tp := if c_ospeed (tty_termios tp) =? B0 then set_min 0 tp else tp in
  if (tty_inleft tp =? 0) || (tty_eotct tp <? tty_min tp) then tp
  else
    let '(tp, bp) := in_transfer_loop (Z.to_nat (tty_incount tp)) tp [] in
    in_transfer_end tp bp.

(** *** in_process *)

(** A character on its way to the queue: the line, and the character unless
    a [continue] dropped it. *)
Definition filtered : Type := tty * option Z.

Definition keep (tp : tty) (ch : Z) : filtered := (tp, Some ch).
Definition drop (tp : tty) : filtered := (tp, None).

Definition and_then (r : filtered) (k : tty -> Z -> filtered) : filtered :=
  match r with
  | (tp, Some ch) => k tp ch
  | (tp, None) => (tp, None)
  end.

(** [ch = *buf++ & BYTE;] and the ISTRIP mask. *)
Definition in_take (tp : tty) (b : Z) : filtered :=
  let ch := Z.land b BYTE in
  keep tp (if tst (iflag tp) ISTRIP then Z.land ch 127 else ch).

(** Input extensions: a pending escape, LNEXT, REPRINT. *)
Definition in_extended (tp : tty) (ch : Z) : filtered :=
  if tst (lflag tp) IEXTEN then
    let '(tp, ch) :=
      if negb (tty_escaped tp =? 0)
      then (set_escaped NOT_ESCAPED tp, Z.lor ch IN_ESC)
      else (tp, ch) in
    if ch =? cc tp VLNEXT then
      let tp := set_escaped ESCAPED tp in
      let tp := rawecho tp 94 in
      drop (rawecho tp 8)
    else if ch =? cc tp VREPRINT then drop (reprint tp)
    else keep tp ch
  else keep tp ch.

(** [_POSIX_VDISABLE] is escaped; CR and LF are mapped. *)
Definition in_map (tp : tty) (ch : Z) : filtered :=
  let ch := if ch =? _POSIX_VDISABLE then Z.lor ch IN_ESC else ch in
  if ch =? 13 then
    if tst (iflag tp) IGNCR then drop tp
    else keep tp (if tst (iflag tp) ICRNL then 10 else ch)
  else if ch =? 10 then
    keep tp (if tst (iflag tp) INLCR then 13 else ch)
  else keep tp ch.

(** [while (back_over(tp)) {}], with [more] passes left after this one. *)
Fixpoint kill_line (more : nat) (tp : tty) : tty :=
  let '(tp, erased) := back_over tp in
  match more with
  | O => tp
  | S n => if erased =? 0 then tp else kill_line n tp
  end.

(** Canonical mode: erase, kill, and the marks on EOF, LF and EOL. *)
Definition in_canon (tp : tty) (ch : Z) : filtered :=
  if tst (lflag tp) ICANON then
    if ch =? cc tp VERASE then
      let tp := fst (back_over tp) in
      drop (if negb (tst (lflag tp) ECHOE) then fst (tty_echo tp ch) else tp)
    else if ch =? cc tp VKILL then
      let tp := kill_line (Z.to_nat (tty_incount tp)) tp in
      drop (if negb (tst (lflag tp) ECHOE) then
              let tp := fst (tty_echo tp ch) in
              if tst (lflag tp) ECHOK then rawecho tp 10 else tp
            else tp)
    else
      let ch := if ch =? cc tp VEOF then Z.lor ch (Z.lor IN_EOT IN_EOF)
                else ch in
      let ch := if ch =? 10 then Z.lor ch IN_EOT else ch in
      let ch := if ch =? cc tp VEOL then Z.lor ch IN_EOT else ch in
      keep tp ch
  else keep tp ch.

(** Start/stop input control. *)
Definition in_flow (tp : tty) (ch : Z) : filtered :=
  if tst (iflag tp) IXON then
    if ch =? cc tp VSTOP then
      drop (set_events 1 (set_inhibited STOPPED tp))
    else if negb (tty_inhibited tp =? 0) then
      if (ch =? cc tp VSTART) || tst (iflag tp) IXANY then
        let tp := set_events 1 (set_inhibited RUNNING tp) in
        if ch =? cc tp VSTART then drop tp else keep tp ch
      else keep tp ch
    else keep tp ch
  else keep tp ch.

(** INTR and QUIT. *)
Definition in_signal (tp : tty) (ch : Z) : filtered :=
  if tst (lflag tp) ISIG then
    if (ch =? cc tp VINTR) || (ch =? cc tp VQUIT) then
      let sig := if ch =? cc tp VQUIT then SIGQUIT else SIGINT in
      let tp := sigchar tp sig in
      drop (fst (tty_echo tp ch))
    else keep tp ch
  else keep tp ch.

(** The loop body up to the test for space in the queue. *)
Definition in_filter (tp : tty) (b : Z) : filtered :=
  and_then (and_then (and_then (and_then (and_then
    (in_take tp b) in_extended) in_map) in_canon) in_flow) in_signal.

(** The rest of the loop body, from [if (tp->tty_incount ==
    buflen(tp->tty_inbuf))] on. *)
Definition in_store (tp : tty) (timeset : bool) (ch : Z)
    : tty * bool * flow :=
  if tty_incount tp =? Z.of_nat TTY_IN_BYTES then
    if tst (lflag tp) ICANON then (tp, timeset, Next)
    else (tp, timeset, Stop)
  else
    let '(tp, timeset, ch) :=
      if negb (tst (lflag tp) ICANON) then
        let ch := Z.lor ch IN_EOT in
        if negb timeset && (0 <? cc tp VMIN) && (0 <? cc tp VTIME)
        then (settimer tp true, true, ch)
        else (tp, timeset, ch)
      else (tp, timeset, ch) in
    let '(tp, ch) :=
      if tst (lflag tp) (Z.lor ECHO ECHONL) then tty_echo tp ch
      else (tp, ch) in
    let tp := set_inbuf (<[tty_inhead tp := u16_of ch]> (tty_inbuf tp)) tp in
    let head := S (tty_inhead tp) in
    let tp := set_inhead (if (head =? inbuf_end)%nat then 0%nat else head) tp in
    let tp := set_incount (tty_incount tp + 1) tp in
    let tp := if tst ch IN_EOT then set_eotct (tty_eotct tp + 1) tp else tp in
    let tp := if tty_incount tp =? Z.of_nat TTY_IN_BYTES then in_transfer tp
              else tp in
    (tp, timeset, Next).

(** One pass of [for (ct = 0; ct < count; ct++)]. *)
Definition in_char (tp : tty) (timeset : bool) (b : Z) : tty * bool * flow :=
  match in_filter tp b with
  | (tp, None) => (tp, timeset, Next)
  | (tp, Some ch) => in_store tp timeset ch
  end.

Fixpoint in_loop (tp : tty) (timeset : bool) (buf : list Z) (ct : Z)
    : tty * Z :=
  match buf with
  | [] => (tp, ct)
  | b :: rest =>
    match in_char tp timeset b with
    | (tp, timeset, Next) => in_loop tp timeset rest (ct + 1)
    | (tp, _, Stop) => (tp, ct)
    end
  end.

(** [in_process(tp, buf, count)], [buf] holding the [count] characters. *)
Definition in_process (tp : tty) (buf : list Z) : tty * Z :=
  in_loop tp false buf 0.

(** *** setattr *)

(** [while (count > 0) { *inp |= IN_EOT; if (++inp == bufend) inp = inbuf;
    --count; }] *)
Fixpoint mark_eot (count : nat) (inp : nat) (buf : list Z) : list Z :=
  match count with
  | O => buf
  | S n =>
    let buf := <[inp := u16_of (Z.lor (buf !!! inp) IN_EOT)]> buf in
    let inp := S inp in
    mark_eot n (if (inp =? inbuf_end)%nat then 0%nat else inp) buf
  end.

(** Raw mode puts a line break on every character of the queue. *)
Definition setattr_raw (tp : tty) : tty :=
  if negb (tst (lflag tp) ICANON) then
    let tp := set_eotct (tty_incount tp) tp in
    set_inbuf (mark_eot (Z.to_nat (tty_incount tp)) (tty_intail tp)
                        (tty_inbuf tp)) tp
  else tp.

(** MIN and TIME. *)
Definition setattr_min (tp : tty) : tty :=
  if tst (lflag tp) ICANON then set_min 1 tp
  else
    let tp := set_min (cc tp VMIN) tp in
    if (tty_min tp =? 0) && (0 <? cc tp VTIME) then set_min 1 tp else tp.

(** Without start/stop control output is not left inhibited. *)
Definition setattr_flow (tp : tty) : tty :=
  if negb (tst (iflag tp) IXON)
  then set_events 1 (set_inhibited RUNNING tp) else tp.

Definition setattr (tp : tty) : tty :=
  let tp := setattr_raw tp in
  let tp := settimer tp false in
  let tp := setattr_min tp in
  let tp := setattr_flow tp in
  let tp := if c_ospeed (tty_termios tp) =? B0 then sigchar tp SIGHUP else tp in
  call_ioctl tp.

(** *** tty_reply and notify *)
Definition tty_reply (tp : tty) (code replyee proc_nr status : Z) : tty :=
  emit (EvReply code replyee proc_nr status) tp.

Definition notify (tp : tty) (proc : Z) : tty := emit (EvNotify proc) tp.

(** *** select_try, select_retry *)
Definition select_try (tp : tty) (ops : Z) : Z :=
  let ready_ops := 0 in
  let ready_ops :=
    if c_ospeed (tty_termios tp) =? B0 then Z.lor ready_ops ops
    else ready_ops in
  let ready_ops :=
    if tst ops SEL_RD then
      if 0 <? tty_inleft tp then Z.lor ready_ops SEL_RD
      else if 0 <? tty_incount tp then
        if negb (tst (lflag tp) ICANON) || (0 <? tty_eotct tp)
        then Z.lor ready_ops SEL_RD else ready_ops
      else ready_ops
    else ready_ops in
  if tst ops SEL_WR then
    if 0 <? tty_outleft tp then Z.lor ready_ops SEL_WR
    else if negb (tty_devwrite_try tp =? 0) then Z.lor ready_ops SEL_WR
    else ready_ops
  else ready_ops.

Definition select_retry (tp : tty) : tty :=
  if negb (select_try tp (tty_select_ops tp) =? 0)
  then notify tp (tty_select_proc tp) else tp.

(** *** dev_ioctl *)
Definition dev_ioctl (tp : tty) : tty :=
  if 0 <? tty_outleft tp then tp
  else
    let '(tp, result) :=
      if negb (tty_ioreq tp =? TCDRAIN) then
        let tp := if tty_ioreq tp =? TCSETSF then tty_icancel tp else tp in
        let '(result, t) := user_termios (tty_ioproc tp) (tty_iovir tp) in
        let tp := if result =? OK then set_termios t tp else tp in
        (setattr tp, result)
      else (tp, uninit_int) in
    let tp := set_ioreq 0 tp in
    tty_reply tp REVIVE (tty_iocaller tp) (tty_ioproc tp) result.

(** *** handle_events *)

(** [ispty(tp)] *)
Definition ispty (tp : tty) : bool := NR_CONS + NR_RS_LINES <=? tty_index tp.

(** The [do ... while (tp->tty_events)] loop; nothing bounds the number of
    times a device raises the flag again, so the loop is given [fuel] and
    yields nothing when that runs out. *)
Fixpoint poll_devices (fuel : nat) (tp : tty) : option tty :=
  match fuel with
  | O => None
  | S n =>
    let tp := set_events 0 tp in
    let tp := tty_devread tp in
    let tp := tty_devwrite tp in
    let tp := if negb (tty_ioreq tp =? 0) then dev_ioctl tp else tp in
    if negb (tty_events tp =? 0) then poll_devices n tp else Some tp
  end.

Definition handle_events (fuel : nat) (tp : tty) : option tty :=
  match poll_devices fuel tp with
  | None => None
  | Some tp =>
    let tp := in_transfer tp in
    let tp :=
      if (tty_min tp <=? tty_incum tp) && (0 <? tty_inleft tp) then
        if tty_inrepcode tp =? REVIVE then
          set_inrevived 1 (notify tp (tty_incaller tp))
        else
          let tp := tty_reply tp (tty_inrepcode tp) (tty_incaller tp)
                              (tty_inproc tp) (tty_incum tp) in
          set_inleft 0 (set_incum 0 tp)
      else tp in
    let tp := if negb (tty_select_ops tp =? 0) then select_retry tp else tp in
    Some (if (0 <? NR_PTYS) && ispty tp then select_retry_pty tp else tp)
  end.

(** *** do_read *)
Definition do_read (fuel : nat) (tp : tty) (m_ptr : message) : option tty :=
  let finish (tp : tty) (r : Z) : option tty :=
    let tp := tty_reply tp TASK_REPLY (m_source m_ptr) (PROC_NR m_ptr) r in
    Some (if negb (tty_select_ops tp =? 0) then select_retry tp else tp) in
  if 0 <? tty_inleft tp then finish tp EIO
  else if COUNT m_ptr <=? 0 then finish tp EINVAL
  else if negb (sys_umap (PROC_NR m_ptr) (ADDRESS m_ptr) (COUNT m_ptr) =? OK)
  then finish tp EFAULT
  else
    let tp := set_inrepcode TASK_REPLY tp in
    let tp := set_incaller (m_source m_ptr) tp in
    let tp := set_inproc (PROC_NR m_ptr) tp in
    let tp := set_in_vir (ADDRESS m_ptr) tp in
    let tp := set_inleft (COUNT m_ptr) tp in
    let tp :=
      if negb (tst (lflag tp) ICANON) && (0 <? cc tp VTIME) then
        if cc tp VMIN =? 0 then set_min 1 (settimer tp true)
        else if tty_eotct tp =? 0
        then set_min (cc tp VMIN) (settimer tp false)
        else tp
      else tp in
    let tp := in_transfer tp in
    match handle_events fuel tp with
    | None => None
    | Some tp =>
      if tty_inleft tp =? 0 then
        Some (if negb (tty_select_ops tp =? 0) then select_retry tp else tp)
      else if tst (TTY_FLAGS m_ptr) O_NONBLOCK then
        finish (set_inleft 0 (set_incum 0 tp)) EAGAIN
      else finish (set_inrepcode REVIVE tp) SUSPEND
    end.

(** *** do_write *)
Definition do_write (fuel : nat) (tp : tty) (m_ptr : message) : option tty :=
  let finish (tp : tty) (r : Z) : option tty :=
    Some (tty_reply tp TASK_REPLY (m_source m_ptr) (PROC_NR m_ptr) r) in
  if 0 <? tty_outleft tp then finish tp EIO
  else if COUNT m_ptr <=? 0 then finish tp EINVAL
  else if negb (sys_umap (PROC_NR m_ptr) (ADDRESS m_ptr) (COUNT m_ptr) =? OK)
  then finish tp EFAULT
  else
    let tp := set_outrepcode TASK_REPLY tp in
    let tp := set_outcaller (m_source m_ptr) tp in
    let tp := set_outproc (PROC_NR m_ptr) tp in
    let tp := set_out_vir (ADDRESS m_ptr) tp in
    let tp := set_outleft (COUNT m_ptr) tp in
    match handle_events fuel tp with
    | None => None
    | Some tp =>
      if tty_outleft tp =? 0 then Some tp
      else if tst (TTY_FLAGS m_ptr) O_NONBLOCK then
        let r := if 0 <? tty_outcum tp then tty_outcum tp else EAGAIN in
        finish (set_outleft 0 (set_outcum 0 tp)) r
      else finish (set_outrepcode REVIVE tp) SUSPEND
    end.

(** *** do_open *)
Definition do_open (tp : tty) (m_ptr : message) : tty :=
  let r := OK in
  let '(tp, r) :=
    if TTY_LINE m_ptr =? LOG_MINOR then
      (tp, if tst (COUNT m_ptr) R_BIT then EACCES else r)
    else
      let '(tp, r) :=
        if negb (tst (COUNT m_ptr) O_NOCTTY)
        then (set_pgrp (PROC_NR m_ptr) tp, 1) else (tp, r) in
      (set_openct (schar_of (tty_openct tp + 1)) tp, r) in
  tty_reply tp TASK_REPLY (m_source m_ptr) (PROC_NR m_ptr) r.

(** *** do_status *)

(** The scan [for (tp = FIRST_TTY; tp < END_TTY; tp++)] over the lines not
    yet looked at; [None] when no line has an event. *)
Fixpoint status_scan (lines : list tty) (m_ptr : status_msg)
    : option (list tty * status_msg) :=
  match lines with
  | [] => None
  | tp :: rest =>
    let ops := select_try tp (tty_select_ops tp) in
    if negb (ops =? 0) && (tty_select_proc tp =? st_source m_ptr) then
      Some (set_select_ops (Z.land (tty_select_ops tp) (Z.lnot ops)) tp :: rest,
            {| st_source := st_source m_ptr; st_type := DEV_IO_READY;
               DEV_MINOR := tty_index tp; DEV_SEL_OPS := ops;
               REP_PROC_NR := REP_PROC_NR m_ptr;
               REP_STATUS := REP_STATUS m_ptr |})
    else if negb (tty_inrevived tp =? 0)
            && (tty_incaller tp =? st_source m_ptr) then
      Some (set_inrevived 0 (set_inleft 0 (set_incum 0 tp)) :: rest,
            {| st_source := st_source m_ptr; st_type := DEV_REVIVE;
               DEV_MINOR := DEV_MINOR m_ptr; DEV_SEL_OPS := DEV_SEL_OPS m_ptr;
               REP_PROC_NR := tty_inproc tp; REP_STATUS := tty_incum tp |})
    else if negb (tty_outrevived tp =? 0)
            && (tty_outcaller tp =? st_source m_ptr) then
      Some (set_outrevived 0 (set_outcum 0 tp) :: rest,
            {| st_source := st_source m_ptr; st_type := DEV_REVIVE;
               DEV_MINOR := DEV_MINOR m_ptr; DEV_SEL_OPS := DEV_SEL_OPS m_ptr;
               REP_PROC_NR := tty_outproc tp; REP_STATUS := tty_outcum tp |})
    else
      match status_scan rest m_ptr with
      | Some (rest', m') => Some (tp :: rest', m')
      | None => None
      end
  end.

(** [do_status(m_ptr)] on [tty_table]: the table afterwards and the message
    sent back to [m_ptr->m_source]. *)
Definition do_status (tty_table : list tty) (m_ptr : status_msg)
    : list tty * status_msg :=
  match status_scan tty_table m_ptr with
  | Some r => r
  | None =>
    let '(event_found, m_ptr) :=
      if 0 <? NR_PTYS then pty_status m_ptr else (0, m_ptr) in
    (tty_table,
     if event_found =? 0 then
       {| st_source := st_source m_ptr; st_type := DEV_NO_STATUS;
          DEV_MINOR := DEV_MINOR m_ptr; DEV_SEL_OPS := DEV_SEL_OPS m_ptr;
          REP_PROC_NR := REP_PROC_NR m_ptr; REP_STATUS := REP_STATUS m_ptr |}
     else m_ptr)
  end.

(** *** tty_init

    Line [s] as [tty_init] leaves it: a zeroed structure with an empty
    queue, [tty_min = 1] and the default attributes; the fields of the
    device side are those the back-end's own initialisation gives. *)
Definition tty_init_line (s : Z) : tty :=
  {| inq := {| tty_inbuf := replicate TTY_IN_BYTES 0; tty_inhead := 0;
               tty_intail := 0; tty_incount := 0; tty_eotct := 0 |};
     rd := Build_reader 0 0 0 0 0 0 0;
     wr := Build_writer 0 0 0 0 0 0 0;
     io := Build_ioslot 0 0 0 0;
     sel := Build_selslot 0 0;
     ctl := {| tty_index := s;
               tty_minor :=
                 if s <? NR_CONS then CONS_MINOR + s
                 else if s <? NR_CONS + NR_RS_LINES
                 then RS232_MINOR + s - NR_CONS
                 else s - (NR_CONS + NR_RS_LINES) + TTYPX_MINOR;
               tty_min := 1;
               tty_tmr := None; tty_escaped := 0; tty_inhibited := 0;
               tty_pgrp := 0; tty_openct := 0 |};
     dev := tty_devinit s;
     tty_termios := termios_defaults;
     tty_trace := [] |}.

End Model.

(** ** The rest of the request handlers *)

(** Further constants of the absent headers: the request types of
    [<minix/com.h>], the minor number of the first pty master, and the
    ioctl codes of [<sys/ioc_tty.h>] and [<termios.h>].

    The request of an ioctl travels in an [int] field of the message, and
    the [switch] of [do_ioctl] converts each case label to [int] before it
    compares.  A field of this class is the label after that conversion:
    for a code with the top bit set, as the codes that copy out have
    (TCGETS, TIOCGWINSZ), it is the negative number the 32 bits stand for
    as an [int], not the unsigned number the header writes. *)
Class DriverParams := {
  DEV_READ : Z; DEV_WRITE : Z; DEV_IOCTL : Z; DEV_OPEN : Z; DEV_CLOSE : Z;
  DEV_SELECT : Z; CANCEL : Z;
  PTYPX_MINOR : Z;
  TCGETS : Z; TCSETS : Z; TCSETSW : Z; TCSBRK : Z; TCFLOW : Z; TCFLSH : Z;
  TIOCGWINSZ : Z; TIOCSWINSZ : Z; KIOCSMAP : Z; TIOCSFON : Z;
  TIOCGPGRP : Z; TIOCSPGRP : Z;
  TCIFLUSH : Z; TCOFLUSH : Z; TCIOFLUSH : Z;
  TCOOFF : Z; TCOON : Z; TCIOFF : Z; TCION : Z
}.

(** Further collaborators: the remaining device functions of a line and the
    copies between [tty.c] and the address space of a process. *)
Class DriverEnv `{Env} := {
  tty_devclose : tty -> devside;           (* tp->tty_close(tp, 0) *)
  tty_devbreak : option (tty -> devside);  (* tp->tty_break, may be NULL *)
  tty_active : tty -> bool;                (* tp->tty_devread != NULL *)
  kbd_loadmap : message -> Z;
  con_loadfont : message -> Z;
  copy_to_user : Z -> Z -> Z;              (* sys_vircopy out: proc, address *)
  user_int : Z -> Z -> Z * Z;              (* sys_vircopy of an int in *)
  user_winsize : Z -> Z -> Z * (Z * Z * Z * Z)
}.

(** What an ioctl writes to the address space of the caller. *)
Inductive ioctl_out :=
| OutNothing
| OutTermios (proc vir : Z) (t : termios)
| OutWinsize (proc vir : Z) (w : Z * Z * Z * Z).

(** [unsigned] arithmetic, 32 bits. *)
Definition uint_of (z : Z) : Z := z mod 4294967296.

Section Handlers.
Context `{DE : DriverEnv} `{DP : !DriverParams}.

Definition set_select_proc (v : Z) : tty -> tty :=
  with_sel (fun r => {| tty_select_ops := tty_select_ops r;
    tty_select_proc := v |}).
Definition set_winsize (v : Z * Z * Z * Z) : tty -> tty :=
  with_dev (fun d => {| tty_priv := tty_priv d;
    tty_position := tty_position d; tty_reprint := tty_reprint d;
    tty_events := tty_events d; tty_winsize := v |}).

Definition call_close (tp : tty) : tty :=
  with_dev (fun _ => tty_devclose tp) tp.
Definition call_break (tp : tty) : tty :=
  match tty_devbreak with
  | Some f => with_dev (fun _ => f tp) tp
  | None => tp
  end.

(** *** do_select

    The operations and the notify flag travel in [PROC_NR]. *)
Definition do_select (tp : tty) (m_ptr : message) : tty :=
  let ops := Z.land (PROC_NR m_ptr) (Z.lor (Z.lor SEL_RD SEL_WR) SEL_ERR) in
  let watch := if tst (PROC_NR m_ptr) SEL_NOTIFY then 1 else 0 in
  let ready_ops := select_try tp ops in
  let tp :=
    if (ready_ops =? 0) && negb (ops =? 0) && negb (watch =? 0) then
      let tp := set_select_ops (Z.lor (tty_select_ops tp) ops) tp in
      set_select_proc (m_source m_ptr) tp
    else tp in
  tty_reply tp TASK_REPLY (m_source m_ptr) (PROC_NR m_ptr) ready_ops.

(** *** do_cancel *)
Definition do_cancel (tp : tty) (m_ptr : message) : tty :=
  let proc_nr := PROC_NR m_ptr in
  let mode := COUNT m_ptr in
  let tp :=
    if tst mode R_BIT && negb (tty_inleft tp =? 0)
       && (proc_nr =? tty_inproc tp) then
      let tp := tty_icancel tp in
      set_inleft 0 (set_incum 0 tp)
    else tp in
  let tp :=
    if tst mode W_BIT && negb (tty_outleft tp =? 0)
       && (proc_nr =? tty_outproc tp) then
      let tp := call_ocancel tp in
      set_outleft 0 (set_outcum 0 tp)
    else tp in
  let tp :=
    if negb (tty_ioreq tp =? 0) && (proc_nr =? tty_ioproc tp)
    then set_ioreq 0 tp else tp in
  let tp := set_events 1 tp in
  tty_reply tp TASK_REPLY (m_source m_ptr) proc_nr EINTR.

(** *** do_close *)
Definition do_close (tp : tty) (m_ptr : message) : tty :=
  let tp :=
    if negb (TTY_LINE m_ptr =? LOG_MINOR) then
      let tp := set_openct (schar_of (tty_openct tp - 1)) tp in
      if tty_openct tp =? 0 then
        let tp := set_pgrp 0 tp in
        let tp := tty_icancel tp in
        let tp := call_ocancel tp in
        let tp := call_close tp in
        let tp := set_termios termios_defaults tp in
        let tp := set_winsize (0, 0, 0, 0) tp in
        setattr tp
      else tp
    else tp in
  tty_reply tp TASK_REPLY (m_source m_ptr) (PROC_NR m_ptr) OK.

(** *** do_ioctl

    [TTY_REQUEST] and [REQUEST] both name the field that is [COUNT] here.
    The first [switch], which only picks the number of bytes to copy, has
    no counterpart: every copy is modelled with the type it moves.  The
    request is an [int] and is compared with the case labels converted to
    [int], which is what the fields of [DriverParams] hold. *)
Definition set_ioslot (caller proc req vir : Z) : tty -> tty :=
  with_io (fun _ => {| tty_iocaller := caller; tty_ioproc := proc;
    tty_ioreq := req; tty_iovir := vir |}).

(** [case TCSETS]: copy the attributes in and apply them. *)
Definition ioctl_sets (tp : tty) (m_ptr : message) : tty * Z :=
  let '(r, t) := user_termios (PROC_NR m_ptr) (ADDRESS m_ptr) in
  if negb (r =? OK) then (tp, r)
  else (setattr (set_termios t tp), r).

Definition isconsole (tp : tty) : bool := tty_index tp <? NR_CONS.

Definition do_ioctl (tp : tty) (m_ptr : message) : tty * ioctl_out :=
  let req := COUNT m_ptr in
  let r := OK in
  let '(tp, r, out) :=
    if req =? TCGETS then
      (tp, copy_to_user (PROC_NR m_ptr) (ADDRESS m_ptr),
       OutTermios (PROC_NR m_ptr) (ADDRESS m_ptr) (tty_termios tp))
    else if (req =? TCSETSW) || (req =? TCSETSF) || (req =? TCDRAIN) then
      if 0 <? tty_outleft tp then
        (set_ioslot (m_source m_ptr) (PROC_NR m_ptr) (COUNT m_ptr)
                    (ADDRESS m_ptr) tp, SUSPEND, OutNothing)
      else if req =? TCDRAIN then (tp, r, OutNothing)
      else
        let tp := if req =? TCSETSF then tty_icancel tp else tp in
        let '(tp, r) := ioctl_sets tp m_ptr in (tp, r, OutNothing)
    else if req =? TCSETS then
      let '(tp, r) := ioctl_sets tp m_ptr in (tp, r, OutNothing)
    else if req =? TCFLSH then
      let '(r, i) := user_int (PROC_NR m_ptr) (ADDRESS m_ptr) in
      if negb (r =? OK) then (tp, r, OutNothing)
      else if i =? TCIFLUSH then (tty_icancel tp, r, OutNothing)
      else if i =? TCOFLUSH then (call_ocancel tp, r, OutNothing)
      else if i =? TCIOFLUSH
      then (call_ocancel (tty_icancel tp), r, OutNothing)
      else (tp, EINVAL, OutNothing)
    else if req =? TCFLOW then
      let '(r, i) := user_int (PROC_NR m_ptr) (ADDRESS m_ptr) in
      if negb (r =? OK) then (tp, r, OutNothing)
      else if (i =? TCOOFF) || (i =? TCOON) then
        (set_events 1 (set_inhibited (if i =? TCOOFF then 1 else 0) tp),
         r, OutNothing)
      else if i =? TCIOFF then (call_echo tp (cc tp VSTOP), r, OutNothing)
      else if i =? TCION then (call_echo tp (cc tp VSTART), r, OutNothing)
      else (tp, EINVAL, OutNothing)
    else if req =? TCSBRK then (call_break tp, r, OutNothing)
    else if req =? TIOCGWINSZ then
      (tp, copy_to_user (PROC_NR m_ptr) (ADDRESS m_ptr),
       OutWinsize (PROC_NR m_ptr) (ADDRESS m_ptr) (tty_winsize tp))
    else if req =? TIOCSWINSZ then
      let '(r, w) := user_winsize (PROC_NR m_ptr) (ADDRESS m_ptr) in
      (if r =? OK then set_winsize w tp else tp, r, OutNothing)
    else if req =? KIOCSMAP then
      (tp, if isconsole tp then kbd_loadmap m_ptr else r, OutNothing)
    else if req =? TIOCSFON then
      (tp, if isconsole tp then con_loadfont m_ptr else r, OutNothing)
    else (tp, ENOTTY, OutNothing) in
  (tty_reply tp TASK_REPLY (m_source m_ptr) (PROC_NR m_ptr) r,
   if r =? OK then out else OutNothing).

(** *** tty_timed_out *)
Definition tty_timed_out (tp : tty) : tty := set_events 1 (set_min 0 tp).

(** *** The line of a minor device number

    From [main]: [line] is [unsigned], so a minor below the base of a range
    wraps round and fails the test of that range.  The result is the index
    into [tty_table] and whether the minor is the master side of a pty. *)
Definition line_of_minor (minor : Z) : option (Z * bool) :=
  let line := uint_of minor in
  if uint_of (line - CONS_MINOR) <? uint_of NR_CONS then
    Some (uint_of (line - CONS_MINOR), false)
  else if line =? uint_of LOG_MINOR then Some (0, false)
  else if uint_of (line - RS232_MINOR) <? uint_of NR_RS_LINES then
    Some (uint_of (uint_of (line - RS232_MINOR) + NR_CONS), false)
  else if uint_of (line - TTYPX_MINOR) <? uint_of NR_PTYS then
    Some (uint_of (uint_of (uint_of (line - TTYPX_MINOR) + NR_CONS)
                   + NR_RS_LINES), false)
  else if uint_of (line - PTYPX_MINOR) <? uint_of NR_PTYS then
    Some (uint_of (uint_of (uint_of (line - PTYPX_MINOR) + NR_CONS)
                   + NR_RS_LINES), true)
  else None.

End Handlers.

(** ** The MINIX 3 values of the constants *)

#[export] Instance minix : Params := {|
  BYTE := 255; HZ := 60;
  OK := 0; EIO := -5; EINVAL := -22; EFAULT := -14; EAGAIN := -11;
  EACCES := -13; EINTR := -4; ENXIO := -6; ENOTTY := -25; SUSPEND := -998;
  TASK_REPLY := 68; REVIVE := 67;
  DEV_REVIVE := 1282; DEV_IO_READY := 1283; DEV_NO_STATUS := 1284;
  SEL_RD := 1; SEL_WR := 2; SEL_ERR := 4; SEL_NOTIFY := 8;
  R_BIT := 4; W_BIT := 2; O_NOCTTY := 256; O_NONBLOCK := 2048;
  CONS_MINOR := 0; LOG_MINOR := 15; RS232_MINOR := 16; TTYPX_MINOR := 128;
  SIGINT := 2; SIGQUIT := 3; SIGHUP := 1;
  NR_CONS := 4; NR_RS_LINES := 4; NR_PTYS := 0;
  ISTRIP := 128; IGNCR := 8; ICRNL := 2; INLCR := 32; IXON := 512;
  IXANY := 2048;
  OPOST := 1; ONLCR := 2; XTABS := 4;
  ECHO := 1; ECHOE := 2; ECHOK := 4; ECHONL := 8; ICANON := 16;
  IEXTEN := 32; ISIG := 64; NOFLSH := 128;
  VEOF := 0; VEOL := 1; VERASE := 2; VINTR := 3; VKILL := 4; VMIN := 5;
  VQUIT := 6; VTIME := 7; VSTART := 9; VSTOP := 10; VREPRINT := 11;
  VLNEXT := 12;
  _POSIX_VDISABLE := 255;
  B0 := 0;
  TCDRAIN := 536892429; TCSETSF := 1076122635;
  TTY_IN_BYTES := 256;
  TAB_SIZE := 8; TAB_MASK := 7;
  IN_CHAR := 255; IN_LEN := 3840; IN_LSHIFT := 8;
  IN_EOT := 4096; IN_EOF := 8192; IN_ESC := 16384;
  NOT_ESCAPED := 0; ESCAPED := 1;
  RUNNING := 0; STOPPED := 1;
  dev_state := unit
|}.

(** The default attributes of MINIX 3: [BRKINT|ICRNL|IXON|IXANY],
    [OPOST|ONLCR], [ISIG|IEXTEN|ICANON|ECHO|ECHOE], 9600 baud, and the
    usual control characters. *)
Definition minix_termios : termios :=
  {| c_iflag := 2563; c_oflag := 3; c_cflag := 2124; c_lflag := 115;
     c_ispeed := 53248; c_ospeed := 53248;
     c_cc := [4; 255; 8; 3; 21; 1; 28; 0; 26; 17; 19; 18; 22; 15] |}.

(** A line whose device functions are all [tty_devnop]: nothing is read or
    written, no field of the line is touched, a write probe says yes, and
    every address is mapped. *)
#[export] Instance devnop : Env := {|
  tty_devread := fun tp => tp;
  tty_devwrite := fun tp => tp;
  tty_devwrite_try := fun _ => 1;
  tty_devecho := fun tp _ => dev tp;
  tty_devocancel := fun tp => dev tp;
  tty_devicancel := fun tp => dev tp;
  tty_devioctl := fun tp => dev tp;
  tty_devinit := fun _ =>
    {| tty_priv := tt; tty_position := 0; tty_reprint := 0;
       tty_events := 0; tty_winsize := (0, 0, 0, 0) |};
  termios_defaults := minix_termios;
  select_retry_pty := fun tp => tp;
  pty_status := fun m => (0, m);
  sys_umap := fun _ _ _ => 0;
  user_termios := fun _ _ => (0, minix_termios);
  uninit_int := 0
|}.

(** Example values for the further constants, laid out as the MINIX 3
    headers lay them out.  TCGETS and TIOCGWINSZ are 0x80245408 and
    0x80085410 in the header; converted to [int] they are -2145102840 and
    -2146937840. *)
#[export] Instance minix_driver : DriverParams := {|
  DEV_READ := 1027; DEV_WRITE := 1028; DEV_IOCTL := 1029; DEV_OPEN := 1030;
  DEV_CLOSE := 1031; DEV_SELECT := 1036; CANCEL := 1024;
  PTYPX_MINOR := 192;
  TCGETS := int_of 2149864456; TCSETS := 1076122633; TCSETSW := 1076122634;
  TCSBRK := 1074025484; TCFLOW := 1074025486; TCFLSH := 1074025487;
  TIOCGWINSZ := int_of 2148029456; TIOCSWINSZ := 1074287633;
  KIOCSMAP := 1073769219; TIOCSFON := 1073763348;
  TIOCGPGRP := 1074025490; TIOCSPGRP := 1074025491;
  TCIFLUSH := 1; TCOFLUSH := 2; TCIOFLUSH := 3;
  TCOOFF := 1; TCOON := 2; TCIOFF := 3; TCION := 4
|}.

(** The remaining functions of the [tty_devnop] line: closing does nothing,
    there is no break function, and every copy succeeds; a copy in yields
    the default attributes, the integer 0 or an empty window size. *)
#[export] Instance devnop_driver : DriverEnv := {|
  tty_devclose := fun tp => dev tp;
  tty_devbreak := None;
  tty_active := fun _ => true;
  kbd_loadmap := fun _ => 0;
  con_loadfont := fun _ => 0;
  copy_to_user := fun _ _ => 0;
  user_int := fun _ _ => (0, 0);
  user_winsize := fun _ _ => (0, (0, 0, 0, 0))
|}.

(** ** The vocabulary of the properties *)

Section Vocabulary.
Context `{E : Env}.

(** Everything of a line but its device side and the record of its calls. *)
Definition line_part (tp : tty) :=
  (inq tp, rd tp, wr tp, io tp, sel tp, ctl tp, tty_termios tp).

(** The echoed length [tty_echo] puts in a cell. *)
Definition echo_len_ok (len : Z) : Prop := 0 <= len <= Z.max 2 TAB_SIZE.

(** What the proofs ask of the cell layout of [tty.h]: the EOT mark is a
    non-empty set of bits of a 16-bit cell outside the LEN field, and an
    echoed length shifted into place stays inside the LEN field. *)
Record cell_layout : Prop := {
  lay_eot : 0 < IN_EOT < 65536;
  lay_eot_len : Z.land IN_EOT IN_LEN = 0;
  lay_len : forall len, 0 <= len <= Z.max 2 TAB_SIZE ->
            Z.land (Z.shiftl len IN_LSHIFT) (Z.lnot IN_LEN) = 0
}.

(** The offset [i] cells after offset [t], round the buffer. *)
Definition ring (t i : nat) : nat := ((t + i) mod TTY_IN_BYTES)%nat.

(** The number of EOT cells among the [n] cells from offset [t] on. *)
Fixpoint eots (buf : list Z) (t : nat) (n : nat) : Z :=
  match n with
  | O => 0
  | S k => eots buf t k + (if tst (buf !!! ring t k) IN_EOT then 1 else 0)
  end.

(** The queue invariant: the buffer has its declared size, head and tail
    point into it, the count is between 0 and the capacity, the head is
    the count past the tail, and [tty_eotct] is the number of EOT cells
    in the queue. *)
Record queue_ok (q : inqueue) : Prop := {
  q_len : length (tty_inbuf q) = TTY_IN_BYTES;
  q_head : (tty_inhead q < TTY_IN_BYTES)%nat;
  q_tail : (tty_intail q < TTY_IN_BYTES)%nat;
  q_count : 0 <= tty_incount q <= Z.of_nat TTY_IN_BYTES;
  q_ring : ring (tty_intail q) (Z.to_nat (tty_incount q)) = tty_inhead q;
  q_eots : tty_eotct q =
           eots (tty_inbuf q) (tty_intail q) (Z.to_nat (tty_incount q))
}.

(** Two queues that differ at most in bits other than the EOT marks. *)
Definition eot_same (q q' : inqueue) : Prop :=
  tty_inhead q' = tty_inhead q /\ tty_intail q' = tty_intail q /\
  tty_incount q' = tty_incount q /\ tty_eotct q' = tty_eotct q /\
  length (tty_inbuf q') = length (tty_inbuf q) /\
  forall i, tst (tty_inbuf q' !!! i) IN_EOT = tst (tty_inbuf q !!! i) IN_EOT.

(** A step that keeps the attributes of the line and the queue invariant. *)
Definition steady (tp tp' : tty) : Prop :=
  tty_termios tp' = tty_termios tp /\ (queue_ok tp -> queue_ok tp').

(** The offset before [h], round the buffer: [if (head == inbuf) head =
    bufend; --head]. *)
Definition ring_prev (h : nat) : nat :=
  ((if (h =? 0)%nat then inbuf_end else h) - 1)%nat.

(** The number of bytes copied to readers by the calls in a trace. *)
Fixpoint copied (tr : list event) : Z :=
  match tr with
  | [] => 0
  | EvCopy _ _ bytes :: rest => Z.of_nat (length bytes) + copied rest
  | _ :: rest => copied rest
  end.

(** A stage of the filter keeps the attributes and the queue invariant. *)
Definition steady_stage (k : tty -> Z -> filtered) : Prop :=
  forall tp ch, steady tp (fst (k tp ch)).

End Vocabulary.

(** ** Lines that can arise *)

Section Reachable.
Context `{E : Env}.

(** The lines [tty.c] can produce as far as the input queue goes: a line as
    [tty_init] leaves it, changed by the functions that assign to the
    queue, and by anything that leaves the queue fields alone (every other
    assignment of [tty.c], the device functions, a change of attributes). *)
Inductive reachable : tty -> Prop :=
| reach_init s : reachable (tty_init_line s)
| reach_in_process tp buf :
    reachable tp -> reachable (fst (in_process tp buf))
| reach_in_transfer tp : reachable tp -> reachable (in_transfer tp)
| reach_back_over tp : reachable tp -> reachable (fst (back_over tp))
| reach_reprint tp : reachable tp -> reachable (reprint tp)
| reach_tty_icancel tp : reachable tp -> reachable (tty_icancel tp)
| reach_sigchar tp sig : reachable tp -> reachable (sigchar tp sig)
| reach_setattr tp : reachable tp -> reachable (setattr tp)
| reach_other tp tp' : reachable tp -> inq tp' = inq tp -> reachable tp'.

End Reachable.

(** ** Concrete lines and requests *)

(** A console line after the three characters [h], [i] and a line feed. *)
Definition typed_line : tty := fst (in_process (tty_init_line 0) [104; 105; 10]).

(** A console line after [a] and [b], no line feed yet. *)
Definition pending_line : tty := fst (in_process (tty_init_line 0) [97; 98]).

(** A line in raw mode with nothing that takes characters out of the
    input: ICANON, IEXTEN and ISIG are clear in the local flags, IXON and
    IGNCR in the input flags. *)
Definition raw_line `{Params} (tp : tty) : Prop :=
  tst (c_lflag (tty_termios tp)) ICANON = false /\
  tst (c_lflag (tty_termios tp)) IEXTEN = false /\
  tst (c_lflag (tty_termios tp)) ISIG = false /\
  tst (c_iflag (tty_termios tp)) IXON = false /\
  tst (c_iflag (tty_termios tp)) IGNCR = false.

(** The attributes of a raw line: no flag set, MIN = 1, TIME = 0. *)
Definition raw_termios : termios :=
  {| c_iflag := 0; c_oflag := 0; c_cflag := 2124; c_lflag := 0;
     c_ispeed := 53248; c_ospeed := 53248;
     c_cc := [4; 255; 8; 3; 21; 1; 28; 0; 26; 17; 19; 18; 22; 15] |}.

(** A raw console line whose queue is full: 256 cells [x], each one a line
    break as raw mode has it. *)
Definition full_raw_line : tty :=
  set_eotct 256 (set_incount 256
    (set_inbuf (replicate 256 4216) (set_termios raw_termios (tty_init_line 0)))).

(** A canonical console line with a reader of process 7 waiting for 80
    bytes, after [h], [i] and a line feed have been typed. *)
Definition read_line : tty :=
  fst (in_process
         (set_inleft 80 (set_inproc 7 (set_incaller 1 (set_in_vir 4096
            (set_inrepcode 68 (tty_init_line 0))))))
         [104; 105; 10]).

(** A console line in raw mode with MIN = 0 and TIME = 5, the output speed
    set to B0 and a process group, holding two typed characters. *)
Definition hangup_line : tty :=
  set_pgrp 7 (set_termios
    {| c_iflag := 0; c_oflag := 0; c_cflag := 2124; c_lflag := 0;
       c_ispeed := 53248; c_ospeed := 0;
       c_cc := [4; 255; 8; 3; 21; 0; 28; 5; 26; 17; 19; 18; 22; 15] |}
    pending_line).

(** A line with ECHO off and ICANON and ECHONL on. *)
Definition quiet_line : tty :=
  set_termios
    {| c_iflag := 0; c_oflag := 0; c_cflag := 0; c_lflag := 24;
       c_ispeed := 53248; c_ospeed := 53248;
       c_cc := c_cc minix_termios |}
    (tty_init_line 0).

(** An OPEN of the log device for writing. *)
Definition open_log_msg : message :=
  {| m_source := 1; m_type := 0; TTY_LINE := 15; PROC_NR := 7; COUNT := 2;
     TTY_FLAGS := 0; ADDRESS := 0 |}.

(** An OPEN of the first console for reading and writing. *)
Definition open_cons_msg : message :=
  {| m_source := 1; m_type := 0; TTY_LINE := 0; PROC_NR := 7; COUNT := 6;
     TTY_FLAGS := 0; ADDRESS := 0 |}.

(** A line with a reader and a writer waiting. *)
Definition busy_line : tty := set_outleft 5 (set_inleft 80 (tty_init_line 0)).

(** A READ or WRITE of 10 bytes for process 9, asked for by process 1. *)
Definition rw_msg : message :=
  {| m_source := 1; m_type := 0; TTY_LINE := 0; PROC_NR := 9; COUNT := 10;
     TTY_FLAGS := 0; ADDRESS := 4096 |}.

(** The same without blocking (O_NONBLOCK), and with a count of 0. *)
Definition rw_nonblock_msg : message :=
  {| m_source := 1; m_type := 0; TTY_LINE := 0; PROC_NR := 9; COUNT := 10;
     TTY_FLAGS := 2048; ADDRESS := 4096 |}.
Definition rw_empty_msg : message :=
  {| m_source := 1; m_type := 0; TTY_LINE := 0; PROC_NR := 9; COUNT := 0;
     TTY_FLAGS := 0; ADDRESS := 4096 |}.

(** A line on which process 5 waits for a select for writing (SEL_WR). *)
Definition select_line : tty :=
  set_select_ops 2
    (with_sel (fun r => {| tty_select_ops := tty_select_ops r;
                           tty_select_proc := 5 |}) (tty_init_line 0)).

(** A poll from process 1. *)
Definition poll_msg : status_msg :=
  {| st_source := 1; st_type := 0; DEV_MINOR := 0; DEV_SEL_OPS := 0;
     REP_PROC_NR := 0; REP_STATUS := 0 |}.

(** A line on which a write of process 7, asked for by process 1, has been
    revived with 5 bytes written and 3 still to go. *)
Definition revived_writer : tty :=
  set_outrevived 1 (set_outcaller 1 (set_outproc 7
    (set_outcum 5 (set_outleft 3 (tty_init_line 0))))).

Section StatusEvents.
Context `{E : Env}.

(** The three events a line can hold for the subscriber [src]. *)
Definition sel_event (tp : tty) (src : Z) : bool :=
  negb (select_try tp (tty_select_ops tp) =? 0) && (tty_select_proc tp =? src).
Definition rd_event (tp : tty) (src : Z) : bool :=
  negb (tty_inrevived tp =? 0) && (tty_incaller tp =? src).
Definition wr_event (tp : tty) (src : Z) : bool :=
  negb (tty_outrevived tp =? 0) && (tty_outcaller tp =? src).
Definition no_event (src : Z) (tp : tty) : Prop :=
  sel_event tp src = false /\ rd_event tp src = false /\
  wr_event tp src = false.

End StatusEvents.

Section Slots.
Context `{E : Env}.

(** The parts of a line that [setattr] and the flushes never assign to:
    the three caller slots, the select subscription, the open count and
    the attributes. *)
Definition same_slots (a b : tty) : Prop :=
  rd b = rd a /\ wr b = wr a /\ io b = io a /\ sel b = sel a /\
  tty_openct b = tty_openct a /\ tty_termios b = tty_termios a.

(** An empty input queue, as a flush leaves it. *)
Definition flushed (q : inqueue) : Prop :=
  tty_incount q = 0 /\ tty_eotct q = 0 /\ tty_intail q = tty_inhead q.

(** A call that is not a message to a process. *)
Definition no_message (e : event) : Prop :=
  match e with
  | EvReply _ _ _ _ | EvNotify _ => False
  | _ => True
  end.

(** [tr'] continues [tr], and no signal is sent in the continuation. *)
Definition quiet_ext (tr tr' : list event) : Prop :=
  exists calls, tr' = tr ++ calls /\
                forall p s, ~ In (EvKill p s) calls.

End Slots.

(** A SELECT for reading (SEL_RD) with notification (SEL_NOTIFY), from
    process 1. *)
Definition select_msg : message :=
  {| m_source := 1; m_type := 0; TTY_LINE := 0; PROC_NR := 9; COUNT := 0;
     TTY_FLAGS := 0; ADDRESS := 0 |}.

(** A CANCEL of the read of process 9, and a line on which that read
    waits with 3 characters typed. *)
Definition cancel_msg : message :=
  {| m_source := 1; m_type := 0; TTY_LINE := 0; PROC_NR := 9; COUNT := 4;
     TTY_FLAGS := 0; ADDRESS := 0 |}.
Definition waiting_line : tty :=
  set_inproc 9 (set_inleft 80
    (fst (in_process (tty_init_line 0) [97; 98; 99]))).

(** A CLOSE of the first console, and that console opened once with two
    characters typed. *)
Definition close_cons_msg : message :=
  {| m_source := 1; m_type := 0; TTY_LINE := 0; PROC_NR := 7; COUNT := 0;
     TTY_FLAGS := 0; ADDRESS := 0 |}.
Definition opened_line : tty := do_open pending_line open_cons_msg.

Section MinorLayout.
Context `{P : Params} `{DP : !DriverParams}.

(** What the proofs ask of the minor numbers of [<minix/dmap.h>] and the
    line counts of [<minix/config.h>]: the consoles, the log device, the
    serial lines, the pty slaves and the pty masters follow each other
    without overlap inside the range of an [unsigned]. *)
Record minor_layout : Prop := {
  ml_cons : 0 <= CONS_MINOR;
  ml_counts : 0 <= NR_CONS /\ 0 <= NR_RS_LINES /\ 0 <= NR_PTYS;
  ml_log : CONS_MINOR + NR_CONS <= LOG_MINOR < RS232_MINOR;
  ml_rs : RS232_MINOR + NR_RS_LINES <= TTYPX_MINOR;
  ml_pty : TTYPX_MINOR + NR_PTYS <= PTYPX_MINOR;
  ml_top : PTYPX_MINOR + NR_PTYS < 4294967296
}.

End MinorLayout.

Section IoctlCodes.
Context `{P : Params} `{DP : !DriverParams}.

(** The requests [do_ioctl] has a case of its own for.  They are the
    labels of one [switch], so no two of them are equal, and each is an
    [int]. *)
Definition ioctl_codes : list Z :=
  [TCGETS; TCSETSW; TCSETSF; TCDRAIN; TCSETS; TCFLSH; TCFLOW; TCSBRK;
   TIOCGWINSZ; TIOCSWINSZ; KIOCSMAP; TIOCSFON].

(** The arguments of TCFLSH and of TCFLOW that have a case. *)
Definition flush_codes : list Z := [TCIFLUSH; TCOFLUSH; TCIOFLUSH].
Definition flow_codes : list Z := [TCOOFF; TCOON; TCIOFF; TCION].

End IoctlCodes.

(** An ioctl [req] of process 7, asked for by process 1, with its argument
    at address 4096. *)
Definition ioctl_msg (req : Z) : message :=
  {| m_source := 1; m_type := 0; TTY_LINE := 0; PROC_NR := 7; COUNT := req;
     TTY_FLAGS := 0; ADDRESS := 4096 |}.

(** A line with 5 bytes of a write still to go. *)
Definition writing_line : tty := set_outleft 5 (tty_init_line 0).

(** A raw console line holding two typed characters, with a reader of
    process 7 that has been told to wait (its reply code is REVIVE) and
    wants 80 bytes. *)
Definition revived_reader : tty :=
  set_inleft 80 (set_inproc 7 (set_incaller 1 (set_in_vir 4096
    (set_inrepcode 67
      (fst (in_process (set_termios raw_termios (tty_init_line 0))
                       [97; 98])))))).

(** * Proofs *)

(** ** Integers and bit masks *)

Lemma int_of_id z : is_int z -> int_of z = z.
Proof.
  unfold is_int, int_of, INT_MIN, INT_MAX. intros Hz.
  rewrite Z.mod_small; lia.
Qed.

Lemma int_of_range z : is_int (int_of z).
Proof.
  unfold is_int, int_of, INT_MIN, INT_MAX.
  pose proof (Z.mod_pos_bound (z - -2147483648) 4294967296). lia.
Qed.

Lemma land_mask_bounds x m : 0 <= m -> 0 <= Z.land x m <= m.
Proof.
  intros Hm. split.
  - apply Z.land_nonneg. lia.
  - assert (Hd : Z.ldiff (Z.land x m) m = 0).
    { apply Z.bits_inj'. intros n Hn.
      rewrite Z.ldiff_spec, Z.land_spec, Z.bits_0.
      destruct (Z.testbit x n), (Z.testbit m n); reflexivity. }
    pose proof (Z.sub_nocarry_ldiff m (Z.land x m) Hd) as Hs.
    assert (0 <= Z.ldiff m (Z.land x m)) by (apply Z.ldiff_nonneg; lia).
    lia.
Qed.

(** Case analysis on the comparisons a definition branches on. *)
Ltac btest :=
  repeat match goal with
  | |- context [Z.eqb ?a ?b] => destruct (Z.eqb_spec a b)
  | |- context [Z.leb ?a ?b] => destruct (Z.leb_spec a b)
  | |- context [Z.ltb ?a ?b] => destruct (Z.ltb_spec a b)
  end.

(** ** out_process *)

Section OutProcess.
Context `{P : Params}.

Lemma tab_fill_length n bpos buf :
  length (snd (tab_fill n bpos buf)) = length buf.
Proof.
  revert bpos buf. induction n as [|n IH]; intros bpos buf; simpl.
  - reflexivity.
  - rewrite IH. apply length_insert.
Qed.

(** The number of passes given to [out_loop] is enough: the loop has always
    left through its own test by the time they are used up. *)
Lemma out_loop_passes oflag n m s :
  is_int (o_ict s) ->
  (Z.to_nat (o_ict s) <= n)%nat -> (Z.to_nat (o_ict s) <= m)%nat ->
  out_loop n oflag s = out_loop m oflag s.
Proof.
  revert m s. induction n as [|n IH]; intros m s Hint Hn Hm.
  - destruct m as [|m]; simpl; [reflexivity|].
    destruct (Z.ltb_spec 0 (o_ict s)); [lia | reflexivity].
  - destruct m as [|m]; simpl.
    + destruct (Z.ltb_spec 0 (o_ict s)); [lia | reflexivity].
    + destruct (Z.ltb_spec 0 (o_ict s)) as [Hpos|]; [|reflexivity].
      destruct (out_char oflag s) as [s' fl] eqn:Hc.
      destruct fl; [|reflexivity].
      assert (Hs' : o_ict s' = o_ict s - 1).
      { assert (Hi : int_of (o_ict s - 1) = o_ict s - 1)
          by (apply int_of_id; unfold is_int, INT_MIN, INT_MAX in *; lia).
        revert Hc. unfold out_char, out_advance.
        repeat match goal with
        | |- context [if ?b then _ else _] => destruct b
        | |- context [let '(_, _) := ?x in _] => destruct x
        end; intros Heq; first [discriminate | injection Heq as <-; exact Hi]. }
      apply IH; rewrite ?Hs'; unfold is_int, INT_MIN, INT_MAX in *; lia.
Qed.

(** Stepping the buffer pointer is adding one modulo the length of the
    buffer. *)
Lemma bnext_wraps (bend bpos : nat) :
  (bpos < bend)%nat -> bnext bend bpos = (S bpos mod bend)%nat.
Proof.
  intros Hin. unfold bnext.
  destruct (Nat.eqb_spec (S bpos) bend) as [<-|Hne].
  - symmetry. apply Nat.Div0.mod_same.
  - symmetry. apply Nat.mod_small. lia.
Qed.

(** A slot that holds a character is a slot of the buffer. *)
Lemma lookup_lf_in_range (buf : list Z) (bpos : nat) :
  buf !!! bpos = 10 -> (bpos < length buf)%nat.
Proof.
  intros Hc. destruct (le_lt_dec (length buf) bpos) as [Hge|Hlt]; [|exact Hlt].
  rewrite list_lookup_total_alt, (proj2 (lookup_ge_None buf bpos) Hge) in Hc.
  discriminate Hc.
Qed.

(** C4.  In [out_process] with OPOST and ONLCR both set, a line feed at the
    current position is handled so.  With at least two output slots left
    the slot is rewritten to CR, the position moves on by one modulo the
    length of the buffer (so from the last slot to the first), LF is
    written there, the column becomes 0, one input character and two
    output slots are used, and the loop is left.  With fewer than two slots
    left the loop is left with nothing used and the buffer as it was.  The
    first two parts are about the loop at any of its passes; the last two
    about a call that starts on the line feed: of the line it changes the
    column only, which it sets to 0 in the first case and leaves, reduced
    by TAB_MASK, in the second. *)
Theorem out_process_lf_crlf (oflag : Z) (s : olocals) (more : nat)
    (tp : tty) (buf : list Z) (bpos : nat) (icount ocount : Z) :
  all_set oflag (Z.lor OPOST ONLCR) = true ->
  o_buf s !!! o_bpos s = 10 -> 0 < o_ict s ->
  is_int (o_ict s) -> is_int (o_oct s) ->
  all_set (c_oflag (tty_termios tp)) (Z.lor OPOST ONLCR) = true ->
  buf !!! bpos = 10 -> 0 < icount -> is_int icount -> is_int ocount ->
  (2 <= o_oct s ->
     out_loop (S more) oflag s =
       {| o_ict := o_ict s - 1; o_oct := o_oct s - 2; o_pos := 0;
          o_bpos := (S (o_bpos s) mod length (o_buf s))%nat;
          o_buf := <[(S (o_bpos s) mod length (o_buf s))%nat := 10]>
                     (<[o_bpos s := 13]> (o_buf s)) |}) /\
  (o_oct s < 2 -> out_loop (S more) oflag s = s) /\
  (2 <= ocount ->
     match out_process tp buf bpos icount ocount with
     | (tp', buf', iused, oused) =>
       buf' = <[(S bpos mod length buf)%nat := 10]> (<[bpos := 13]> buf) /\
       iused = 1 /\ oused = 2 /\
       tty_position tp' = 0 /\ tp' = set_position 0 tp /\
       (inq tp', rd tp', wr tp', io tp', sel tp', ctl tp', tty_termios tp',
        tty_trace tp')
       = (inq tp, rd tp, wr tp, io tp, sel tp, ctl tp, tty_termios tp,
          tty_trace tp)
     end) /\
  (ocount < 2 ->
     match out_process tp buf bpos icount ocount with
     | (tp', buf', iused, oused) =>
       buf' = buf /\ iused = 0 /\ oused = 0 /\
       tty_position tp' = Z.land (tty_position tp) TAB_MASK /\
       tp' = set_position (Z.land (tty_position tp) TAB_MASK) tp /\
       (inq tp', rd tp', wr tp', io tp', sel tp', ctl tp', tty_termios tp',
        tty_trace tp')
       = (inq tp, rd tp, wr tp, io tp, sel tp, ctl tp, tty_termios tp,
          tty_trace tp)
     end).
Proof.
  intros Hfl Hlf Hict Hi Ho Hfl' Hlf' Hic Hii Hio.
  pose proof (lookup_lf_in_range _ _ Hlf) as Hin.
  pose proof (lookup_lf_in_range _ _ Hlf') as Hin'.
  assert (Hstep : forall fl (t : olocals),
    all_set fl (Z.lor OPOST ONLCR) = true -> o_buf t !!! o_bpos t = 10 ->
    out_char fl t =
      if 2 <=? o_oct t then
        ({| o_ict := int_of (o_ict t - 1); o_oct := int_of (o_oct t - 2);
            o_pos := 0; o_bpos := bnext (length (o_buf t)) (o_bpos t);
            o_buf := <[bnext (length (o_buf t)) (o_bpos t) := 10]>
                       (<[o_bpos t := 13]> (o_buf t)) |}, Stop)
      else (t, Stop)).
  { intros fl t Hf Hc. unfold out_char. rewrite Hc, Hf. reflexivity. }
  assert (Hloop : forall n fl (t : olocals),
    all_set fl (Z.lor OPOST ONLCR) = true -> o_buf t !!! o_bpos t = 10 ->
    0 < o_ict t -> is_int (o_ict t) -> is_int (o_oct t) ->
    out_loop (S n) fl t =
      if 2 <=? o_oct t then
        {| o_ict := o_ict t - 1; o_oct := o_oct t - 2;
           o_pos := 0;
           o_bpos := (S (o_bpos t) mod length (o_buf t))%nat;
           o_buf := <[(S (o_bpos t) mod length (o_buf t))%nat := 10]>
                      (<[o_bpos t := 13]> (o_buf t)) |}
      else t).
  { intros n fl t Hf Hc Hp Hti Hto. cbn [out_loop].
    destruct (Z.ltb_spec 0 (o_ict t)); [|lia].
    rewrite (Hstep fl t Hf Hc).
    destruct (Z.leb_spec 2 (o_oct t)); [|reflexivity].
    rewrite (bnext_wraps _ _ (lookup_lf_in_range _ _ Hc)).
    rewrite !int_of_id by (unfold is_int, INT_MIN, INT_MAX in *; lia).
    reflexivity. }
  split; [|split; [|split]].
  - intros H2. rewrite Hloop by assumption.
    destruct (Z.leb_spec 2 (o_oct s)); [reflexivity | lia].
  - intros H2. rewrite Hloop by assumption.
    destruct (Z.leb_spec 2 (o_oct s)); [lia | reflexivity].
  - intros H2. unfold out_process.
    destruct (Z.to_nat icount) as [|n] eqn:Hn; [lia|].
    rewrite Hloop by (cbn [o_ict o_oct o_buf o_bpos]; assumption).
    cbn [o_ict o_oct o_buf o_bpos o_pos].
    destruct (Z.leb_spec 2 ocount); [|lia].
    cbn [o_ict o_oct o_buf o_bpos o_pos].
    rewrite Z.land_0_l.
    rewrite !int_of_id by (unfold is_int, INT_MIN, INT_MAX in *; lia).
    split; [reflexivity|]. split; [lia|]. split; [lia|].
    repeat split.
  - intros H2. unfold out_process.
    destruct (Z.to_nat icount) as [|n] eqn:Hn; [lia|].
    rewrite Hloop by (cbn [o_ict o_oct o_buf o_bpos]; assumption).
    cbn [o_ict o_oct o_buf o_bpos o_pos].
    destruct (Z.leb_spec 2 ocount); [lia|].
    cbn [o_ict o_oct o_buf o_bpos o_pos].
    rewrite !Z.sub_diag. repeat split.
Qed.

End OutProcess.

Section OutProcessBounds.
Context `{P : Params}.

Lemma out_char_bounds oflag s s' fl :
  0 <= TAB_MASK < TAB_SIZE -> is_int TAB_SIZE ->
  0 < o_ict s <= o_oct s -> o_oct s <= INT_MAX ->
  out_char oflag s = (s', fl) ->
  0 <= o_ict s' <= o_ict s /\ 0 <= o_oct s' <= o_oct s /\
  (fl = Next -> o_ict s' <= o_oct s').
Proof.
  intros Htab Hts Hio Hmax.
  assert (Hm : 0 <= TAB_MASK) by lia.
  pose proof (land_mask_bounds (o_pos s) TAB_MASK Hm) as Hland.
  assert (Htl : int_of (TAB_SIZE - Z.land (o_pos s) TAB_MASK)
                = TAB_SIZE - Z.land (o_pos s) TAB_MASK)
    by (apply int_of_id; unfold is_int, INT_MIN, INT_MAX in *; lia).
  assert (H1 : int_of (o_ict s - 1) = o_ict s - 1)
    by (apply int_of_id; unfold is_int, INT_MIN, INT_MAX in *; lia).
  assert (H2 : int_of (o_oct s - 1) = o_oct s - 1)
    by (apply int_of_id; unfold is_int, INT_MIN, INT_MAX in *; lia).
  unfold out_char, out_advance. rewrite Htl.
  repeat match goal with
  | |- context [if all_set ?a ?b then _ else _] => destruct (all_set a b)
  | |- context [Z.eqb ?a ?b] => destruct (Z.eqb_spec a b)
  | |- context [Z.leb ?a ?b] => destruct (Z.leb_spec a b)
  | |- context [let '(_, _) := ?x in _] => destruct x
  end;
  intros Heq; injection Heq as <- <-; simpl; rewrite ?H1, ?H2;
  repeat match goal with
  | |- context [int_of (o_ict s - ?z)] =>
    rewrite (int_of_id (o_ict s - z))
      by (unfold is_int, INT_MIN, INT_MAX in *; lia)
  | |- context [int_of (o_oct s - ?z)] =>
    rewrite (int_of_id (o_oct s - z))
      by (unfold is_int, INT_MIN, INT_MAX in *; lia)
  end;
  (split; [lia | split; [lia | intros; first [discriminate | lia]]]).
Qed.

Lemma out_loop_bounds oflag n s :
  0 <= TAB_MASK < TAB_SIZE -> is_int TAB_SIZE ->
  0 <= o_ict s <= o_oct s -> o_oct s <= INT_MAX ->
  0 <= o_ict (out_loop n oflag s) <= o_ict s /\
  0 <= o_oct (out_loop n oflag s) <= o_oct s.
Proof.
  intros Htab Hts. revert s.
  induction n as [|n IH]; intros s Hio Hmax; simpl; [lia|].
  destruct (Z.ltb_spec 0 (o_ict s)) as [Hpos|]; [|lia].
  destruct (out_char oflag s) as [s' fl] eqn:Hc.
  destruct (out_char_bounds oflag s s' fl Htab Hts ltac:(lia) Hmax Hc)
    as (Hi & Ho & Hn).
  destruct fl; [|lia].
  specialize (Hn eq_refl).
  destruct (IH s' ltac:(lia) ltac:(lia)). lia.
Qed.

(** The buffer is only rewritten where there is room for what is written. *)
Lemma out_char_rewrites oflag s :
  o_buf (fst (out_char oflag s)) <> o_buf s ->
  (o_buf s !!! o_bpos s = 10 /\ 2 <= o_oct s) \/
  (o_buf s !!! o_bpos s = 9 /\
   int_of (TAB_SIZE - Z.land (o_pos s) TAB_MASK) <= o_oct s).
Proof.
  unfold out_char, out_advance.
  repeat match goal with
  | |- context [if all_set ?a ?b then _ else _] => destruct (all_set a b)
  | |- context [Z.eqb ?a ?b] => destruct (Z.eqb_spec a b)
  | |- context [Z.leb ?a ?b] => destruct (Z.leb_spec a b)
  | |- context [let '(_, _) := ?x in _] => destruct x
  end; simpl; intros Hne; try congruence; auto.
Qed.

(** The count of characters to go never grows, whatever the room. *)
Lemma out_char_ict oflag s s' fl :
  0 < o_ict s -> is_int (o_ict s) ->
  out_char oflag s = (s', fl) ->
  0 <= o_ict s' <= o_ict s /\ is_int (o_ict s').
Proof.
  intros Hpos Hint.
  assert (H1 : int_of (o_ict s - 1) = o_ict s - 1)
    by (apply int_of_id; unfold is_int, INT_MIN, INT_MAX in *; lia).
  unfold out_char, out_advance.
  repeat match goal with
  | |- context [if ?b then _ else _] => destruct b
  | |- context [let '(_, _) := ?x in _] => destruct x
  end;
  intros Heq; injection Heq as <- <-; cbn [o_ict]; rewrite ?H1;
  unfold is_int, INT_MIN, INT_MAX in *; lia.
Qed.

Lemma out_loop_ict oflag n s :
  0 <= o_ict s -> is_int (o_ict s) ->
  0 <= o_ict (out_loop n oflag s) <= o_ict s.
Proof.
  revert s. induction n as [|n IH]; intros s Hpos Hint; cbn [out_loop];
    [lia|].
  destruct (Z.ltb_spec 0 (o_ict s)) as [Hgt|]; [|lia].
  destruct (out_char oflag s) as [s' fl] eqn:Hc.
  destruct (out_char_ict oflag s s' fl Hgt Hint Hc) as (Hb & Hi).
  destruct fl; [|lia].
  destruct (IH s' ltac:(lia) Hi). lia.
Qed.

(** C10, as amended.  Whatever the buffer, the column and the two counts,
    as long as these are not negative: the count of input used is between
    0 and [*icount], and the column is left between 0 and [TAB_SIZE - 1].
    The count of output used is between 0 and [*ocount] when the call has
    no more characters to process than there is room for
    ([*icount <= *ocount], as the comment of the function takes for
    granted).  At any pass the buffer is rewritten only for a line feed
    with at least 2 slots left or a tab with at least [tablen] slots
    left. *)
Theorem out_process_within_counts (tp : tty) (buf : list Z) (bpos : nat)
    (icount ocount : Z) :
  0 <= TAB_MASK < TAB_SIZE -> is_int TAB_SIZE ->
  0 <= icount -> is_int icount -> 0 <= ocount -> is_int ocount ->
  (match out_process tp buf bpos icount ocount with
   | (tp', _, iused, oused) =>
     0 <= iused <= icount /\
     0 <= tty_position tp' < TAB_SIZE /\
     (icount <= ocount -> 0 <= oused <= ocount)
   end) /\
  (forall oflag s,
     o_buf (fst (out_char oflag s)) <> o_buf s ->
     (o_buf s !!! o_bpos s = 10 /\ 2 <= o_oct s) \/
     (o_buf s !!! o_bpos s = 9 /\
      int_of (TAB_SIZE - Z.land (o_pos s) TAB_MASK) <= o_oct s)).
Proof.
  intros Htab Hts Hic Hii Hoc Hio. split; [|apply out_char_rewrites].
  unfold out_process.
  set (s0 := {| o_ict := icount; o_oct := ocount; o_pos := tty_position tp;
                o_bpos := bpos; o_buf := buf |}).
  pose proof (out_loop_ict (c_oflag (tty_termios tp)) (Z.to_nat icount) s0
                Hic Hii) as Hi.
  assert (Hm : 0 <= TAB_MASK) by lia.
  pose proof (land_mask_bounds
    (o_pos (out_loop (Z.to_nat icount) (c_oflag (tty_termios tp)) s0))
    TAB_MASK Hm) as Hcol.
  cbn [o_ict s0] in Hi. cbn [tty_position set_position with_dev dev].
  split; [|split].
  - rewrite int_of_id by (unfold is_int, INT_MIN, INT_MAX in *; lia). lia.
  - lia.
  - intros Hle.
    destruct (out_loop_bounds (c_oflag (tty_termios tp)) (Z.to_nat icount) s0
                Htab Hts) as [_ Ho]; cbn [o_ict o_oct s0];
      [lia | unfold is_int in Hio; lia |].
    cbn [o_oct s0] in Ho.
    rewrite int_of_id by (unfold is_int, INT_MIN, INT_MAX in *; lia). lia.
Qed.

End OutProcessBounds.

(** C10, as the claim states it, fails: with two characters to process and
    room for one, [out_process] reports two output slots used. *)
Lemma out_process_overrun :
  match out_process (tty_init_line 0) [65; 66] 0 2 1 with
  | (_, _, iused, oused) => iused = 2 /\ oused = 2 /\ ~ (0 <= oused <= 1)
  end.
Proof. vm_compute. repeat split; intros [_ H]; apply H; reflexivity. Qed.

Lemma out_process_within_counts_witness :
  match out_process (tty_init_line 0) [65; 9; 10; 66] 0 4 4 with
  | (tp', _, iused, oused) =>
    0 <= iused <= 4 /\ 0 <= tty_position tp' < TAB_SIZE /\ 0 <= oused <= 4
  end.
Proof.
  pose proof (out_process_within_counts (tty_init_line 0) [65; 9; 10; 66]
                0 4 4) as Hw.
  destruct Hw as [Hw _];
    try (unfold is_int; vm_compute; split; congruence);
    try (vm_compute; congruence).
  destruct (out_process (tty_init_line 0) [65; 9; 10; 66] 0 4 4)
    as [[[tp' buf'] iused] oused].
  destruct Hw as (Hi & Hc & Ho).
  split; [exact Hi | split; [exact Hc | apply Ho; lia]].
Defined.

(** A line feed in the last slot of the buffer: CR is written there and LF
    in the first slot, and the column, 5 before, is 0 after. *)
Lemma out_process_lf_crlf_witness :
  match out_process (set_position 5 (tty_init_line 0)) [66; 10] 1 1 4 with
  | (tp', buf', iused, oused) =>
    buf' = [10; 13] /\ iused = 1 /\ oused = 2 /\ tty_position tp' = 0
  end.
Proof.
  pose proof (out_process_lf_crlf 3 (Build_olocals 1 4 5 1 [66; 10]) 0
                (set_position 5 (tty_init_line 0)) [66; 10] 1 1 4) as Hw.
  destruct Hw as (_ & _ & Hw & _);
    try reflexivity;
    try (unfold is_int; vm_compute; split; congruence).
  specialize (Hw ltac:(lia)).
  destruct (out_process (set_position 5 (tty_init_line 0)) [66; 10] 1 1 4)
    as [[[tp' buf'] iused] oused].
  destruct Hw as (Hb & Hi & Ho & Hc & _).
  split; [exact Hb | split; [exact Hi | split; [exact Ho | exact Hc]]].
Defined.

(** ** What the echo functions leave alone *)

(** Reduction of the fields of a line that has been assigned to. *)
Ltac fields :=
  cbn [inq rd wr io sel ctl dev tty_termios tty_trace
       tty_inbuf tty_inhead tty_intail tty_incount tty_eotct
       tty_inrepcode tty_inrevived tty_incaller tty_inproc tty_in_vir
       tty_inleft tty_incum
       tty_outrepcode tty_outrevived tty_outcaller tty_outproc tty_out_vir
       tty_outleft tty_outcum
       tty_iocaller tty_ioproc tty_ioreq tty_iovir
       tty_select_ops tty_select_proc
       tty_index tty_minor tty_min tty_tmr tty_escaped tty_inhibited
       tty_pgrp tty_openct
       tty_priv tty_position tty_reprint tty_events tty_winsize
       with_inq with_rd with_wr with_io with_sel with_ctl with_dev
       set_termios emit
       set_inbuf set_inhead set_intail set_incount set_eotct
       set_inrepcode set_inrevived set_incaller set_inproc set_in_vir
       set_inleft set_incum
       set_outrepcode set_outrevived set_outcaller set_outproc set_out_vir
       set_outleft set_outcum set_ioreq set_select_ops
       set_min set_tmr set_escaped set_inhibited set_pgrp set_openct
       set_position set_reprint set_events
       fst snd] in *.

Section EchoFrame.
Context `{E : Env}.

Lemma line_part_fields (a b : tty) :
  line_part a = line_part b ->
  inq a = inq b /\ rd a = rd b /\ wr a = wr b /\ io a = io b /\
  sel a = sel b /\ ctl a = ctl b /\ tty_termios a = tty_termios b.
Proof. unfold line_part. intros [= -> -> -> -> -> -> ->]. repeat split. Qed.

Lemma line_part_lflag (a b : tty) : line_part a = line_part b -> lflag a = lflag b.
Proof.
  intros Heq. unfold lflag. apply line_part_fields in Heq.
  destruct Heq as (_ & _ & _ & _ & _ & _ & ->). reflexivity.
Qed.

Lemma call_echo_line tp c : line_part (call_echo tp c) = line_part tp.
Proof. reflexivity. Qed.

Lemma rawecho_line tp c : line_part (rawecho tp c) = line_part tp.
Proof. unfold rawecho. destruct (tst (lflag tp) ECHO); reflexivity. Qed.

Lemma rawecho_reprint tp c : tty_reprint (rawecho tp c) = tty_reprint tp.
Proof. reflexivity. Qed.

Lemma echo_tab_line n tp len : line_part (fst (echo_tab n tp len)) = line_part tp.
Proof.
  revert tp len. induction n as [|n IH]; intros tp len; cbn [echo_tab].
  - reflexivity.
  - destruct ((len + 1 <? TAB_SIZE)
              && negb (Z.land (tty_position (call_echo tp 32)) TAB_MASK =? 0)).
    + rewrite IH. reflexivity.
    + reflexivity.
Qed.

Lemma echo_tab_len n tp len :
  len + 1 <= snd (echo_tab n tp len) <= len + 1 + Z.of_nat n.
Proof.
  revert tp len. induction n as [|n IH]; intros tp len; cbn [echo_tab].
  - cbn [snd]. lia.
  - destruct ((len + 1 <? TAB_SIZE)
              && negb (Z.land (tty_position (call_echo tp 32)) TAB_MASK =? 0)).
    + specialize (IH (call_echo tp 32) (len + 1)). lia.
    + cbn [snd]. lia.
Qed.

Lemma echo_bs_line n tp : line_part (echo_bs n tp) = line_part tp.
Proof.
  revert tp. induction n as [|n IH]; intros tp; cbn [echo_bs].
  - reflexivity.
  - rewrite IH. reflexivity.
Qed.

(** The shape of the result of [tty_echo]: the line keeps everything but
    its device side and its calls, and the cell is the one given with its
    LEN bits replaced by an echoed length. *)
Lemma tty_echo_shape tp ch :
  line_part (fst (tty_echo tp ch)) = line_part tp /\
  exists len, echo_len_ok len /\
    snd (tty_echo tp ch) =
      Z.lor (Z.land ch (Z.lnot IN_LEN)) (Z.shiftl len IN_LSHIFT).
Proof.
  unfold tty_echo, echo_len_ok.
  destruct (tst (lflag tp) ECHO); cbn [negb].
  2:{ split.
      - destruct ((Z.land ch (Z.lnot IN_LEN) =? Z.lor 10 IN_EOT)
                  && all_set (lflag tp) (Z.lor ICANON ECHONL)); reflexivity.
      - exists 0. rewrite Z.shiftl_0_l, Z.lor_0_r. cbn [snd]. split; [lia|reflexivity]. }
  set (c := Z.land ch (Z.lnot IN_LEN)).
  set (rp := if tty_incount tp =? 0 then 0 else tty_reprint tp).
  assert (Hcase : exists tp1 len1,
    line_part tp1 = line_part tp /\ 0 <= len1 <= Z.max 2 TAB_SIZE /\
    (if Z.land c IN_CHAR <? 32
     then
       if Z.land c (Z.lor (Z.lor (Z.lor IN_ESC IN_EOF) IN_EOT) IN_CHAR) =? 9
       then echo_tab (Z.to_nat (TAB_SIZE - 1)) tp 0
       else if (Z.land c (Z.lor (Z.lor (Z.lor IN_ESC IN_EOF) IN_EOT) IN_CHAR)
                  =? Z.lor 13 IN_EOT)
               || (Z.land c (Z.lor (Z.lor (Z.lor IN_ESC IN_EOF) IN_EOT) IN_CHAR)
                  =? Z.lor 10 IN_EOT)
       then (call_echo tp (Z.land c IN_CHAR), 0)
       else (call_echo (call_echo tp 94) (64 + Z.land c IN_CHAR), 2)
     else if Z.land c IN_CHAR =? 127
     then (call_echo (call_echo tp 94) 63, 2)
     else (call_echo tp (Z.land c IN_CHAR), 1)) = (tp1, len1)).
  { destruct (Z.land c IN_CHAR <? 32).
    - destruct (Z.land c (Z.lor (Z.lor (Z.lor IN_ESC IN_EOF) IN_EOT) IN_CHAR) =? 9).
      + exists (fst (echo_tab (Z.to_nat (TAB_SIZE - 1)) tp 0)),
               (snd (echo_tab (Z.to_nat (TAB_SIZE - 1)) tp 0)).
        split; [apply echo_tab_line|].
        pose proof (echo_tab_len (Z.to_nat (TAB_SIZE - 1)) tp 0).
        split; [lia|]. destruct (echo_tab _ tp 0); reflexivity.
      + destruct (_ || _); eexists; eexists;
          (split; [|split; [|reflexivity]]); try reflexivity; lia.
    - destruct (Z.land c IN_CHAR =? 127); eexists; eexists;
        (split; [|split; [|reflexivity]]); try reflexivity; lia. }
  destruct Hcase as (tp1 & len1 & Hl1 & Hlen1 & ->).
  destruct (tst c IN_EOF); cbn [fst snd].
  - split.
    + unfold line_part in *. fields. rewrite <- Hl1.
      pose proof (echo_bs_line (Z.to_nat len1) tp1) as Hb.
      unfold line_part in Hb. exact Hb.
    + exists (Z.min len1 0). split; [lia | reflexivity].
  - split.
    + unfold line_part in *. fields. exact Hl1.
    + exists len1. split; [lia | reflexivity].
Qed.

Lemma tty_echo_line tp ch : line_part (fst (tty_echo tp ch)) = line_part tp.
Proof. apply tty_echo_shape. Qed.

Lemma rub_out_line n tp : line_part (rub_out n tp) = line_part tp.
Proof.
  revert tp. induction n as [|n IH]; intros tp; cbn [rub_out].
  - reflexivity.
  - rewrite IH, !rawecho_line. reflexivity.
Qed.

End EchoFrame.

(** ** The layout of a queue cell *)

Section Cells.
Context `{P : Params}.

Lemma land_bit_0 a b n : Z.land a b = 0 ->
  Z.testbit a n && Z.testbit b n = false.
Proof. intros H0. rewrite <- Z.land_spec, H0. apply Z.bits_0. Qed.

Lemma u16_keeps_eot c :
  0 < IN_EOT < 65536 -> Z.land (u16_of c) IN_EOT = Z.land c IN_EOT.
Proof.
  unfold u16_of. intros Hm.
  change 65536 with (2 ^ 16). rewrite <- Z.land_ones by lia.
  rewrite <- Z.land_assoc. f_equal.
  rewrite Z.land_comm, Z.land_ones by lia.
  apply Z.mod_small. change (2 ^ 16) with 65536. lia.
Qed.

Lemma tst_u16_eot c :
  0 < IN_EOT < 65536 -> tst (u16_of c) IN_EOT = tst c IN_EOT.
Proof. intros Hm. unfold tst. rewrite u16_keeps_eot by assumption. reflexivity. Qed.

Lemma tst_lor_same c m : 0 < m -> tst (Z.lor c m) m = true.
Proof.
  intros Hm. unfold tst.
  replace (Z.land (Z.lor c m) m) with m.
  - destruct (Z.eqb_spec m 0); [lia | reflexivity].
  - apply Z.bits_inj'. intros n Hn.
    rewrite Z.land_spec, Z.lor_spec.
    destruct (Z.testbit c n), (Z.testbit m n); reflexivity.
Qed.

(** Replacing the LEN bits of a cell by an echoed length changes no bit
    outside the LEN field, and so not the EOT mark. *)
Lemma relen_outside ch len :
  cell_layout -> 0 <= len <= Z.max 2 TAB_SIZE ->
  Z.land (Z.lor (Z.land ch (Z.lnot IN_LEN)) (Z.shiftl len IN_LSHIFT))
         (Z.lnot IN_LEN) = Z.land ch (Z.lnot IN_LEN).
Proof.
  intros L Hlen. rewrite Z.land_lor_distr_l, (lay_len L len Hlen), Z.lor_0_r.
  rewrite <- Z.land_assoc, Z.land_diag. reflexivity.
Qed.

Lemma land_outside_len x :
  cell_layout -> Z.land x IN_EOT = Z.land (Z.land x (Z.lnot IN_LEN)) IN_EOT.
Proof.
  intros L. apply Z.bits_inj'. intros n Hn.
  rewrite !Z.land_spec, Z.lnot_spec by assumption.
  pose proof (land_bit_0 _ _ n (lay_eot_len L)) as Hb.
  destruct (Z.testbit x n), (Z.testbit IN_EOT n), (Z.testbit IN_LEN n);
    simpl in *; congruence.
Qed.

Lemma relen_eot ch len :
  cell_layout -> 0 <= len <= Z.max 2 TAB_SIZE ->
  tst (Z.lor (Z.land ch (Z.lnot IN_LEN)) (Z.shiftl len IN_LSHIFT)) IN_EOT
  = tst ch IN_EOT.
Proof.
  intros L Hlen. unfold tst.
  rewrite (land_outside_len (Z.lor _ _) L), relen_outside by assumption.
  rewrite <- (land_outside_len ch L). reflexivity.
Qed.

End Cells.

(** ** The input queue as a ring *)

Section Ring.
Context `{P : Params}.

Lemma ring_lt t i : (0 < TTY_IN_BYTES)%nat -> (ring t i < TTY_IN_BYTES)%nat.
Proof. intros Hc. unfold ring. apply Nat.mod_upper_bound. lia. Qed.

Lemma ring_0 t : (t < TTY_IN_BYTES)%nat -> ring t 0 = t.
Proof. intros Ht. unfold ring. rewrite Nat.add_0_r. apply Nat.mod_small, Ht. Qed.

Lemma ring_S t n :
  (0 < TTY_IN_BYTES)%nat ->
  ring t (S n) =
    if (S (ring t n) =? TTY_IN_BYTES)%nat then 0%nat else S (ring t n).
Proof.
  intros Hc. unfold ring.
  replace (t + S n)%nat with ((t + n) + 1)%nat by lia.
  rewrite <- Nat.Div0.add_mod_idemp_l.
  pose proof (Nat.mod_upper_bound (t + n) TTY_IN_BYTES ltac:(lia)) as Hr.
  destruct (Nat.eqb_spec (S ((t + n) mod TTY_IN_BYTES)) TTY_IN_BYTES) as [He|He].
  - replace ((t + n) mod TTY_IN_BYTES + 1)%nat with TTY_IN_BYTES by lia.
    apply Nat.Div0.mod_same.
  - rewrite Nat.mod_small by lia. lia.
Qed.

Lemma ring_next t n :
  (t < TTY_IN_BYTES)%nat ->
  ring (if (S t =? TTY_IN_BYTES)%nat then 0%nat else S t) n = ring t (S n).
Proof.
  intros Ht. unfold ring.
  destruct (Nat.eqb_spec (S t) TTY_IN_BYTES) as [He|He].
  - replace (t + S n)%nat with (n + 1 * TTY_IN_BYTES)%nat by lia.
    rewrite Nat.Div0.mod_add. reflexivity.
  - f_equal. lia.
Qed.

Lemma ring_inj t i j :
  (i < TTY_IN_BYTES)%nat -> (j < TTY_IN_BYTES)%nat ->
  ring t i = ring t j -> i = j.
Proof.
  unfold ring. intros Hi Hj Heq.
  assert (Hc : TTY_IN_BYTES <> 0%nat) by lia.
  pose proof (Nat.div_mod (t + i) TTY_IN_BYTES Hc) as Di.
  pose proof (Nat.div_mod (t + j) TTY_IN_BYTES Hc) as Dj.
  rewrite Heq in Di.
  set (qi := ((t + i) / TTY_IN_BYTES)%nat) in *.
  set (qj := ((t + j) / TTY_IN_BYTES)%nat) in *.
  set (r := ((t + j) mod TTY_IN_BYTES)%nat) in *.
  assert (qi = qj \/ qi < qj \/ qj < qi)%nat as [Hq|[Hq|Hq]] by lia.
  - subst qi. rewrite Hq in Di. lia.
  - assert (TTY_IN_BYTES * qj >= TTY_IN_BYTES * qi + TTY_IN_BYTES)%nat by nia.
    lia.
  - assert (TTY_IN_BYTES * qi >= TTY_IN_BYTES * qj + TTY_IN_BYTES)%nat by nia.
    lia.
Qed.

Lemma eots_bounds buf t n : 0 <= eots buf t n <= Z.of_nat n.
Proof.
  induction n as [|n IH]; cbn [eots]; [lia|].
  destruct (tst (buf !!! ring t n) IN_EOT); lia.
Qed.

Lemma eots_ext buf buf' t n :
  (forall i, (i < n)%nat ->
     tst (buf' !!! ring t i) IN_EOT = tst (buf !!! ring t i) IN_EOT) ->
  eots buf' t n = eots buf t n.
Proof.
  induction n as [|n IH]; intros Hext; cbn [eots]; [reflexivity|].
  rewrite IH by (intros i Hi; apply Hext; lia).
  rewrite Hext by lia. reflexivity.
Qed.

(** Writing the cell at the head leaves the cells of the queue alone. *)
Lemma eots_insert_head buf t n c :
  (n < TTY_IN_BYTES)%nat ->
  eots (<[ring t n := c]> buf) t n = eots buf t n.
Proof.
  intros Hn. apply eots_ext. intros i Hi.
  rewrite list_lookup_total_insert_ne; [reflexivity|].
  intros Heq. apply ring_inj in Heq; lia.
Qed.

(** Taking the cell at the tail. *)
Lemma eots_shift buf t n :
  (t < TTY_IN_BYTES)%nat ->
  eots buf t (S n) =
    (if tst (buf !!! t) IN_EOT then 1 else 0)
    + eots buf (if (S t =? TTY_IN_BYTES)%nat then 0%nat else S t) n.
Proof.
  intros Ht. induction n as [|n IH].
  - cbn [eots]. rewrite ring_0 by assumption. lia.
  - change (eots buf t (S (S n)))
      with (eots buf t (S n)
            + (if tst (buf !!! ring t (S n)) IN_EOT then 1 else 0)).
    rewrite IH. cbn [eots]. rewrite ring_next by assumption. lia.
Qed.

Lemma eots_all buf t n :
  (forall i, (i < n)%nat -> tst (buf !!! ring t i) IN_EOT = true) ->
  eots buf t n = Z.of_nat n.
Proof.
  induction n as [|n IH]; intros Hall; cbn [eots]; [reflexivity|].
  rewrite IH by (intros i Hi; apply Hall; lia).
  rewrite Hall by lia. lia.
Qed.

(** What the invariant gives at once: the bounds the specification states. *)
Lemma queue_ok_bounds q :
  queue_ok q ->
  0 <= tty_eotct q <= tty_incount q /\
  tty_incount q <= Z.of_nat TTY_IN_BYTES /\
  ((Z.of_nat (tty_intail q) + tty_incount q) mod Z.of_nat TTY_IN_BYTES
   = Z.of_nat (tty_inhead q)).
Proof.
  intros [Hl Hh Ht Hc Hr He].
  pose proof (eots_bounds (tty_inbuf q) (tty_intail q)
                          (Z.to_nat (tty_incount q))) as Hb.
  split; [lia | split; [lia|]].
  rewrite <- Hr. unfold ring.
  rewrite Nat2Z.inj_mod, Nat2Z.inj_add, Z2Nat.id by lia. reflexivity.
Qed.

End Ring.

(** ** The queue invariant under the operations on the queue *)

Section QueueOps.
Context `{E : Env}.

Lemma eot_same_refl q : eot_same q q.
Proof. repeat split. Qed.

Lemma eot_same_trans q1 q2 q3 :
  eot_same q1 q2 -> eot_same q2 q3 -> eot_same q1 q3.
Proof.
  intros (a1 & a2 & a3 & a4 & a5 & a6) (b1 & b2 & b3 & b4 & b5 & b6).
  repeat split; try congruence; intros i; rewrite b6; apply a6.
Qed.

Lemma eot_same_ok q q' : eot_same q q' -> queue_ok q -> queue_ok q'.
Proof.
  intros (e1 & e2 & e3 & e4 & e5 & e6) [Hl Hh Ht Hc Hr He].
  constructor; rewrite ?e1, ?e2, ?e3, ?e4, ?e5; try assumption.
  rewrite He. symmetry. apply eots_ext. intros i _. apply e6.
Qed.

Lemma steady_refl tp : steady tp tp.
Proof. split; auto. Qed.

Lemma steady_trans a b c : steady a b -> steady b c -> steady a c.
Proof. intros [t1 q1] [t2 q2]. split; [congruence | auto]. Qed.

Lemma steady_line a b : line_part b = line_part a -> steady a b.
Proof.
  intros Hl. apply line_part_fields in Hl.
  destruct Hl as (Hq & _ & _ & _ & _ & _ & Ht).
  split; [exact Ht | rewrite Hq; auto].
Qed.

Lemma steady_same a b :
  tty_termios b = tty_termios a -> inq b = inq a -> steady a b.
Proof. intros Ht Hq. split; [exact Ht | rewrite Hq; auto]. Qed.

Lemma steady_lflag a b : steady a b -> lflag b = lflag a.
Proof. intros [Ht _]. unfold lflag. rewrite Ht. reflexivity. Qed.

Lemma steady_iflag a b : steady a b -> iflag b = iflag a.
Proof. intros [Ht _]. unfold iflag. rewrite Ht. reflexivity. Qed.

Lemma steady_cc a b i : steady a b -> cc b i = cc a i.
Proof. intros [Ht _]. unfold cc. rewrite Ht. reflexivity. Qed.

(** *** Flushing: tty_icancel and sigchar *)

Lemma flushed_ok (q : inqueue) :
  length (tty_inbuf q) = TTY_IN_BYTES -> (tty_inhead q < TTY_IN_BYTES)%nat ->
  queue_ok {| tty_inbuf := tty_inbuf q; tty_inhead := tty_inhead q;
              tty_intail := tty_inhead q; tty_incount := 0; tty_eotct := 0 |}.
Proof.
  intros Hl Hh. constructor; cbn; try assumption; try lia.
  - apply ring_0, Hh.
  - reflexivity.
Qed.

Lemma tty_icancel_steady tp : steady tp (tty_icancel tp).
Proof.
  split; [reflexivity|]. intros [Hl Hh _ _ _ _].
  exact (flushed_ok tp Hl Hh).
Qed.

Lemma sigchar_steady tp sig : steady tp (sigchar tp sig).
Proof.
  unfold sigchar.
  set (tp1 := if negb (tty_pgrp tp =? 0)
              then emit (EvKill (tty_pgrp tp) sig) tp else tp).
  assert (H1 : line_part tp1 = line_part tp)
    by (subst tp1; destruct (negb (tty_pgrp tp =? 0)); reflexivity).
  apply (steady_trans _ tp1); [apply steady_line, H1|].
  destruct (negb (tst (lflag tp1) NOFLSH)); [|apply steady_refl].
  split; [reflexivity|]. intros [Hl Hh _ _ _ _].
  exact (flushed_ok tp1 Hl Hh).
Qed.

(** *** reprint *)

Lemma insert_eot_same (buf : list Z) h c :
  0 < IN_EOT < 65536 ->
  tst c IN_EOT = tst (buf !!! h) IN_EOT ->
  forall i, tst (<[h := u16_of c]> buf !!! i) IN_EOT = tst (buf !!! i) IN_EOT.
Proof.
  intros Hm Hc i. destruct (decide (h = i)) as [->|Hne].
  - destruct (decide (i < length buf)%nat).
    + rewrite list_lookup_total_insert_eq by assumption.
      rewrite tst_u16_eot by assumption. exact Hc.
    + rewrite list_insert_ge by lia. reflexivity.
  - rewrite list_lookup_total_insert_ne by assumption. reflexivity.
Qed.

Lemma tty_echo_eot tp ch :
  cell_layout -> tst (snd (tty_echo tp ch)) IN_EOT = tst ch IN_EOT.
Proof.
  intros L. destruct (tty_echo_shape tp ch) as (_ & len & Hlen & ->).
  apply relen_eot; assumption.
Qed.

Lemma reprint_fwd_same n tp head :
  cell_layout ->
  tty_termios (reprint_fwd n tp head) = tty_termios tp /\
  eot_same tp (reprint_fwd n tp head).
Proof.
  intros L. revert tp head.
  induction n as [|n IH]; intros tp head; cbn [reprint_fwd].
  - split; [reflexivity | apply eot_same_refl].
  - set (h := if (head =? inbuf_end)%nat then 0%nat else head).
    destruct (tty_echo tp (tty_inbuf tp !!! h)) as [tp1 c] eqn:Hecho.
    pose proof (tty_echo_line tp (tty_inbuf tp !!! h)) as Hline.
    pose proof (tty_echo_eot tp (tty_inbuf tp !!! h) L) as Heot.
    rewrite Hecho in Hline, Heot. cbn [fst snd] in Hline, Heot.
    apply line_part_fields in Hline.
    destruct Hline as (Hq & _ & _ & _ & _ & _ & Ht).
    destruct (IH (set_inbuf (<[h := u16_of c]> (tty_inbuf tp1)) tp1) (S h))
      as [IHt IHs].
    split; [rewrite IHt; fields; exact Ht|].
    eapply eot_same_trans; [|exact IHs].
    unfold eot_same. fields. rewrite Hq.
    repeat split; [apply length_insert|].
    apply insert_eot_same; [apply (lay_eot L) | exact Heot].
Qed.

Lemma reprint_same tp :
  cell_layout ->
  tty_termios (reprint tp) = tty_termios tp /\ eot_same tp (reprint tp).
Proof.
  intros L. unfold reprint.
  set (tp0 := set_reprint 0 tp).
  destruct (reprint_back _ _ _ _) as [head count].
  destruct (count =? tty_incount tp0); [split; [reflexivity | apply eot_same_refl]|].
  set (tp3 := rawecho (rawecho (fst (tty_echo tp0 (Z.lor (cc tp0 VREPRINT) IN_ESC))) 13) 10).
  assert (H3 : line_part tp3 = line_part tp).
  { subst tp3. rewrite !rawecho_line, tty_echo_line. reflexivity. }
  apply line_part_fields in H3. destruct H3 as (Hq & _ & _ & _ & _ & _ & Ht).
  destruct (reprint_fwd_same (Z.to_nat (tty_incount tp3 - count)) tp3 head L)
    as [Ft Fs].
  split; [congruence|]. rewrite <- Hq. exact Fs.
Qed.

Lemma reprint_steady tp : cell_layout -> steady tp (reprint tp).
Proof.
  intros L. destruct (reprint_same tp L) as [Ht Hs].
  split; [exact Ht | apply eot_same_ok, Hs].
Qed.

End QueueOps.

Section BackOver.
Context `{E : Env}.

Lemma ring_prev_head (q : inqueue) :
  queue_ok q -> tty_incount q <> 0 ->
  ring (tty_intail q) (Z.to_nat (tty_incount q - 1)) = ring_prev (tty_inhead q).
Proof.
  intros [Hl Hh Ht Hc Hr He] Hne.
  assert (Hcap : (0 < TTY_IN_BYTES)%nat) by lia.
  replace (Z.to_nat (tty_incount q)) with (S (Z.to_nat (tty_incount q - 1)))
    in Hr by lia.
  rewrite ring_S in Hr by assumption.
  pose proof (ring_lt (tty_intail q) (Z.to_nat (tty_incount q - 1)) Hcap) as Hlt.
  unfold ring_prev, inbuf_end. rewrite <- Hr.
  destruct (Nat.eqb_spec (S (ring (tty_intail q) (Z.to_nat (tty_incount q - 1))))
                         TTY_IN_BYTES) as [He1|He1].
  - cbn [Nat.eqb]. lia.
  - cbn [Nat.eqb]. lia.
Qed.

(** Dropping the last cell of the queue when it is no line break. *)
Lemma drop_last_ok (q : inqueue) :
  queue_ok q -> tty_incount q <> 0 ->
  tst (tty_inbuf q !!! ring_prev (tty_inhead q)) IN_EOT = false ->
  queue_ok {| tty_inbuf := tty_inbuf q; tty_inhead := ring_prev (tty_inhead q);
              tty_intail := tty_intail q; tty_incount := tty_incount q - 1;
              tty_eotct := tty_eotct q |}.
Proof.
  intros Hok Hne Hcell.
  pose proof (ring_prev_head q Hok Hne) as Hp.
  destruct Hok as [Hl Hh Ht Hc Hr He].
  assert (Hcap : (0 < TTY_IN_BYTES)%nat) by lia.
  constructor; cbn [tty_inbuf tty_inhead tty_intail tty_incount tty_eotct];
    try assumption; try lia.
  - rewrite <- Hp. apply ring_lt, Hcap.
  - rewrite He.
    replace (Z.to_nat (tty_incount q)) with (S (Z.to_nat (tty_incount q - 1)))
      by lia.
    cbn [eots]. rewrite Hp, Hcell. lia.
Qed.

(** [back_over] refuses on an empty queue and on a line break, and changes
    nothing then; otherwise it takes the last cell off the queue: the count
    goes down by one, the head moves back one cell, tail and EOT count
    stay, and the queue invariant is kept. *)
Lemma back_over_spec (tp : tty) :
  cell_layout ->
  (tty_incount tp = 0 \/
   tst (tty_inbuf tp !!! ring_prev (tty_inhead tp)) IN_EOT = true ->
   back_over tp = (tp, 0)) /\
  (tty_incount tp <> 0 ->
   tst (tty_inbuf tp !!! ring_prev (tty_inhead tp)) IN_EOT = false ->
   snd (back_over tp) = 1 /\
   tty_termios (fst (back_over tp)) = tty_termios tp /\
   tty_incount (fst (back_over tp)) = tty_incount tp - 1 /\
   tty_inhead (fst (back_over tp)) = ring_prev (tty_inhead tp) /\
   tty_intail (fst (back_over tp)) = tty_intail tp /\
   tty_eotct (fst (back_over tp)) = tty_eotct tp /\
   (queue_ok tp -> queue_ok (fst (back_over tp)))).
Proof.
  intros L. unfold back_over.
  change ((if (tty_inhead tp =? 0)%nat then inbuf_end else tty_inhead tp) - 1)%nat
    with (ring_prev (tty_inhead tp)).
  split.
  - intros [H0 | Heot].
    + rewrite H0. reflexivity.
    + destruct (tty_incount tp =? 0); [reflexivity|]. rewrite Heot. reflexivity.
  - intros Hne Hcell.
    destruct (Z.eqb_spec (tty_incount tp) 0) as [|_]; [contradiction|].
    rewrite Hcell.
    set (h := ring_prev (tty_inhead tp)) in *.
    set (tp1 := if negb (tty_reprint tp =? 0) then reprint tp else tp).
    assert (H1 : tty_termios tp1 = tty_termios tp /\ eot_same tp tp1).
    { subst tp1. destruct (negb (tty_reprint tp =? 0)).
      - apply reprint_same, L.
      - split; [reflexivity | apply eot_same_refl]. }
    destruct H1 as [Ht1 Hs1].
    set (tp2 := set_incount (tty_incount (set_inhead h tp1) - 1) (set_inhead h tp1)).
    set (tp3 := if tst (lflag tp2) ECHOE
                then rub_out (Z.to_nat (Z.shiftr (Z.land (tty_inbuf tp2 !!! h) IN_LEN)
                                                 IN_LSHIFT)) tp2
                else tp2).
    assert (H3 : line_part tp3 = line_part tp2).
    { subst tp3. destruct (tst (lflag tp2) ECHOE);
        [apply rub_out_line | reflexivity]. }
    apply line_part_fields in H3.
    destruct H3 as (Hq3 & _ & _ & _ & _ & _ & Ht3).
    cbn [fst snd].
    destruct Hs1 as (e1 & e2 & e3 & e4 & e5 & e6).
    split; [reflexivity|].
    split; [rewrite Ht3; subst tp2; fields; exact Ht1|].
    rewrite Hq3. subst tp2. fields.
    split; [lia|]. split; [reflexivity|]. split; [exact e2|]. split; [exact e4|].
    intros Hok.
    assert (Hok1 : queue_ok tp1)
      by (apply (eot_same_ok tp); [repeat split; assumption | exact Hok]).
    assert (Hcell1 : tst (tty_inbuf tp1 !!! ring_prev (tty_inhead tp1)) IN_EOT = false)
      by (rewrite e1, e6; exact Hcell).
    pose proof (drop_last_ok tp1 Hok1 ltac:(lia) Hcell1) as Hd.
    rewrite e1 in Hd. exact Hd.
Qed.

Lemma back_over_steady (tp : tty) : cell_layout -> steady tp (fst (back_over tp)).
Proof.
  intros L. destruct (back_over_spec tp L) as [Hno Hyes].
  destruct (Z.eq_dec (tty_incount tp) 0) as [H0|Hne].
  - rewrite Hno by auto. apply steady_refl.
  - destruct (tst (tty_inbuf tp !!! ring_prev (tty_inhead tp)) IN_EOT) eqn:Hc.
    + rewrite Hno by auto. apply steady_refl.
    + destruct (Hyes Hne eq_refl) as (_ & Ht & _ & _ & _ & _ & Hq).
      split; assumption.
Qed.

Lemma kill_line_steady n (tp : tty) : cell_layout -> steady tp (kill_line n tp).
Proof.
  intros L. revert tp. induction n as [|n IH]; intros tp; cbn [kill_line].
  - pose proof (back_over_steady tp L) as Hb.
    destruct (back_over tp) as [tp' r]. exact Hb.
  - pose proof (back_over_steady tp L) as Hb.
    destruct (back_over tp) as [tp' r]. cbn [fst] in Hb.
    destruct (r =? 0); [exact Hb|].
    eapply steady_trans; [exact Hb | apply IH].
Qed.

(** After [kill_line] the queue is empty or ends in a line break, and the
    cells up to there are the ones that were there. *)
Lemma kill_line_to_break n (tp : tty) :
  cell_layout -> queue_ok tp -> (Z.to_nat (tty_incount tp) <= n)%nat ->
  (tty_incount (kill_line n tp) = 0 \/
   tst (tty_inbuf (kill_line n tp) !!! ring_prev (tty_inhead (kill_line n tp)))
       IN_EOT = true) /\
  tty_intail (kill_line n tp) = tty_intail tp /\
  tty_eotct (kill_line n tp) = tty_eotct tp /\
  tty_incount (kill_line n tp) <= tty_incount tp.
Proof.
  intros L. revert tp. induction n as [|n IH]; intros tp Hok Hn.
  - assert (H0 : tty_incount tp = 0) by (destruct Hok; lia).
    cbn [kill_line]. destruct (back_over_spec tp L) as [Hno _].
    rewrite Hno by auto. repeat split; auto; lia.
  - cbn [kill_line]. destruct (back_over_spec tp L) as [Hno Hyes].
    destruct (Z.eq_dec (tty_incount tp) 0) as [H0|Hne].
    { rewrite Hno by auto. cbn. repeat split; auto; lia. }
    destruct (tst (tty_inbuf tp !!! ring_prev (tty_inhead tp)) IN_EOT) eqn:Hc.
    { rewrite Hno by auto. cbn. repeat split; auto; lia. }
    destruct (Hyes Hne eq_refl) as (Hr & Ht & Hct & Hh & Htl & He & Hq).
    destruct (back_over tp) as [tp' r]. cbn [fst snd] in *. subst r.
    cbn [Z.eqb Pos.eqb].
    destruct (IH tp' (Hq Hok)) as (I1 & I2 & I3 & I4).
    { destruct Hok. lia. }
    split; [exact I1|]. split; [congruence|]. split; [congruence|]. lia.
Qed.

End BackOver.

(** ** in_transfer *)

Section Transfer.
Context `{E : Env}.

Lemma copied_app tr1 tr2 : copied (tr1 ++ tr2) = copied tr1 + copied tr2.
Proof.
  induction tr1 as [|e tr1 IH]; cbn [copied app]; [lia|].
  destruct e; cbn [copied]; rewrite IH; lia.
Qed.

(** Taking the cell at the tail of a queue that is not empty. *)
Lemma take_first_ok (q : inqueue) :
  queue_ok q -> 0 < tty_incount q ->
  queue_ok {| tty_inbuf := tty_inbuf q; tty_inhead := tty_inhead q;
              tty_intail := if (S (tty_intail q) =? TTY_IN_BYTES)%nat
                            then 0%nat else S (tty_intail q);
              tty_incount := tty_incount q - 1;
              tty_eotct := tty_eotct q
                - (if tst (tty_inbuf q !!! tty_intail q) IN_EOT then 1 else 0) |}.
Proof.
  intros [Hl Hh Ht Hc Hr He] Hpos.
  assert (Hn : Z.to_nat (tty_incount q) = S (Z.to_nat (tty_incount q - 1)))
    by lia.
  constructor; cbn [tty_inbuf tty_inhead tty_intail tty_incount tty_eotct];
    try assumption; try lia.
  - destruct (Nat.eqb_spec (S (tty_intail q)) TTY_IN_BYTES); lia.
  - rewrite ring_next by assumption. rewrite <- Hn. exact Hr.
  - rewrite He, Hn, eots_shift by assumption. lia.
Qed.

Lemma copy_out_line tp bytes :
  inq (copy_out tp bytes) = inq tp /\
  tty_termios (copy_out tp bytes) = tty_termios tp /\
  tty_inleft (copy_out tp bytes) = tty_inleft tp /\
  tty_trace (copy_out tp bytes) =
    tty_trace tp ++ [EvCopy (tty_inproc tp) (tty_in_vir tp) bytes].
Proof. repeat split. Qed.

Lemma reply_reader_line tp :
  inq (reply_reader tp) = inq tp /\
  tty_termios (reply_reader tp) = tty_termios tp /\
  copied (tty_trace (reply_reader tp)) = copied (tty_trace tp).
Proof.
  unfold reply_reader. destruct (tty_inrepcode tp =? REVIVE); fields;
    rewrite copied_app; cbn [copied]; repeat split; lia.
Qed.

(** The body of the loop, one field at a time. *)
Lemma in_transfer_cell_fields (tp : tty) (bp : list Z) :
  let ch := tty_inbuf tp !!! tty_intail tp in
  let tp' := fst (in_transfer_cell tp bp) in
  let bp' := snd (in_transfer_cell tp bp) in
  tty_termios tp' = tty_termios tp /\
  tty_inbuf tp' = tty_inbuf tp /\ tty_inhead tp' = tty_inhead tp /\
  tty_intail tp' = (if (S (tty_intail tp) =? TTY_IN_BYTES)%nat
                    then 0%nat else S (tty_intail tp)) /\
  tty_incount tp' = tty_incount tp - 1 /\
  tty_eotct tp' = tty_eotct tp - (if tst ch IN_EOT then 1 else 0) /\
  tty_inleft tp' =
    (if tst ch IN_EOT && tst (lflag tp) ICANON then 0
     else if tst ch IN_EOF then tty_inleft tp else tty_inleft tp - 1) /\
  copied (tty_trace tp') + Z.of_nat (length bp') =
    copied (tty_trace tp) + Z.of_nat (length bp)
    + (if tst ch IN_EOF then 0 else 1) /\
  (tst ch IN_EOF = true -> bp' = bp /\ tty_trace tp' = tty_trace tp).
Proof.
  unfold in_transfer_cell. cbn zeta.
  destruct (tst (tty_inbuf tp !!! tty_intail tp) IN_EOF) eqn:Heof; cbn [negb].
  - destruct (tst (tty_inbuf tp !!! tty_intail tp) IN_EOT) eqn:Heot; fields.
    + unfold lflag. fields.
      destruct (tst (c_lflag (tty_termios tp)) ICANON); fields;
        cbn [andb]; repeat split; lia.
    + cbn [andb]. repeat split; lia.
  - destruct (Nat.eqb_spec (length (bp ++ [char_of (Z.land (tty_inbuf tp !!! tty_intail tp) IN_CHAR)])) 64) as [H64|H64].
    + destruct (tst (tty_inbuf tp !!! tty_intail tp) IN_EOT) eqn:Heot; fields.
      * unfold lflag, copy_out. fields.
        destruct (tst (c_lflag (tty_termios tp)) ICANON); fields; cbn [andb];
          rewrite copied_app; cbn [copied length];
          rewrite ?length_app in *; cbn [length] in *;
          repeat split; try lia; discriminate.
      * unfold copy_out. fields. cbn [andb].
        rewrite copied_app; cbn [copied length];
          rewrite ?length_app in *; cbn [length] in *;
          repeat split; try lia; discriminate.
    + destruct (tst (tty_inbuf tp !!! tty_intail tp) IN_EOT) eqn:Heot; fields.
      * unfold lflag. fields.
        destruct (tst (c_lflag (tty_termios tp)) ICANON); fields; cbn [andb];
          rewrite ?length_app; cbn [length];
          repeat split; try lia; discriminate.
      * cbn [andb]. rewrite ?length_app; cbn [length].
        repeat split; try lia; discriminate.
Qed.

Lemma in_transfer_cell_steady (tp : tty) bp :
  0 < tty_eotct tp -> steady tp (fst (in_transfer_cell tp bp)).
Proof.
  intros Hpos.
  destruct (in_transfer_cell_fields tp bp)
    as (Ht & Hb & Hh & Htl & Hc & He & _).
  split; [exact Ht|]. intros Hok.
  pose proof (queue_ok_bounds tp Hok) as (Hbd & _).
  pose proof (take_first_ok tp Hok ltac:(lia)) as Hq.
  destruct (inq (fst (in_transfer_cell tp bp))) as [b h t c e] eqn:Hinq.
  cbn [tty_inbuf tty_inhead tty_intail tty_incount tty_eotct] in *.
  subst. exact Hq.
Qed.

End Transfer.

Section TransferLoop.
Context `{E : Env}.

Lemma in_transfer_loop_steady n (tp : tty) bp :
  steady tp (fst (in_transfer_loop n tp bp)).
Proof.
  revert tp bp. induction n as [|n IH]; intros tp bp; cbn [in_transfer_loop].
  - apply steady_refl.
  - destruct (Z.ltb_spec 0 (tty_inleft tp)); cbn [andb]; [|apply steady_refl].
    destruct (Z.ltb_spec 0 (tty_eotct tp)); [|apply steady_refl].
    pose proof (in_transfer_cell_steady tp bp ltac:(lia)) as Hs.
    destruct (in_transfer_cell tp bp) as [tp1 bp1]. cbn [fst] in Hs.
    eapply steady_trans; [exact Hs | apply IH].
Qed.

(** The passes allowed to the loop are enough: on a queue that satisfies
    the invariant the loop is left because its own test fails. *)
Lemma in_transfer_loop_done n (tp : tty) bp :
  queue_ok tp -> (Z.to_nat (tty_incount tp) <= n)%nat ->
  (0 <? tty_inleft (fst (in_transfer_loop n tp bp)))
  && (0 <? tty_eotct (fst (in_transfer_loop n tp bp))) = false.
Proof.
  revert tp bp. induction n as [|n IH]; intros tp bp Hok Hn;
    cbn [in_transfer_loop].
  - pose proof (queue_ok_bounds tp Hok) as (Hb & _). cbn [fst].
    destruct (Z.ltb_spec 0 (tty_eotct tp)); [lia|]. apply andb_false_r.
  - destruct ((0 <? tty_inleft tp) && (0 <? tty_eotct tp)) eqn:Hgo;
      [|exact Hgo].
    apply andb_true_iff in Hgo. destruct Hgo as [_ He].
    apply Z.ltb_lt in He.
    pose proof (in_transfer_cell_steady tp bp He) as [_ Hs].
    destruct (in_transfer_cell_fields tp bp) as (_ & _ & _ & _ & Hc & _).
    destruct (in_transfer_cell tp bp) as [tp1 bp1]. cbn [fst snd] in *.
    apply IH; [auto | lia].
Qed.

(** What the loop does to the reader's leftover and to the bytes copied. *)
Lemma in_transfer_loop_copied n (tp : tty) bp :
  0 <= tty_inleft tp ->
  let r := in_transfer_loop n tp bp in
  0 <= tty_inleft (fst r) /\
  copied (tty_trace (fst r)) + Z.of_nat (length (snd r)) + tty_inleft (fst r)
  <= copied (tty_trace tp) + Z.of_nat (length bp) + tty_inleft tp.
Proof.
  cbn zeta. revert tp bp. induction n as [|n IH]; intros tp bp Hleft;
    cbn [in_transfer_loop].
  - cbn [fst snd]. lia.
  - destruct (Z.ltb_spec 0 (tty_inleft tp)); cbn [andb]; [|cbn [fst snd]; lia].
    destruct (Z.ltb_spec 0 (tty_eotct tp)); [|cbn [fst snd]; lia].
    destruct (in_transfer_cell_fields tp bp)
      as (_ & _ & _ & _ & _ & _ & Hl & Hcp & _).
    destruct (in_transfer_cell tp bp) as [tp1 bp1]. cbn [fst snd] in *.
    assert (Hl1 : 0 <= tty_inleft tp1 /\
                  tty_inleft tp1 + (if tst (tty_inbuf tp !!! tty_intail tp) IN_EOF
                                    then 0 else 1) <= tty_inleft tp).
    { rewrite Hl.
      destruct (tst (tty_inbuf tp !!! tty_intail tp) IN_EOT
                && tst (lflag tp) ICANON);
      destruct (tst (tty_inbuf tp !!! tty_intail tp) IN_EOF); lia. }
    destruct (IH tp1 bp1 ltac:(lia)) as [I1 I2]. lia.
Qed.

(** In canonical mode the loop takes at most one line break. *)
Lemma in_transfer_loop_one_line n (tp : tty) bp :
  tst (lflag tp) ICANON = true ->
  tty_eotct tp - 1 <= tty_eotct (fst (in_transfer_loop n tp bp))
  <= tty_eotct tp.
Proof.
  revert tp bp. induction n as [|n IH]; intros tp bp Hcanon;
    cbn [in_transfer_loop].
  - cbn [fst]. lia.
  - destruct (Z.ltb_spec 0 (tty_inleft tp)); cbn [andb]; [|cbn [fst]; lia].
    destruct (Z.ltb_spec 0 (tty_eotct tp)); [|cbn [fst]; lia].
    destruct (in_transfer_cell_fields tp bp)
      as (Ht & _ & _ & _ & _ & He & Hl & _).
    destruct (in_transfer_cell tp bp) as [tp1 bp1]. cbn [fst snd] in *.
    rewrite Hcanon in Hl.
    destruct (tst (tty_inbuf tp !!! tty_intail tp) IN_EOT); cbn [andb] in Hl.
    + destruct n as [|n]; cbn [in_transfer_loop]; [cbn [fst]; lia|].
      rewrite Hl. cbn [Z.ltb Z.compare andb fst]. lia.
    + assert (Hc1 : tst (lflag tp1) ICANON = true)
        by (unfold lflag in *; rewrite Ht; exact Hcanon).
      specialize (IH tp1 bp1 Hc1). lia.
Qed.

Lemma in_transfer_end_lines (tp : tty) bp :
  inq (in_transfer_end tp bp) = inq tp /\
  tty_termios (in_transfer_end tp bp) = tty_termios tp /\
  copied (tty_trace (in_transfer_end tp bp)) =
    copied (tty_trace tp) + Z.of_nat (length bp).
Proof.
  unfold in_transfer_end.
  set (tp1 := if (0 <? length bp)%nat then copy_out tp bp else tp).
  assert (H1 : inq tp1 = inq tp /\ tty_termios tp1 = tty_termios tp /\
               copied (tty_trace tp1) = copied (tty_trace tp) + Z.of_nat (length bp)).
  { subst tp1. destruct (Nat.ltb_spec 0 (length bp)).
    - unfold copy_out. fields. rewrite copied_app. cbn [copied].
      repeat split; lia.
    - repeat split; lia. }
  destruct H1 as (Hq & Ht & Hc).
  destruct (tty_inleft tp1 =? 0).
  - destruct (reply_reader_line tp1) as (Rq & Rt & Rc).
    repeat split; congruence.
  - repeat split; assumption.
Qed.

Lemma in_transfer_steady (tp : tty) : steady tp (in_transfer tp).
Proof.
  unfold in_transfer.
  set (tp0 := if c_ospeed (tty_termios tp) =? B0 then set_min 0 tp else tp).
  assert (H0 : steady tp tp0).
  { subst tp0. destruct (c_ospeed (tty_termios tp) =? B0);
      [apply steady_same; reflexivity | apply steady_refl]. }
  eapply steady_trans; [exact H0|].
  destruct ((tty_inleft tp0 =? 0) || (tty_eotct tp0 <? tty_min tp0));
    [apply steady_refl|].
  pose proof (in_transfer_loop_steady (Z.to_nat (tty_incount tp0)) tp0 []) as Hl.
  destruct (in_transfer_loop _ tp0 []) as [tp1 bp1]. cbn [fst] in Hl.
  eapply steady_trans; [exact Hl|].
  destruct (in_transfer_end_lines tp1 bp1) as (Hq & Ht & _).
  apply steady_same; assumption.
Qed.

End TransferLoop.

(** ** in_process *)

Section InProcess.
Context `{E : Env}.

(** Putting a cell at the head of a queue that is not full. *)
Lemma enqueue_ok (q : inqueue) (c : Z) :
  0 < IN_EOT < 65536 ->
  queue_ok q -> tty_incount q <> Z.of_nat TTY_IN_BYTES ->
  queue_ok {| tty_inbuf := <[tty_inhead q := u16_of c]> (tty_inbuf q);
              tty_inhead := if (S (tty_inhead q) =? TTY_IN_BYTES)%nat
                            then 0%nat else S (tty_inhead q);
              tty_intail := tty_intail q;
              tty_incount := tty_incount q + 1;
              tty_eotct := tty_eotct q + (if tst c IN_EOT then 1 else 0) |}.
Proof.
  intros Hm [Hl Hh Ht Hc Hr He] Hfull.
  assert (Hn : Z.to_nat (tty_incount q + 1) = S (Z.to_nat (tty_incount q)))
    by lia.
  assert (Hcap : (0 < TTY_IN_BYTES)%nat) by lia.
  constructor; cbn [tty_inbuf tty_inhead tty_intail tty_incount tty_eotct];
    try assumption; try lia.
  - rewrite length_insert. exact Hl.
  - destruct (Nat.eqb_spec (S (tty_inhead q)) TTY_IN_BYTES); lia.
  - rewrite Hn, ring_S, Hr by assumption. reflexivity.
  - rewrite Hn. cbn [eots]. rewrite Hr. rewrite <- Hr at 1.
    rewrite eots_insert_head by lia.
    rewrite list_lookup_total_insert_eq by lia.
    rewrite tst_u16_eot by assumption. rewrite He. reflexivity.
Qed.

Lemma settimer_steady tp b : steady tp (settimer tp b).
Proof. unfold settimer. destruct b; apply steady_same; reflexivity. Qed.

Lemma in_store_steady (tp : tty) ts ch :
  cell_layout -> steady tp (fst (fst (in_store tp ts ch))).
Proof.
  intros L. unfold in_store.
  destruct (Z.eqb_spec (tty_incount tp) (Z.of_nat TTY_IN_BYTES)) as [Hfull|Hfull].
  { destruct (tst (lflag tp) ICANON); apply steady_refl. }
  set (r1 := if negb (tst (lflag tp) ICANON)
             then if negb ts && (0 <? cc tp VMIN) && (0 <? cc tp VTIME)
                  then (settimer tp true, true, Z.lor ch IN_EOT)
                  else (tp, ts, Z.lor ch IN_EOT)
             else (tp, ts, ch)).
  assert (H1 : tty_termios (fst (fst r1)) = tty_termios tp /\
               inq (fst (fst r1)) = inq tp).
  { subst r1. destruct (negb (tst (lflag tp) ICANON));
      [destruct (negb ts && (0 <? cc tp VMIN) && (0 <? cc tp VTIME))|];
      split; reflexivity. }
  destruct r1 as [[tp1 ts1] ch1]. cbn [fst] in H1. destruct H1 as [Ht1 Hq1].
  set (r2 := if tst (lflag tp1) (Z.lor ECHO ECHONL) then tty_echo tp1 ch1
             else (tp1, ch1)).
  assert (H2 : line_part (fst r2) = line_part tp1).
  { subst r2. destruct (tst (lflag tp1) (Z.lor ECHO ECHONL));
      [apply tty_echo_line | reflexivity]. }
  destruct r2 as [tp2 ch2]. cbn [fst] in H2.
  apply line_part_fields in H2. destruct H2 as (Hq2 & _ & _ & _ & _ & _ & Ht2).
  cbn [fst].
  match goal with
  | |- steady tp (if ?c then in_transfer ?t else ?t) =>
    set (tp3 := t); assert (H3 : steady tp tp3)
  end.
  { split.
    - subst tp3. destruct (tst ch2 IN_EOT); fields; congruence.
    - intros Hok.
      pose proof (enqueue_ok tp ch2 (lay_eot L) Hok Hfull) as Hen.
      subst tp3. unfold inbuf_end.
      destruct (tst ch2 IN_EOT); fields; rewrite Hq2, Hq1;
        [exact Hen|].
      rewrite Z.add_0_r in Hen. destruct (inq tp); exact Hen. }
  destruct (tty_incount tp3 =? Z.of_nat TTY_IN_BYTES); [|exact H3].
  eapply steady_trans; [exact H3 | apply in_transfer_steady].
Qed.

Lemma and_then_steady tp (r : filtered) k :
  steady tp (fst r) -> steady_stage k -> steady tp (fst (and_then r k)).
Proof.
  intros Hr Hk. destruct r as [tp1 [ch|]]; cbn [and_then fst] in *.
  - eapply steady_trans; [exact Hr | apply Hk].
  - exact Hr.
Qed.

Lemma in_extended_steady : cell_layout -> steady_stage in_extended.
Proof.
  intros L tp ch. unfold in_extended.
  destruct (tst (lflag tp) IEXTEN); [|apply steady_refl].
  set (r := if negb (tty_escaped tp =? 0)
            then (set_escaped NOT_ESCAPED tp, Z.lor ch IN_ESC) else (tp, ch)).
  assert (Hr : steady tp (fst r))
    by (subst r; destruct (negb (tty_escaped tp =? 0));
        [apply steady_same; reflexivity | apply steady_refl]).
  destruct r as [tp1 ch1]. cbn [fst] in Hr.
  destruct (ch1 =? cc tp1 VLNEXT).
  - cbn [drop fst]. eapply steady_trans; [exact Hr|].
    eapply steady_trans;
      [apply (steady_same tp1 (set_escaped ESCAPED tp1)); reflexivity|].
    apply steady_line. rewrite !rawecho_line. reflexivity.
  - destruct (ch1 =? cc tp1 VREPRINT); cbn [drop keep fst].
    + eapply steady_trans; [exact Hr | apply reprint_steady, L].
    + exact Hr.
Qed.

Lemma in_map_steady : steady_stage in_map.
Proof.
  intros tp ch. unfold in_map.
  repeat match goal with
  | |- context [if ?b then _ else _] => destruct b
  end; apply steady_refl.
Qed.

Lemma in_canon_steady : cell_layout -> steady_stage in_canon.
Proof.
  intros L tp ch. unfold in_canon.
  destruct (tst (lflag tp) ICANON); [|apply steady_refl].
  destruct (ch =? cc tp VERASE).
  { cbn [drop fst].
    apply (steady_trans _ (fst (back_over tp))); [apply back_over_steady, L|].
    destruct (negb (tst (lflag (fst (back_over tp))) ECHOE));
      [apply steady_line, tty_echo_line | apply steady_refl]. }
  destruct (ch =? cc tp VKILL).
  { cbn [drop fst].
    set (tp1 := kill_line (Z.to_nat (tty_incount tp)) tp).
    apply (steady_trans _ tp1); [apply kill_line_steady, L|].
    destruct (negb (tst (lflag tp1) ECHOE)); [|apply steady_refl].
    apply (steady_trans _ (fst (tty_echo tp1 ch)));
      [apply steady_line, tty_echo_line|].
    destruct (tst (lflag (fst (tty_echo tp1 ch))) ECHOK);
      [apply steady_line, rawecho_line | apply steady_refl]. }
  apply steady_refl.
Qed.

Lemma in_flow_steady : steady_stage in_flow.
Proof.
  intros tp ch. unfold in_flow.
  destruct (tst (iflag tp) IXON); [|apply steady_refl].
  destruct (ch =? cc tp VSTOP); [apply steady_same; reflexivity|].
  destruct (negb (tty_inhibited tp =? 0)); [|apply steady_refl].
  destruct ((ch =? cc tp VSTART) || tst (iflag tp) IXANY); [|apply steady_refl].
  match goal with
  | |- context [if ?b then _ else _] => destruct b
  end; apply steady_same; reflexivity.
Qed.

Lemma in_signal_steady : steady_stage in_signal.
Proof.
  intros tp ch. unfold in_signal.
  destruct (tst (lflag tp) ISIG); [|apply steady_refl].
  destruct ((ch =? cc tp VINTR) || (ch =? cc tp VQUIT)); [|apply steady_refl].
  cbn [drop fst].
  set (sig := if ch =? cc tp VQUIT then SIGQUIT else SIGINT).
  apply (steady_trans _ (sigchar tp sig));
    [apply sigchar_steady | apply steady_line, tty_echo_line].
Qed.

Lemma in_filter_steady (tp : tty) b :
  cell_layout -> steady tp (fst (in_filter tp b)).
Proof.
  intros L. unfold in_filter.
  repeat apply and_then_steady;
    auto using in_extended_steady, in_map_steady, in_canon_steady,
               in_flow_steady, in_signal_steady.
  apply steady_refl.
Qed.

Lemma in_char_steady (tp : tty) ts b :
  cell_layout -> steady tp (fst (fst (in_char tp ts b))).
Proof.
  intros L. unfold in_char.
  pose proof (in_filter_steady tp b L) as Hf.
  destruct (in_filter tp b) as [tp1 [ch|]]; cbn [fst] in *.
  - eapply steady_trans; [exact Hf | apply in_store_steady, L].
  - exact Hf.
Qed.

Lemma in_loop_steady (tp : tty) ts buf ct :
  cell_layout -> steady tp (fst (in_loop tp ts buf ct)).
Proof.
  intros L. revert tp ts ct.
  induction buf as [|b rest IH]; intros tp ts ct; cbn [in_loop].
  - apply steady_refl.
  - pose proof (in_char_steady tp ts b L) as Hc.
    destruct (in_char tp ts b) as [[tp1 ts1] fl]. cbn [fst] in Hc.
    destruct fl; [|exact Hc].
    eapply steady_trans; [exact Hc | apply IH].
Qed.

Lemma in_loop_count (tp : tty) ts buf ct :
  ct <= snd (in_loop tp ts buf ct) <= ct + Z.of_nat (length buf).
Proof.
  revert tp ts ct. induction buf as [|b rest IH]; intros tp ts ct;
    cbn [in_loop length].
  - cbn [snd]. lia.
  - destruct (in_char tp ts b) as [[tp1 ts1] fl].
    destruct fl; [|cbn [snd]; lia].
    specialize (IH tp1 ts1 (ct + 1)). lia.
Qed.

(** In canonical mode no pass leaves the loop. *)
Lemma in_char_canon (tp : tty) ts b :
  cell_layout -> tst (lflag tp) ICANON = true ->
  snd (in_char tp ts b) = Next.
Proof.
  intros L Hc. unfold in_char.
  pose proof (in_filter_steady tp b L) as Hf.
  destruct (in_filter tp b) as [tp1 [ch|]]; cbn [fst] in *; [|reflexivity].
  apply steady_lflag in Hf. unfold in_store. rewrite Hf, Hc.
  destruct (tty_incount tp1 =? Z.of_nat TTY_IN_BYTES); [reflexivity|].
  repeat match goal with
  | |- context [let '(_, _) := ?x in _] => destruct x
  end. reflexivity.
Qed.

Lemma in_loop_canon (tp : tty) ts buf ct :
  cell_layout -> tst (lflag tp) ICANON = true ->
  snd (in_loop tp ts buf ct) = ct + Z.of_nat (length buf).
Proof.
  intros L. revert tp ts ct.
  induction buf as [|b rest IH]; intros tp ts ct Hc; cbn [in_loop length].
  - cbn [snd]. lia.
  - pose proof (in_char_canon tp ts b L Hc) as Hn.
    pose proof (in_char_steady tp ts b L) as Hs.
    destruct (in_char tp ts b) as [[tp1 ts1] fl]. cbn [fst snd] in *.
    subst fl. rewrite IH; [lia|].
    apply steady_lflag in Hs. rewrite Hs. exact Hc.
Qed.

End InProcess.

(** ** setattr and the initial state *)

Section SetattrQueue.
Context `{E : Env}.

Lemma mark_eot_length n inp buf : length (mark_eot n inp buf) = length buf.
Proof.
  revert inp buf. induction n as [|n IH]; intros inp buf; cbn [mark_eot].
  - reflexivity.
  - rewrite IH. apply length_insert.
Qed.

Lemma mark_eot_keeps n inp buf j :
  0 < IN_EOT < 65536 -> tst (buf !!! j) IN_EOT = true ->
  tst (mark_eot n inp buf !!! j) IN_EOT = true.
Proof.
  intros Hm. revert inp buf.
  induction n as [|n IH]; intros inp buf Hj; cbn [mark_eot].
  - exact Hj.
  - apply IH. destruct (decide (inp = j)) as [->|Hne].
    + destruct (decide (j < length buf)%nat).
      * rewrite list_lookup_total_insert_eq by assumption.
        rewrite tst_u16_eot by assumption. apply tst_lor_same. lia.
      * rewrite list_insert_ge by lia. exact Hj.
    + rewrite list_lookup_total_insert_ne by assumption. exact Hj.
Qed.

Lemma mark_eot_marks n inp buf i :
  0 < IN_EOT < 65536 -> length buf = TTY_IN_BYTES ->
  (inp < TTY_IN_BYTES)%nat -> (i < n)%nat ->
  tst (mark_eot n inp buf !!! ring inp i) IN_EOT = true.
Proof.
  intros Hm. revert inp buf i.
  induction n as [|n IH]; intros inp buf i Hlen Hinp Hi; [lia|].
  cbn [mark_eot]. destruct i as [|i].
  - rewrite ring_0 by assumption.
    apply mark_eot_keeps; [assumption|].
    rewrite list_lookup_total_insert_eq by lia.
    rewrite tst_u16_eot by assumption. apply tst_lor_same. lia.
  - rewrite <- ring_next by assumption. unfold inbuf_end.
    apply IH; [rewrite length_insert; assumption | | lia].
    destruct (Nat.eqb_spec (S inp) TTY_IN_BYTES); lia.
Qed.

Lemma setattr_raw_steady (tp : tty) :
  0 < IN_EOT < 65536 -> steady tp (setattr_raw tp).
Proof.
  intros Hm. unfold setattr_raw.
  destruct (negb (tst (lflag tp) ICANON)); [|apply steady_refl].
  split; [reflexivity|]. intros [Hl Hh Ht Hc Hr He].
  constructor; fields; try assumption.
  - rewrite mark_eot_length. exact Hl.
  - rewrite eots_all; [lia|].
    intros i Hi. apply mark_eot_marks; assumption.
Qed.

Lemma setattr_min_same (tp : tty) :
  tty_termios (setattr_min tp) = tty_termios tp /\
  inq (setattr_min tp) = inq tp /\
  tty_tmr (setattr_min tp) = tty_tmr tp /\
  tty_inhibited (setattr_min tp) = tty_inhibited tp /\
  tty_pgrp (setattr_min tp) = tty_pgrp tp /\
  tty_trace (setattr_min tp) = tty_trace tp.
Proof.
  unfold setattr_min. destruct (tst (lflag tp) ICANON); [repeat split|].
  destruct ((tty_min (set_min (cc tp VMIN) tp) =? 0)
            && (0 <? cc (set_min (cc tp VMIN) tp) VTIME)); repeat split.
Qed.

Lemma setattr_flow_same (tp : tty) :
  tty_termios (setattr_flow tp) = tty_termios tp /\
  inq (setattr_flow tp) = inq tp /\
  tty_tmr (setattr_flow tp) = tty_tmr tp /\
  tty_min (setattr_flow tp) = tty_min tp /\
  tty_pgrp (setattr_flow tp) = tty_pgrp tp /\
  tty_trace (setattr_flow tp) = tty_trace tp.
Proof.
  unfold setattr_flow. destruct (negb (tst (iflag tp) IXON)); repeat split.
Qed.

Lemma setattr_steady (tp : tty) :
  0 < IN_EOT < 65536 -> steady tp (setattr tp).
Proof.
  intros Hm. unfold setattr.
  set (tp1 := setattr_raw tp).
  set (tp2 := settimer tp1 false).
  set (tp3 := setattr_min tp2).
  set (tp4 := setattr_flow tp3).
  set (tp5 := if c_ospeed (tty_termios tp4) =? B0 then sigchar tp4 SIGHUP
              else tp4).
  apply (steady_trans _ tp1); [apply setattr_raw_steady, Hm|].
  apply (steady_trans _ tp2); [apply settimer_steady|].
  apply (steady_trans _ tp3);
    [apply steady_same; apply (setattr_min_same tp2)|].
  apply (steady_trans _ tp4);
    [apply steady_same; apply (setattr_flow_same tp3)|].
  apply (steady_trans _ tp5).
  - subst tp5. destruct (c_ospeed (tty_termios tp4) =? B0);
      [apply sigchar_steady | apply steady_refl].
  - apply steady_line. reflexivity.
Qed.

Lemma tty_init_line_ok (s : Z) :
  (0 < TTY_IN_BYTES)%nat -> queue_ok (tty_init_line s).
Proof.
  intros Hcap. unfold tty_init_line.
  constructor; fields; try lia.
  - apply length_replicate.
  - apply ring_0, Hcap.
  - reflexivity.
Qed.

End SetattrQueue.

(** ** Properties of the input queue *)

Lemma minix_cell_layout : cell_layout.
Proof.
  constructor.
  - vm_compute. split; reflexivity.
  - reflexivity.
  - intros len Hlen. change (Z.max 2 TAB_SIZE) with 8 in Hlen.
    assert (Hc : len = 0 \/ len = 1 \/ len = 2 \/ len = 3 \/ len = 4 \/
                 len = 5 \/ len = 6 \/ len = 7 \/ len = 8) by lia.
    repeat (destruct Hc as [-> | Hc]; [reflexivity|]). subst. reflexivity.
Qed.

Section QueueProperties.
Context `{E : Env}.

Lemma reachable_ok (tp : tty) :
  cell_layout -> (0 < TTY_IN_BYTES)%nat -> reachable tp -> queue_ok tp.
Proof.
  intros L Hcap. induction 1 as [s | tp buf _ IH | tp _ IH | tp _ IH | tp _ IH
                                 | tp _ IH | tp sig _ IH | tp _ IH
                                 | tp tp' _ IH Hq].
  - apply tty_init_line_ok, Hcap.
  - apply (in_loop_steady tp false buf 0 L), IH.
  - apply (in_transfer_steady tp), IH.
  - apply (back_over_steady tp L), IH.
  - apply (reprint_steady tp L), IH.
  - apply (tty_icancel_steady tp), IH.
  - apply (sigchar_steady tp sig), IH.
  - apply (setattr_steady tp (lay_eot L)), IH.
  - rewrite Hq. exact IH.
Qed.

(** X1.  On every line that [tty.c] can produce from the state [tty_init]
    leaves, by [in_process], [in_transfer], [back_over], [reprint],
    [tty_icancel], [sigchar], [setattr] and by steps that do not assign to
    the queue fields, the input queue satisfies
    [0 <= tty_eotct <= tty_incount <= buflen(tty_inbuf)], head and tail
    point into the buffer, the head is [tty_incount] cells past the tail
    round the buffer, and [tty_eotct] is the number of cells of the queue
    that carry the EOT mark. *)
Theorem queue_invariant_reachable (tp : tty) :
  cell_layout -> (0 < TTY_IN_BYTES)%nat -> reachable tp ->
  0 <= tty_eotct tp <= tty_incount tp /\
  tty_incount tp <= Z.of_nat TTY_IN_BYTES /\
  (tty_inhead tp < TTY_IN_BYTES)%nat /\ (tty_intail tp < TTY_IN_BYTES)%nat /\
  (Z.of_nat (tty_intail tp) + tty_incount tp) mod Z.of_nat TTY_IN_BYTES
    = Z.of_nat (tty_inhead tp) /\
  tty_eotct tp =
    eots (tty_inbuf tp) (tty_intail tp) (Z.to_nat (tty_incount tp)).
Proof.
  intros L Hcap Hr. pose proof (reachable_ok tp L Hcap Hr) as Hok.
  destruct (queue_ok_bounds tp Hok) as (Hb & Hc & Hm).
  destruct Hok. repeat split; try assumption; lia.
Qed.

(** X2.  [back_over] refuses, returning 0 and changing nothing, when the
    queue is empty or its last cell is a line break.  Otherwise it returns
    1 and takes exactly the last cell off the queue: the count goes down by
    one, the head moves back one cell round the buffer, the tail, the EOT
    count and the attributes stay, and the queue invariant is kept. *)
Theorem back_over_erases_one (tp : tty) :
  cell_layout ->
  (tty_incount tp = 0 \/
   tst (tty_inbuf tp !!! ring_prev (tty_inhead tp)) IN_EOT = true ->
   back_over tp = (tp, 0)) /\
  (tty_incount tp <> 0 ->
   tst (tty_inbuf tp !!! ring_prev (tty_inhead tp)) IN_EOT = false ->
   snd (back_over tp) = 1 /\
   tty_termios (fst (back_over tp)) = tty_termios tp /\
   tty_incount (fst (back_over tp)) = tty_incount tp - 1 /\
   tty_inhead (fst (back_over tp)) = ring_prev (tty_inhead tp) /\
   tty_intail (fst (back_over tp)) = tty_intail tp /\
   tty_eotct (fst (back_over tp)) = tty_eotct tp /\
   (queue_ok tp -> queue_ok (fst (back_over tp)))).
Proof. apply back_over_spec. Qed.

(** X3.  The KILL character in canonical mode is not stored, and erases
    back to the last line break: afterwards the queue is empty or its last
    cell carries the EOT mark; the tail and the EOT count are as before (no
    complete line is lost) and the queue invariant is kept. *)
Theorem kill_erases_to_line_break (tp : tty) (ch : Z) :
  cell_layout -> queue_ok tp ->
  tst (lflag tp) ICANON = true -> ch <> cc tp VERASE -> ch = cc tp VKILL ->
  snd (in_canon tp ch) = None /\
  (tty_incount (fst (in_canon tp ch)) = 0 \/
   tst (tty_inbuf (fst (in_canon tp ch))
          !!! ring_prev (tty_inhead (fst (in_canon tp ch)))) IN_EOT = true) /\
  tty_intail (fst (in_canon tp ch)) = tty_intail tp /\
  tty_eotct (fst (in_canon tp ch)) = tty_eotct tp /\
  tty_incount (fst (in_canon tp ch)) <= tty_incount tp /\
  queue_ok (fst (in_canon tp ch)).
Proof.
  intros L Hok Hcanon Hne Hkill.
  pose proof (in_canon_steady L tp ch) as [_ Hq].
  split; [|split; [|split; [|split; [|split]]]]; try (apply Hq, Hok).
  all: unfold in_canon; rewrite Hcanon.
  all: destruct (Z.eqb_spec ch (cc tp VERASE)) as [|_]; [contradiction|].
  all: destruct (Z.eqb_spec ch (cc tp VKILL)) as [_|]; [|contradiction].
  all: cbn [drop fst snd]; try reflexivity.
  all: set (tp1 := kill_line (Z.to_nat (tty_incount tp)) tp).
  all: destruct (kill_line_to_break (Z.to_nat (tty_incount tp)) tp L Hok
                   (Nat.le_refl _)) as (K1 & K2 & K3 & K4); fold tp1 in K1, K2, K3, K4.
  all: assert (Hinq : inq (if negb (tst (lflag tp1) ECHOE)
                          then
                            if tst (lflag (fst (tty_echo tp1 ch))) ECHOK
                            then rawecho (fst (tty_echo tp1 ch)) 10
                            else fst (tty_echo tp1 ch)
                          else tp1) = inq tp1)
    by (destruct (negb (tst (lflag tp1) ECHOE)); [|reflexivity];
        pose proof (tty_echo_line tp1 ch) as He;
        apply line_part_fields in He; destruct He as (He & _);
        destruct (tst (lflag (fst (tty_echo tp1 ch))) ECHOK);
        [pose proof (rawecho_line (fst (tty_echo tp1 ch)) 10) as Hr;
         apply line_part_fields in Hr; destruct Hr as (Hr & _); congruence
        | exact He]).
  all: rewrite Hinq; assumption.
Qed.

(** X4.  [reprint] leaves the queue where it is: head, tail, count and EOT
    count are unchanged, the buffer keeps its size, every cell keeps its
    EOT mark (only echoed lengths are rewritten), and the attributes are
    unchanged. *)
Theorem reprint_keeps_queue (tp : tty) :
  cell_layout ->
  tty_termios (reprint tp) = tty_termios tp /\
  tty_inhead (reprint tp) = tty_inhead tp /\
  tty_intail (reprint tp) = tty_intail tp /\
  tty_incount (reprint tp) = tty_incount tp /\
  tty_eotct (reprint tp) = tty_eotct tp /\
  length (tty_inbuf (reprint tp)) = length (tty_inbuf tp) /\
  (forall i, tst (tty_inbuf (reprint tp) !!! i) IN_EOT
             = tst (tty_inbuf tp !!! i) IN_EOT).
Proof.
  intros L. destruct (reprint_same tp L) as (Ht & e1 & e2 & e3 & e4 & e5 & e6).
  repeat split; assumption.
Qed.

(** X5.  [tty_echo] changes no bit of the cell outside the LEN field (the
    character and the EOT, EOF and ESC marks come back as given), and
    nothing of the line but its device side and the calls made. *)
Theorem tty_echo_only_len (tp : tty) (ch : Z) :
  cell_layout ->
  Z.land (snd (tty_echo tp ch)) (Z.lnot IN_LEN) = Z.land ch (Z.lnot IN_LEN) /\
  tst (snd (tty_echo tp ch)) IN_EOT = tst ch IN_EOT /\
  line_part (fst (tty_echo tp ch)) = line_part tp.
Proof.
  intros L. destruct (tty_echo_shape tp ch) as (Hl & len & Hlen & Hc).
  split; [|split; [|exact Hl]]; rewrite Hc;
    [apply relen_outside | apply relen_eot]; assumption.
Qed.

End QueueProperties.

Lemma typed_line_reachable : reachable typed_line.
Proof. apply reach_in_process, reach_init. Qed.

Lemma queue_invariant_reachable_witness :
  0 <= tty_eotct typed_line <= tty_incount typed_line /\
  tty_incount typed_line <= Z.of_nat TTY_IN_BYTES /\
  (tty_inhead typed_line < TTY_IN_BYTES)%nat /\
  (tty_intail typed_line < TTY_IN_BYTES)%nat /\
  (Z.of_nat (tty_intail typed_line) + tty_incount typed_line)
    mod Z.of_nat TTY_IN_BYTES = Z.of_nat (tty_inhead typed_line) /\
  tty_eotct typed_line =
    eots (tty_inbuf typed_line) (tty_intail typed_line)
         (Z.to_nat (tty_incount typed_line)).
Proof.
  apply (queue_invariant_reachable typed_line minix_cell_layout).
  - vm_compute. lia.
  - exact typed_line_reachable.
Defined.

Lemma back_over_erases_one_witness :
  back_over typed_line = (typed_line, 0) /\
  snd (back_over pending_line) = 1 /\
  tty_incount (fst (back_over pending_line)) = tty_incount pending_line - 1.
Proof.
  destruct (back_over_erases_one typed_line minix_cell_layout) as [Hno _].
  destruct (back_over_erases_one pending_line minix_cell_layout) as [_ Hyes].
  split; [apply Hno; right; reflexivity|].
  destruct Hyes as (H1 & _ & H3 & _); [vm_compute; congruence | reflexivity|].
  split; assumption.
Defined.

Lemma kill_erases_to_line_break_witness :
  snd (in_canon pending_line 21) = None /\
  tty_incount (fst (in_canon pending_line 21)) = 0.
Proof.
  assert (Hok : queue_ok pending_line).
  { apply (reachable_ok pending_line minix_cell_layout); [vm_compute; lia|].
    apply reach_in_process, reach_init. }
  destruct (kill_erases_to_line_break pending_line 21 minix_cell_layout Hok)
    as (H1 & _); [reflexivity | vm_compute; congruence | reflexivity|].
  split; [exact H1 | reflexivity].
Defined.

Lemma reprint_keeps_queue_witness :
  tty_incount (reprint pending_line) = tty_incount pending_line /\
  tty_eotct (reprint pending_line) = tty_eotct pending_line.
Proof.
  destruct (reprint_keeps_queue pending_line minix_cell_layout)
    as (_ & _ & _ & H3 & H4 & _).
  split; assumption.
Defined.

Lemma tty_echo_only_len_witness :
  Z.land (snd (tty_echo typed_line 4106)) (Z.lnot IN_LEN)
    = Z.land 4106 (Z.lnot IN_LEN).
Proof. apply (tty_echo_only_len typed_line 4106 minix_cell_layout). Defined.

(** ** Properties of in_process and in_transfer *)

Section InputProperties.
Context `{E : Env}.

(** X6.  [in_process] returns a count between 0 and the number of
    characters it was given, and never changes the attributes of the line;
    in canonical mode it always returns the full count (characters that do
    not fit are discarded, never left to the caller). *)
Theorem in_process_count (tp : tty) (buf : list Z) :
  cell_layout ->
  0 <= snd (in_process tp buf) <= Z.of_nat (length buf) /\
  tty_termios (fst (in_process tp buf)) = tty_termios tp /\
  (tst (lflag tp) ICANON = true ->
   snd (in_process tp buf) = Z.of_nat (length buf)).
Proof.
  intros L. unfold in_process.
  pose proof (in_loop_count tp false buf 0) as Hc.
  pose proof (in_loop_steady tp false buf 0 L) as [Ht _].
  split; [lia | split; [exact Ht|]].
  intros Hcanon. rewrite in_loop_canon by assumption. lia.
Qed.

Lemma raw_line_filter (tp : tty) (b : Z) :
  raw_line tp -> exists ch, in_filter tp b = (tp, Some ch).
Proof.
  intros (Hc & Hx & Hs & Hxon & Hcr).
  unfold in_filter, in_take, keep. cbn [and_then].
  unfold in_extended, lflag. rewrite Hx. unfold keep. cbn [and_then].
  unfold in_map, iflag. rewrite Hcr.
  set (c0 := if tst (c_iflag (tty_termios tp)) ISTRIP
             then Z.land (Z.land b BYTE) 127 else Z.land b BYTE).
  set (c1 := if c0 =? _POSIX_VDISABLE then Z.lor c0 IN_ESC else c0).
  assert (Hm : exists c2,
    (if c1 =? 13 then keep tp (if tst (c_iflag (tty_termios tp)) ICRNL then 10 else c1)
     else if c1 =? 10 then keep tp (if tst (c_iflag (tty_termios tp)) INLCR then 13 else c1)
     else keep tp c1) = (tp, Some c2)).
  { destruct (c1 =? 13); [|destruct (c1 =? 10)]; eexists; reflexivity. }
  destruct Hm as [c2 ->]. cbn [and_then].
  unfold in_canon, lflag. rewrite Hc. unfold keep. cbn [and_then].
  unfold in_flow, iflag. rewrite Hxon. unfold keep. cbn [and_then].
  unfold in_signal, lflag. rewrite Hs. unfold keep.
  exists c2. reflexivity.
Qed.

(** X7.  When a character has passed the filters and finds the queue full:
    in raw mode the loop is left at once and [in_process] returns the count
    of the characters before it, in canonical mode the character is
    dropped, nothing else changes, and the loop goes on with the next one.
    In particular a raw line with a full queue takes nothing: [in_process]
    returns 0 and the line is as it was. *)
Theorem full_queue_policy (tp tp1 : tty) (timeset : bool) (b ch : Z)
    (rest : list Z) (ct : Z) :
  in_filter tp b = (tp1, Some ch) ->
  tty_incount tp1 = Z.of_nat TTY_IN_BYTES ->
  (tst (lflag tp1) ICANON = false ->
   in_loop tp timeset (b :: rest) ct = (tp1, ct) /\
   ct < ct + Z.of_nat (length (b :: rest))) /\
  (tst (lflag tp1) ICANON = true ->
   in_loop tp timeset (b :: rest) ct = in_loop tp1 timeset rest (ct + 1)) /\
  (raw_line tp -> in_process tp (b :: rest) = (tp, 0)).
Proof.
  intros Hf Hfull.
  assert (Hstore : in_store tp1 timeset ch =
                   if tst (lflag tp1) ICANON then (tp1, timeset, Next)
                   else (tp1, timeset, Stop)).
  { unfold in_store. rewrite Hfull, Z.eqb_refl. reflexivity. }
  split; [|split].
  - intros Hraw. cbn [in_loop length]. unfold in_char.
    rewrite Hf, Hstore, Hraw. split; [reflexivity | lia].
  - intros Hcanon. cbn [in_loop]. unfold in_char.
    rewrite Hf, Hstore, Hcanon. reflexivity.
  - intros Hraw. destruct (raw_line_filter tp b Hraw) as [c2 Hc2].
    rewrite Hc2 in Hf. injection Hf as <- <-.
    unfold in_process. cbn [in_loop]. unfold in_char. rewrite Hc2.
    unfold in_store. rewrite Hfull, Z.eqb_refl.
    destruct Hraw as (Hc & _). unfold lflag. rewrite Hc. reflexivity.
Qed.

(** X8.  [in_transfer] leaves the line as it is unless a reader is waiting
    ([tty_inleft > 0]) and the queue holds at least [tty_min] line breaks;
    on a hung-up line ([c_ospeed == B0]) it first sets [tty_min] to 0, and
    then, without a reader or with no line break in the queue, does nothing
    more: nothing is copied and no reply is sent. *)
Theorem in_transfer_guard (tp : tty) :
  (c_ospeed (tty_termios tp) <> B0 ->
   tty_inleft tp <= 0 \/ tty_eotct tp < tty_min tp ->
   in_transfer tp = tp) /\
  (c_ospeed (tty_termios tp) = B0 ->
   tty_inleft tp <= 0 \/ tty_eotct tp <= 0 ->
   in_transfer tp = set_min 0 tp).
Proof.
  assert (Hidle : forall t : tty,
    tty_inleft t <= 0 \/ tty_eotct t < tty_min t \/ tty_eotct t <= 0 ->
    (if (tty_inleft t =? 0) || (tty_eotct t <? tty_min t) then t
     else let '(t', bp) := in_transfer_loop (Z.to_nat (tty_incount t)) t [] in
          in_transfer_end t' bp) = t).
  { intros t Hc.
    destruct (Z.eqb_spec (tty_inleft t) 0) as [|Hne]; [reflexivity|].
    destruct (Z.ltb_spec (tty_eotct t) (tty_min t)) as [|Hge]; [reflexivity|].
    cbn [orb].
    assert (Hstop : (0 <? tty_inleft t) && (0 <? tty_eotct t) = false).
    { destruct (Z.ltb_spec 0 (tty_inleft t));
        destruct (Z.ltb_spec 0 (tty_eotct t)); cbn [andb]; try reflexivity; lia. }
    assert (Hloop : in_transfer_loop (Z.to_nat (tty_incount t)) t [] = (t, []))
      by (destruct (Z.to_nat (tty_incount t)); cbn [in_transfer_loop];
          [|rewrite Hstop]; reflexivity).
    rewrite Hloop. unfold in_transfer_end. cbn [length Nat.ltb Nat.leb].
    destruct (Z.eqb_spec (tty_inleft t) 0); [contradiction | reflexivity]. }
  split.
  - intros Hsp Hc. unfold in_transfer.
    destruct (Z.eqb_spec (c_ospeed (tty_termios tp)) B0); [contradiction|].
    apply Hidle. tauto.
  - intros Hsp Hc. unfold in_transfer. rewrite Hsp, Z.eqb_refl.
    apply (Hidle (set_min 0 tp)). fields. tauto.
Qed.

Lemma in_transfer_loop_grows n (tp : tty) bp :
  copied (tty_trace tp) + Z.of_nat (length bp)
  <= copied (tty_trace (fst (in_transfer_loop n tp bp)))
     + Z.of_nat (length (snd (in_transfer_loop n tp bp))).
Proof.
  revert tp bp. induction n as [|n IH]; intros t bp; cbn [in_transfer_loop].
  - cbn [fst snd]. lia.
  - destruct ((0 <? tty_inleft t) && (0 <? tty_eotct t));
      [|cbn [fst snd]; lia].
    destruct (in_transfer_cell_fields t bp)
      as (_ & _ & _ & _ & _ & _ & _ & Hcp & _).
    destruct (in_transfer_cell t bp) as [t1 bp1]. cbn [fst snd] in *.
    specialize (IH t1 bp1).
    destruct (tst (tty_inbuf t !!! tty_intail t) IN_EOF); lia.
Qed.

(** X9.  [in_transfer] never copies more bytes to the reader than the
    reader still wants ([tty_inleft]); in canonical mode it takes at most
    one line break out of the queue (it does not read past a line break);
    it keeps the attributes and the queue invariant. *)
Theorem in_transfer_within_request (tp : tty) :
  0 <= tty_inleft tp ->
  copied (tty_trace tp) <= copied (tty_trace (in_transfer tp))
    <= copied (tty_trace tp) + tty_inleft tp /\
  (tst (lflag tp) ICANON = true ->
   tty_eotct tp - 1 <= tty_eotct (in_transfer tp) <= tty_eotct tp) /\
  tty_termios (in_transfer tp) = tty_termios tp /\
  (queue_ok tp -> queue_ok (in_transfer tp)).
Proof.
  intros Hleft.
  split; [|split; [|exact (in_transfer_steady tp)]].
  - unfold in_transfer.
    set (tp0 := if c_ospeed (tty_termios tp) =? B0 then set_min 0 tp else tp).
    assert (H0 : tty_inleft tp0 = tty_inleft tp /\ tty_trace tp0 = tty_trace tp)
      by (subst tp0; destruct (c_ospeed (tty_termios tp) =? B0); split; reflexivity).
    destruct H0 as [Hl0 Ht0].
    destruct ((tty_inleft tp0 =? 0) || (tty_eotct tp0 <? tty_min tp0));
      [rewrite Ht0; lia|].
    pose proof (in_transfer_loop_copied (Z.to_nat (tty_incount tp0)) tp0 []
                  ltac:(lia)) as Hc. cbn zeta in Hc.
    pose proof (in_transfer_loop_grows (Z.to_nat (tty_incount tp0)) tp0 [])
      as Hmono.
    destruct (in_transfer_loop (Z.to_nat (tty_incount tp0)) tp0 [])
      as [tp1 bp1]. cbn [fst snd length] in *.
    destruct (in_transfer_end_lines tp1 bp1) as (_ & _ & He).
    rewrite He. rewrite Ht0 in Hc, Hmono. rewrite Hl0 in Hc. lia.
  - intros Hcanon. unfold in_transfer.
    set (tp0 := if c_ospeed (tty_termios tp) =? B0 then set_min 0 tp else tp).
    assert (H0 : tty_eotct tp0 = tty_eotct tp /\ lflag tp0 = lflag tp)
      by (subst tp0; destruct (c_ospeed (tty_termios tp) =? B0); split; reflexivity).
    destruct H0 as [He0 Hl0].
    destruct ((tty_inleft tp0 =? 0) || (tty_eotct tp0 <? tty_min tp0));
      [lia|].
    pose proof (in_transfer_loop_one_line (Z.to_nat (tty_incount tp0)) tp0 []
                  ltac:(congruence)) as Hone.
    destruct (in_transfer_loop (Z.to_nat (tty_incount tp0)) tp0 [])
      as [tp1 bp1]. cbn [fst] in Hone.
    destruct (in_transfer_end_lines tp1 bp1) as (Hq & _).
    rewrite Hq. lia.
Qed.

End InputProperties.

Lemma in_process_count_witness :
  snd (in_process (tty_init_line 0) [104; 105; 10]) = 3.
Proof.
  destruct (in_process_count (tty_init_line 0) [104; 105; 10]
              minix_cell_layout) as (_ & _ & Hall).
  apply Hall. reflexivity.
Defined.

Lemma full_queue_policy_witness :
  in_process full_raw_line [120; 121] = (full_raw_line, 0).
Proof.
  destruct (raw_line_filter full_raw_line 120) as [ch Hch].
  { vm_compute. repeat split. }
  destruct (full_queue_policy full_raw_line full_raw_line false 120 ch [121] 0
              Hch eq_refl) as (_ & _ & Hraw).
  apply Hraw. vm_compute. repeat split.
Defined.

Lemma in_transfer_guard_witness :
  in_transfer typed_line = typed_line.
Proof.
  destruct (in_transfer_guard typed_line) as [Hidle _].
  apply Hidle; [vm_compute; congruence | left; vm_compute; congruence].
Defined.

Lemma in_transfer_within_request_witness :
  copied (tty_trace read_line) <= copied (tty_trace (in_transfer read_line))
    <= copied (tty_trace read_line) + tty_inleft read_line.
Proof.
  apply (in_transfer_within_request read_line). vm_compute. congruence.
Defined.

(** ** Properties of setattr and of tty_echo without ECHO *)

Section SetattrProperties.
Context `{E : Env}.

Lemma sigchar_fields (tp : tty) (sig : Z) :
  tty_tmr (sigchar tp sig) = tty_tmr tp /\
  tty_min (sigchar tp sig) = tty_min tp /\
  tty_inbuf (sigchar tp sig) = tty_inbuf tp /\
  (tty_inhibited (sigchar tp sig) = RUNNING \/
   tty_inhibited (sigchar tp sig) = tty_inhibited tp) /\
  (tty_eotct (sigchar tp sig) = 0 /\ tty_incount (sigchar tp sig) = 0 \/
   inq (sigchar tp sig) = inq tp) /\
  (forall e, In e (tty_trace tp) -> In e (tty_trace (sigchar tp sig))) /\
  (tty_pgrp tp <> 0 -> In (EvKill (tty_pgrp tp) sig) (tty_trace (sigchar tp sig))).
Proof.
  unfold sigchar.
  set (tp1 := if negb (tty_pgrp tp =? 0)
              then emit (EvKill (tty_pgrp tp) sig) tp else tp).
  assert (H1 : ctl tp1 = ctl tp /\ inq tp1 = inq tp /\
               (forall e, In e (tty_trace tp) -> In e (tty_trace tp1)) /\
               (tty_pgrp tp <> 0 -> In (EvKill (tty_pgrp tp) sig) (tty_trace tp1))).
  { subst tp1. destruct (Z.eqb_spec (tty_pgrp tp) 0) as [Hp|Hp]; cbn [negb].
    - repeat split; auto. intros Hc. contradiction.
    - fields. repeat split; intros; rewrite in_app_iff; cbn [In]; tauto. }
  destruct H1 as (Hc1 & Hq1 & Hin1 & Hk1). clearbody tp1.
  destruct (negb (tst (lflag tp1) NOFLSH)); unfold call_ocancel; fields.
  - rewrite Hc1, Hq1. split; [reflexivity|]. split; [reflexivity|].
    split; [reflexivity|]. split; [left; reflexivity|].
    split; [left; split; reflexivity|].
    split; [intros e He | intros Hp]; rewrite in_app_iff; left; auto.
  - rewrite Hc1, Hq1. split; [reflexivity|]. split; [reflexivity|].
    split; [reflexivity|]. split; [right; reflexivity|].
    split; [right; reflexivity|]. split; assumption.
Qed.

(** X10.  [setattr]: when ICANON is clear in the attributes, every cell of
    the queue gets the EOT mark and [tty_eotct] becomes [tty_incount]; the
    read timer is cleared; [tty_min] becomes 1 in canonical mode and VMIN
    in raw mode, but 1 when VMIN is 0 and VTIME is not; when IXON is clear
    the output is set running; when the output speed is B0 the process
    group, if there is one, is sent SIGHUP.  The attributes themselves are
    not changed. *)
Theorem setattr_effects (tp : tty) :
  0 < IN_EOT < 65536 -> length (tty_inbuf tp) = TTY_IN_BYTES ->
  (tty_intail tp < TTY_IN_BYTES)%nat ->
  tty_termios (setattr tp) = tty_termios tp /\
  (tst (lflag tp) ICANON = false ->
     (forall i, (i < Z.to_nat (tty_incount tp))%nat ->
        tst (tty_inbuf (setattr tp) !!! ring (tty_intail tp) i) IN_EOT = true) /\
     tty_eotct (setattr tp) = tty_incount (setattr tp)) /\
  (tst (lflag tp) ICANON = true -> tty_inbuf (setattr tp) = tty_inbuf tp) /\
  tty_tmr (setattr tp) = None /\
  In EvClrTimer (tty_trace (setattr tp)) /\
  (tst (lflag tp) ICANON = true -> tty_min (setattr tp) = 1) /\
  (tst (lflag tp) ICANON = false ->
     tty_min (setattr tp) =
       if (cc tp VMIN =? 0) && (0 <? cc tp VTIME) then 1 else cc tp VMIN) /\
  (tst (iflag tp) IXON = false -> tty_inhibited (setattr tp) = RUNNING) /\
  (c_ospeed (tty_termios tp) = B0 -> tty_pgrp tp <> 0 ->
     In (EvKill (tty_pgrp tp) SIGHUP) (tty_trace (setattr tp))).
Proof.
  intros Hm Hlen Htail.
  pose proof (setattr_steady tp Hm) as [Hterm _].
  unfold setattr in *.
  set (tp1 := setattr_raw tp) in *.
  set (tp2 := settimer tp1 false) in *.
  set (tp3 := setattr_min tp2) in *.
  set (tp4 := setattr_flow tp3) in *.
  set (tp5 := if c_ospeed (tty_termios tp4) =? B0 then sigchar tp4 SIGHUP
              else tp4) in *.
  unfold call_ioctl in *.
  destruct (setattr_min_same tp2) as (Mt & Mq & Mtm & Mi & Mp & Mtr).
  destruct (setattr_flow_same tp3) as (Ft & Fq & Ftm & Fm & Fp & Ftr).
  fold tp3 in Mt, Mq, Mtm, Mi, Mp, Mtr. fold tp4 in Ft, Fq, Ftm, Fm, Fp, Ftr.
  assert (T1 : tty_termios tp1 = tty_termios tp)
    by (subst tp1; unfold setattr_raw;
        destruct (negb (tst (lflag tp) ICANON)); reflexivity).
  assert (T2 : tty_termios tp2 = tty_termios tp1) by reflexivity.
  assert (Q2 : inq tp2 = inq tp1) by reflexivity.
  assert (T4 : tty_termios tp4 = tty_termios tp) by congruence.
  assert (Q4 : inq tp4 = inq tp1) by congruence.
  assert (P4 : tty_pgrp tp4 = tty_pgrp tp)
    by (rewrite Fp, Mp; subst tp2 tp1; unfold setattr_raw;
        destruct (negb (tst (lflag tp) ICANON)); reflexivity).
  destruct (sigchar_fields tp4 SIGHUP) as (S1 & S2 & S3 & S4 & S5 & S6 & S7).
  assert (B5 : tty_inbuf tp5 = tty_inbuf tp1)
    by (subst tp5; destruct (c_ospeed (tty_termios tp4) =? B0);
        rewrite ?S3, Q4; reflexivity).
  assert (M5 : tty_min tp5 = tty_min tp3)
    by (subst tp5; destruct (c_ospeed (tty_termios tp4) =? B0); congruence).
  split; [exact Hterm|].
  split; [|split; [|split; [|split; [|split; [|split; [|split]]]]]].
  - intros Hraw.
    assert (R1 : tty_inbuf tp1 = mark_eot (Z.to_nat (tty_incount tp))
                   (tty_intail tp) (tty_inbuf tp) /\
                 tty_eotct tp1 = tty_incount tp1)
      by (subst tp1; unfold setattr_raw; rewrite Hraw; split; reflexivity).
    destruct R1 as [R1 R2]. fields. split.
    + intros i Hi. rewrite B5, R1. apply mark_eot_marks; assumption.
    + subst tp5. destruct (c_ospeed (tty_termios tp4) =? B0).
      * destruct S5 as [[-> ->] | ->]; [reflexivity | rewrite Q4; exact R2].
      * rewrite Q4. exact R2.
  - intros Hcanon. fields. rewrite B5. subst tp1. unfold setattr_raw.
    rewrite Hcanon. reflexivity.
  - fields. subst tp5. destruct (c_ospeed (tty_termios tp4) =? B0);
      rewrite ?S1, Ftm, Mtm; reflexivity.
  - fields. rewrite in_app_iff. left.
    assert (I4 : In EvClrTimer (tty_trace tp4))
      by (rewrite Ftr, Mtr; subst tp2; cbn [settimer]; fields;
          rewrite in_app_iff; cbn [In]; tauto).
    subst tp5. destruct (c_ospeed (tty_termios tp4) =? B0); auto.
  - intros Hcanon. fields. rewrite M5. subst tp3. unfold setattr_min.
    replace (lflag tp2) with (lflag tp) by (unfold lflag; subst tp2; cbn [settimer]; fields; rewrite T1; reflexivity).
    rewrite Hcanon. reflexivity.
  - intros Hraw. fields. rewrite M5. subst tp3. unfold setattr_min.
    replace (lflag tp2) with (lflag tp) by (unfold lflag; subst tp2; cbn [settimer]; fields; rewrite T1; reflexivity).
    rewrite Hraw. unfold cc. fields.
    replace (tty_termios tp2) with (tty_termios tp) by (subst tp2; cbn [settimer]; fields; rewrite T1; reflexivity).
    destruct ((c_cc (tty_termios tp) !!! VMIN =? 0)
              && (0 <? c_cc (tty_termios tp) !!! VTIME)) eqn:Hz.
    + reflexivity.
    + fields. reflexivity.
  - intros Hxon. fields.
    assert (I4 : tty_inhibited tp4 = RUNNING).
    { subst tp4. unfold setattr_flow, iflag. rewrite Mt.
      replace (tty_termios tp2) with (tty_termios tp) by (subst tp2; cbn [settimer]; fields; rewrite T1; reflexivity).
      unfold iflag in Hxon. rewrite Hxon. reflexivity. }
    subst tp5. destruct (c_ospeed (tty_termios tp4) =? B0); [|exact I4].
    destruct S4 as [-> | ->]; [reflexivity | exact I4].
  - intros Hsp Hpg. fields. rewrite in_app_iff. left.
    subst tp5. rewrite T4, Hsp, Z.eqb_refl. rewrite <- P4. apply S7.
    rewrite P4. exact Hpg.
Qed.

(** X11.  With ECHO off, [tty_echo] calls the device echo at most once,
    with a line feed, and exactly when the cell, its LEN bits apart, is a
    line feed marked EOT and ICANON and ECHONL are both set; it returns the
    cell with its LEN bits cleared (so a cell whose LEN bits are 0 comes
    back unchanged, and one with an echoed length does not). *)
Theorem tty_echo_echo_off (tp : tty) (ch : Z) :
  tst (lflag tp) ECHO = false ->
  snd (tty_echo tp ch) = Z.land ch (Z.lnot IN_LEN) /\
  tty_trace (fst (tty_echo tp ch)) =
    tty_trace tp ++
      (if (Z.land ch (Z.lnot IN_LEN) =? Z.lor 10 IN_EOT)
          && all_set (lflag tp) (Z.lor ICANON ECHONL)
       then [EvEcho 10] else []) /\
  (Z.land ch IN_LEN = 0 -> snd (tty_echo tp ch) = ch).
Proof.
  intros Hecho. unfold tty_echo. rewrite Hecho. cbn [negb fst snd].
  split; [reflexivity | split].
  - destruct ((Z.land ch (Z.lnot IN_LEN) =? Z.lor 10 IN_EOT)
              && all_set (lflag tp) (Z.lor ICANON ECHONL)).
    + reflexivity.
    + symmetry. apply app_nil_r.
  - intros H0. apply Z.bits_inj'. intros n Hn.
    rewrite Z.land_spec, Z.lnot_spec by assumption.
    pose proof (land_bit_0 _ _ n H0) as Hb.
    destruct (Z.testbit ch n), (Z.testbit IN_LEN n); cbn in *; congruence.
Qed.

End SetattrProperties.

Lemma setattr_effects_witness :
  tty_termios (setattr hangup_line) = tty_termios hangup_line /\
  tty_tmr (setattr hangup_line) = None /\
  In (EvKill (tty_pgrp hangup_line) SIGHUP) (tty_trace (setattr hangup_line)).
Proof.
  destruct (setattr_effects hangup_line)
    as (Ht & _ & _ & Htm & _ & _ & _ & _ & Hup).
  - vm_compute. split; reflexivity.
  - vm_compute. reflexivity.
  - vm_compute. lia.
  - split; [exact Ht | split; [exact Htm|]].
    apply Hup; [vm_compute; reflexivity | vm_compute; intros Hx; discriminate Hx].
Defined.

Lemma tty_echo_echo_off_witness :
  snd (tty_echo quiet_line 4362) = 4106 /\
  tty_trace (fst (tty_echo quiet_line 4362)) = [EvEcho 10].
Proof.
  destruct (tty_echo_echo_off quiet_line 4362) as (Hc & Ht & _);
    [reflexivity|].
  split; [exact Hc | exact Ht].
Defined.

(** ** Properties of the request handlers *)

(** The open count is a [char]. *)
Lemma schar_of_id z : is_schar z -> schar_of z = z.
Proof.
  unfold is_schar, schar_of. intros Hz.
  rewrite Z.mod_small by lia. lia.
Qed.

Lemma schar_of_range z : is_schar (schar_of z).
Proof.
  unfold is_schar, schar_of.
  pose proof (Z.mod_pos_bound (z + 128) 256 ltac:(lia)). lia.
Qed.

Lemma schar_of_shift a b : schar_of (schar_of a + b) = schar_of (a + b).
Proof.
  unfold schar_of.
  replace ((a + 128) mod 256 - 128 + b + 128) with ((a + 128) mod 256 + b)
    by lia.
  rewrite Zplus_mod_idemp_l. f_equal. f_equal. lia.
Qed.

Section Requests.
Context `{E : Env}.

(** X12.  An OPEN of the log device is answered EACCES when read access is
    asked for and OK otherwise, and changes neither the process group nor
    the open count.  An OPEN of any other device adds 1 to the open count,
    which is kept in a [char]: from 127 it wraps round to -128, below 127
    it goes up by one.  When O_NOCTTY is not set in the request the
    process group becomes the process of the request and the answer is 1,
    else the process group is kept and the answer is OK. *)
Theorem do_open_reply_and_count (tp : tty) (m_ptr : message) :
  (TTY_LINE m_ptr = LOG_MINOR ->
     tty_trace (do_open tp m_ptr) =
       tty_trace tp ++ [EvReply TASK_REPLY (m_source m_ptr) (PROC_NR m_ptr)
                          (if tst (COUNT m_ptr) R_BIT then EACCES else OK)] /\
     tty_pgrp (do_open tp m_ptr) = tty_pgrp tp /\
     tty_openct (do_open tp m_ptr) = tty_openct tp) /\
  (TTY_LINE m_ptr <> LOG_MINOR ->
     tty_openct (do_open tp m_ptr) = schar_of (tty_openct tp + 1) /\
     is_schar (tty_openct (do_open tp m_ptr)) /\
     (-128 <= tty_openct tp < 127 ->
        tty_openct (do_open tp m_ptr) = tty_openct tp + 1) /\
     (tty_openct tp = 127 -> tty_openct (do_open tp m_ptr) = -128) /\
     (tst (COUNT m_ptr) O_NOCTTY = false ->
        tty_pgrp (do_open tp m_ptr) = PROC_NR m_ptr /\
        tty_trace (do_open tp m_ptr) =
          tty_trace tp ++ [EvReply TASK_REPLY (m_source m_ptr) (PROC_NR m_ptr) 1]) /\
     (tst (COUNT m_ptr) O_NOCTTY = true ->
        tty_pgrp (do_open tp m_ptr) = tty_pgrp tp /\
        tty_trace (do_open tp m_ptr) =
          tty_trace tp ++ [EvReply TASK_REPLY (m_source m_ptr) (PROC_NR m_ptr) OK])).
Proof.
  unfold do_open, tty_reply. split.
  - intros Hlog. rewrite Hlog, Z.eqb_refl. fields. auto.
  - intros Hlog. destruct (Z.eqb_spec (TTY_LINE m_ptr) LOG_MINOR) as [|_];
      [contradiction|].
    destruct (tst (COUNT m_ptr) O_NOCTTY); cbn [negb]; fields;
      (split; [reflexivity|]);
      (split; [apply schar_of_range|]);
      (split; [intros Hr; apply schar_of_id; unfold is_schar; lia|]);
      (split; [intros ->; reflexivity|]);
      (split; intros Hf; try discriminate; auto).
Qed.

Lemma select_retry_frame (tp : tty) :
  rd (select_retry tp) = rd tp /\ wr (select_retry tp) = wr tp /\
  inq (select_retry tp) = inq tp /\
  (tty_trace (select_retry tp) = tty_trace tp \/
   tty_trace (select_retry tp) =
     tty_trace tp ++ [EvNotify (tty_select_proc tp)]).
Proof.
  unfold select_retry, notify.
  destruct (negb (select_try tp (tty_select_ops tp) =? 0)); fields; auto.
Qed.

(** What [do_read] does once it has its answer [r] without having touched
    the line: the reply, then a retry of a pending select. *)
Lemma read_finish (tp : tty) (m_ptr : message) (r : Z) :
  let tp1 := tty_reply tp TASK_REPLY (m_source m_ptr) (PROC_NR m_ptr) r in
  let tp' := if negb (tty_select_ops tp1 =? 0) then select_retry tp1 else tp1 in
  rd tp' = rd tp /\ inq tp' = inq tp /\
  exists notes,
    tty_trace tp' =
      tty_trace tp ++ EvReply TASK_REPLY (m_source m_ptr) (PROC_NR m_ptr) r :: notes /\
    (notes = [] \/ notes = [EvNotify (tty_select_proc tp)]).
Proof.
  cbn zeta.
  set (tp1 := tty_reply tp TASK_REPLY (m_source m_ptr) (PROC_NR m_ptr) r).
  destruct (negb (tty_select_ops tp1 =? 0)).
  - destruct (select_retry_frame tp1) as (Hrd & _ & Hq & [Ht | Ht]).
    + split; [exact Hrd | split; [exact Hq|]]. exists []. rewrite Ht. auto.
    + split; [exact Hrd | split; [exact Hq|]].
      exists [EvNotify (tty_select_proc tp)]. rewrite Ht.
      subst tp1. unfold tty_reply. fields. rewrite <- app_assoc. auto.
  - split; [reflexivity | split; [reflexivity|]]. exists []. auto.
Qed.

(** X13.  A READ on a line whose reader slot is taken ([tty_inleft > 0]) is
    answered EIO and leaves the reader slot and the queue as they are; a
    WRITE on a line whose writer slot is taken ([tty_outleft > 0]) is
    answered EIO and leaves the line as it is but for that reply.  The
    reply is the first call made; after a READ a pending select may still
    be notified. *)
Theorem busy_slot_eio (fuel : nat) (tp : tty) (m_ptr : message) :
  (0 < tty_inleft tp ->
   exists tp' notes,
     do_read fuel tp m_ptr = Some tp' /\
     rd tp' = rd tp /\ inq tp' = inq tp /\
     tty_trace tp' =
       tty_trace tp ++
         EvReply TASK_REPLY (m_source m_ptr) (PROC_NR m_ptr) EIO :: notes /\
     (notes = [] \/ notes = [EvNotify (tty_select_proc tp)])) /\
  (0 < tty_outleft tp ->
   do_write fuel tp m_ptr =
     Some (tty_reply tp TASK_REPLY (m_source m_ptr) (PROC_NR m_ptr) EIO)).
Proof.
  split; intros Hbusy.
  - unfold do_read.
    destruct (Z.ltb_spec 0 (tty_inleft tp)); [|lia].
    destruct (read_finish tp m_ptr EIO) as (Hrd & Hq & notes & Ht & Hn).
    eexists. exists notes. split; [reflexivity|]. auto.
  - unfold do_write.
    destruct (Z.ltb_spec 0 (tty_outleft tp)); [|lia]. reflexivity.
Qed.

(** The calls [do_read] makes when it answers without having touched the
    line: the reply, and the notification of a pending select exactly when
    [select_try] finds one of the subscribed operations ready. *)
Lemma read_finish_calls (tp : tty) (m_ptr : message) (r : Z) :
  let tp1 := tty_reply tp TASK_REPLY (m_source m_ptr) (PROC_NR m_ptr) r in
  let tp' := if negb (tty_select_ops tp1 =? 0) then select_retry tp1 else tp1 in
  tty_trace tp' =
    tty_trace tp ++
      EvReply TASK_REPLY (m_source m_ptr) (PROC_NR m_ptr) r ::
      (if negb (tty_select_ops tp =? 0)
          && negb (select_try tp1 (tty_select_ops tp) =? 0)
       then [EvNotify (tty_select_proc tp)] else []).
Proof.
  cbn zeta. unfold select_retry, notify, tty_reply. fields.
  destruct (negb (tty_select_ops tp =? 0)); cbn [andb]; [|reflexivity].
  destruct (negb (select_try _ _ =? 0)); fields;
    [rewrite <- app_assoc|]; reflexivity.
Qed.

(** X14.  On a line whose slot is free, a READ or WRITE with a count that
    is not positive is answered EINVAL, and one whose buffer [sys_umap]
    cannot map is answered EFAULT; neither takes the slot nor touches the
    queue.  A WRITE does nothing but answer.  A READ, after its answer,
    retries a pending select: the subscriber is notified exactly when
    [tty_select_ops] is not 0 and [select_try], which asks the device
    whether a write would go through when SEL_WR is subscribed, finds one
    of those operations ready; nothing else is called. *)
Theorem bad_request_rejected (fuel : nat) (tp : tty) (m_ptr : message) :
  let r := if COUNT m_ptr <=? 0 then EINVAL else EFAULT in
  let tp1 := tty_reply tp TASK_REPLY (m_source m_ptr) (PROC_NR m_ptr) r in
  COUNT m_ptr <= 0 \/
  sys_umap (PROC_NR m_ptr) (ADDRESS m_ptr) (COUNT m_ptr) <> OK ->
  (tty_inleft tp <= 0 ->
   exists tp',
     do_read fuel tp m_ptr = Some tp' /\
     rd tp' = rd tp /\ inq tp' = inq tp /\
     tty_trace tp' =
       tty_trace tp ++
         EvReply TASK_REPLY (m_source m_ptr) (PROC_NR m_ptr) r ::
         (if negb (tty_select_ops tp =? 0)
             && negb (select_try tp1 (tty_select_ops tp) =? 0)
          then [EvNotify (tty_select_proc tp)] else [])) /\
  (tty_outleft tp <= 0 ->
   do_write fuel tp m_ptr = Some tp1).
Proof.
  cbn zeta. intros Hbad. split; intros Hfree.
  - unfold do_read.
    destruct (Z.ltb_spec 0 (tty_inleft tp)); [lia|].
    destruct (Z.leb_spec (COUNT m_ptr) 0).
    + destruct (read_finish tp m_ptr EINVAL) as (Hrd & Hq & _).
      eexists. split; [reflexivity|]. split; [exact Hrd|].
      split; [exact Hq|]. apply (read_finish_calls tp m_ptr EINVAL).
    + destruct Hbad as [Hc | Hmap]; [lia|].
      destruct (Z.eqb_spec (sys_umap (PROC_NR m_ptr) (ADDRESS m_ptr)
                                     (COUNT m_ptr)) OK); [contradiction|].
      cbn [negb].
      destruct (read_finish tp m_ptr EFAULT) as (Hrd & Hq & _).
      eexists. split; [reflexivity|]. split; [exact Hrd|].
      split; [exact Hq|]. apply (read_finish_calls tp m_ptr EFAULT).
  - unfold do_write.
    destruct (Z.ltb_spec 0 (tty_outleft tp)); [lia|].
    destruct (Z.leb_spec (COUNT m_ptr) 0); [reflexivity|].
    destruct Hbad as [Hc | Hmap]; [lia|].
    destruct (Z.eqb_spec (sys_umap (PROC_NR m_ptr) (ADDRESS m_ptr)
                                   (COUNT m_ptr)) OK); [contradiction|].
    reflexivity.
Qed.

(** X15.  A READ or WRITE with O_NONBLOCK never leaves its caller attached
    to the line: whatever the devices do, if the slot was free before, it
    is free when the handler returns. *)
Theorem nonblocking_never_suspends (fuel : nat) (tp tp' : tty)
    (m_ptr : message) :
  tst (TTY_FLAGS m_ptr) O_NONBLOCK = true ->
  (tty_inleft tp <= 0 -> do_read fuel tp m_ptr = Some tp' ->
   tty_inleft tp' <= 0) /\
  (tty_outleft tp <= 0 -> do_write fuel tp m_ptr = Some tp' ->
   tty_outleft tp' <= 0).
Proof.
  intros Hnb. split; intros Hfree.
  - unfold do_read.
    destruct (Z.ltb_spec 0 (tty_inleft tp)); [lia|].
    assert (Hfin : forall (r : Z) (t : tty), tty_inleft t <= 0 ->
      Some (if negb (tty_select_ops (tty_reply t TASK_REPLY (m_source m_ptr)
                                       (PROC_NR m_ptr) r) =? 0)
            then select_retry (tty_reply t TASK_REPLY (m_source m_ptr)
                                 (PROC_NR m_ptr) r)
            else tty_reply t TASK_REPLY (m_source m_ptr) (PROC_NR m_ptr) r)
      = Some tp' -> tty_inleft tp' <= 0).
    { intros r t Ht Heq. injection Heq as <-.
      destruct (read_finish t m_ptr r) as (Hrd & _). cbn zeta in Hrd.
      exact (eq_ind_r (fun z => z <= 0) Ht (f_equal tty_inleft Hrd)). }
    destruct (COUNT m_ptr <=? 0); [apply Hfin, Hfree|].
    destruct (negb (sys_umap _ _ _ =? OK)); [apply Hfin, Hfree|].
    destruct (handle_events fuel _) as [tp1|]; [|discriminate].
    destruct (Z.eqb_spec (tty_inleft tp1) 0) as [Hz|Hne].
    + intros Heq. injection Heq as <-.
      destruct (negb (tty_select_ops tp1 =? 0)); [|lia].
      destruct (select_retry_frame tp1) as (Hrd & _). rewrite Hrd. lia.
    + rewrite Hnb. apply Hfin. fields. lia.
  - unfold do_write.
    destruct (Z.ltb_spec 0 (tty_outleft tp)); [lia|].
    destruct (COUNT m_ptr <=? 0);
      [intros Heq; injection Heq as <-; exact Hfree|].
    destruct (negb (sys_umap _ _ _ =? OK));
      [intros Heq; injection Heq as <-; exact Hfree|].
    destruct (handle_events fuel _) as [tp1|]; [|discriminate].
    destruct (Z.eqb_spec (tty_outleft tp1) 0) as [Hz|Hne].
    + intros Heq. injection Heq as <-. lia.
    + rewrite Hnb. intros Heq. injection Heq as <-.
      unfold tty_reply. fields. lia.
Qed.

Lemma status_scan_skip (before rest : list tty) (m_ptr : status_msg) :
  Forall (no_event (st_source m_ptr)) before ->
  status_scan (before ++ rest) m_ptr =
    match status_scan rest m_ptr with
    | Some (rest', m') => Some (before ++ rest', m')
    | None => None
    end.
Proof.
  induction 1 as [|tp before (Hs & Hr & Hw) _ IH]; cbn [app status_scan].
  - destruct (status_scan rest m_ptr) as [[? ?]|]; reflexivity.
  - unfold sel_event, rd_event, wr_event in Hs, Hr, Hw.
    rewrite Hs, Hr, Hw, IH.
    destruct (status_scan rest m_ptr) as [[? ?]|]; reflexivity.
Qed.

(** X16.  A STATUS poll reports at most one event to the subscriber: that
    of the first line, in the order of the table, that holds one, and on
    that line the first of: select readiness (answer DEV_IO_READY with the
    ready operations, which are taken out of the subscription), a revived
    read of that caller (answer DEV_REVIVE with process and cumulative
    count; leftover, cumulative count and revived flag of the reader are
    cleared), a revived write of that caller (answer DEV_REVIVE likewise;
    cumulative count and revived flag of the writer are cleared, its
    leftover is kept).  No other line changes.  When no line holds an event
    and the pty back-end, if configured, reports none, the answer is
    DEV_NO_STATUS and no line changes. *)
Theorem do_status_first_event (before after : list tty) (tp : tty)
    (m_ptr : status_msg) :
  Forall (no_event (st_source m_ptr)) before ->
  (sel_event tp (st_source m_ptr) = true ->
   exists r,
     do_status (before ++ tp :: after) m_ptr =
       (before ++
          set_select_ops
            (Z.land (tty_select_ops tp)
                    (Z.lnot (select_try tp (tty_select_ops tp)))) tp :: after,
        r) /\
     st_type r = DEV_IO_READY /\
     DEV_SEL_OPS r = select_try tp (tty_select_ops tp)) /\
  (sel_event tp (st_source m_ptr) = false ->
   rd_event tp (st_source m_ptr) = true ->
   do_status (before ++ tp :: after) m_ptr =
     (before ++ set_inrevived 0 (set_inleft 0 (set_incum 0 tp)) :: after,
      {| st_source := st_source m_ptr; st_type := DEV_REVIVE;
         DEV_MINOR := DEV_MINOR m_ptr; DEV_SEL_OPS := DEV_SEL_OPS m_ptr;
         REP_PROC_NR := tty_inproc tp; REP_STATUS := tty_incum tp |})) /\
  (sel_event tp (st_source m_ptr) = false ->
   rd_event tp (st_source m_ptr) = false ->
   wr_event tp (st_source m_ptr) = true ->
   do_status (before ++ tp :: after) m_ptr =
     (before ++ set_outrevived 0 (set_outcum 0 tp) :: after,
      {| st_source := st_source m_ptr; st_type := DEV_REVIVE;
         DEV_MINOR := DEV_MINOR m_ptr; DEV_SEL_OPS := DEV_SEL_OPS m_ptr;
         REP_PROC_NR := tty_outproc tp; REP_STATUS := tty_outcum tp |}) /\
   tty_outleft (set_outrevived 0 (set_outcum 0 tp)) = tty_outleft tp) /\
  ((NR_PTYS <= 0 \/ fst (pty_status m_ptr) = 0) ->
   fst (do_status before m_ptr) = before /\
   st_type (snd (do_status before m_ptr)) = DEV_NO_STATUS).
Proof.
  intros Hbefore. unfold do_status.
  rewrite (status_scan_skip before (tp :: after) m_ptr Hbefore).
  unfold sel_event, rd_event, wr_event.
  split; [|split; [|split]].
  - intros Hs. cbn [status_scan]. rewrite Hs.
    eexists. split; [reflexivity|]. cbn. auto.
  - intros Hs Hr. cbn [status_scan]. rewrite Hs, Hr. reflexivity.
  - intros Hs Hr Hw. cbn [status_scan]. rewrite Hs, Hr, Hw. split; reflexivity.
  - intros Hpty.
    pose proof (status_scan_skip before [] m_ptr Hbefore) as Hn.
    rewrite app_nil_r in Hn. rewrite Hn. cbn [status_scan].
    destruct (Z.ltb_spec 0 NR_PTYS) as [Hp|Hp].
    + destruct Hpty as [Hpty | Hpty]; [lia|].
      destruct (pty_status m_ptr) as [found m']. cbn [fst] in Hpty.
      subst found. cbn. auto.
    + cbn. auto.
Qed.

End Requests.

Lemma do_open_reply_and_count_witness :
  tty_openct (do_open (tty_init_line 0) open_cons_msg) = 1 /\
  tty_openct (do_open (set_openct 127 (tty_init_line 0)) open_cons_msg)
    = -128 /\
  tty_pgrp (do_open (tty_init_line 0) open_cons_msg) = 7 /\
  tty_openct (do_open (tty_init_line 0) open_log_msg) = 0.
Proof.
  destruct (do_open_reply_and_count (tty_init_line 0) open_cons_msg)
    as [_ Hother].
  destruct (do_open_reply_and_count (set_openct 127 (tty_init_line 0))
              open_cons_msg) as [_ Hwrap].
  destruct (do_open_reply_and_count (tty_init_line 0) open_log_msg)
    as [Hlog _].
  destruct Hother as (_ & _ & Hct & _ & Hpg & _);
    [vm_compute; intros Hx; discriminate Hx|].
  destruct Hwrap as (_ & _ & _ & Hw & _);
    [vm_compute; intros Hx; discriminate Hx|].
  destruct Hpg as [Hp _]; [reflexivity|].
  destruct Hlog as (_ & _ & Hl); [reflexivity|].
  split; [apply Hct; vm_compute; split; [intros Hx; discriminate Hx
                                        | reflexivity]|].
  split; [apply Hw; reflexivity|].
  split; [exact Hp | exact Hl].
Defined.

Lemma busy_slot_eio_witness :
  (exists tp' notes,
     do_read 1 busy_line rw_msg = Some tp' /\ rd tp' = rd busy_line /\
     inq tp' = inq busy_line /\
     tty_trace tp' = tty_trace busy_line ++ EvReply TASK_REPLY 1 9 EIO :: notes /\
     (notes = [] \/ notes = [EvNotify (tty_select_proc busy_line)])) /\
  do_write 1 busy_line rw_msg =
    Some (tty_reply busy_line TASK_REPLY 1 9 EIO).
Proof.
  destruct (busy_slot_eio 1 busy_line rw_msg) as [Hr Hw].
  split; [apply Hr | apply Hw]; reflexivity.
Defined.

(** A READ with a count of 0 on a line with a select for writing pending:
    the device says a write would go through, so the subscriber, process
    5, is notified after the EINVAL. *)
Lemma bad_request_rejected_witness :
  do_write 1 (tty_init_line 0) rw_empty_msg =
    Some (tty_reply (tty_init_line 0) TASK_REPLY 1 9 EINVAL) /\
  exists tp',
    do_read 1 select_line rw_empty_msg = Some tp' /\
    tty_trace tp' = [EvReply TASK_REPLY 1 9 EINVAL; EvNotify 5].
Proof.
  destruct (bad_request_rejected 1 (tty_init_line 0) rw_empty_msg) as [_ Hw];
    [left; vm_compute; intros Hx; discriminate Hx|].
  destruct (bad_request_rejected 1 select_line rw_empty_msg) as [Hr _];
    [left; vm_compute; intros Hx; discriminate Hx|].
  split; [apply Hw; vm_compute; intros Hx; discriminate Hx|].
  destruct Hr as (tp' & Hrun & _ & _ & Ht);
    [vm_compute; intros Hx; discriminate Hx|].
  exists tp'. split; [exact Hrun | exact Ht].
Defined.

Lemma nonblocking_never_suspends_witness :
  exists tp', do_read 2 (tty_init_line 0) rw_nonblock_msg = Some tp' /\
              tty_inleft tp' <= 0.
Proof.
  eexists. split; [vm_compute; reflexivity|].
  refine (proj1 (nonblocking_never_suspends 2 (tty_init_line 0) _
                   rw_nonblock_msg _) _ _).
  - reflexivity.
  - vm_compute. intros Hx. discriminate Hx.
  - vm_compute. reflexivity.
Defined.

Lemma do_status_first_event_witness :
  do_status [tty_init_line 0; revived_writer] poll_msg =
    ([tty_init_line 0; set_outrevived 0 (set_outcum 0 revived_writer)],
     {| st_source := 1; st_type := DEV_REVIVE; DEV_MINOR := 0;
        DEV_SEL_OPS := 0; REP_PROC_NR := 7; REP_STATUS := 5 |}).
Proof.
  assert (Hb : Forall (no_event (st_source poll_msg)) [tty_init_line 0]).
  { constructor; [|constructor]. vm_compute. auto. }
  destruct (do_status_first_event [tty_init_line 0] [] revived_writer
              poll_msg Hb) as (_ & _ & Hw & _).
  apply Hw; reflexivity.
Defined.

(** ** Properties of select *)

Section Bits.

Lemma tst_zero m : tst 0 m = false.
Proof. unfold tst. rewrite Z.land_0_l. reflexivity. Qed.


Lemma covers_lor r x ops :
  Z.land r ops = ops -> Z.land (Z.lor r x) ops = ops.
Proof.
  intros Hr. apply Z.bits_inj'. intros n Hn.
  apply (f_equal (fun z => Z.testbit z n)) in Hr.
  rewrite Z.land_spec in Hr. rewrite Z.land_spec, Z.lor_spec.
  destruct (Z.testbit r n), (Z.testbit x n), (Z.testbit ops n);
    cbn in *; congruence.
Qed.

Lemma within_lor r x ops :
  Z.land r (Z.lnot ops) = 0 -> Z.land x (Z.lnot ops) = 0 ->
  Z.land (Z.lor r x) (Z.lnot ops) = 0.
Proof.
  intros Hr Hx. rewrite Z.land_lor_distr_l, Hr, Hx. reflexivity.
Qed.

Lemma within_bit ops a :
  0 <= a -> tst ops (2 ^ a) = true -> Z.land (2 ^ a) (Z.lnot ops) = 0.
Proof.
  intros Ha Ht. unfold tst in Ht.
  assert (Hb : Z.testbit ops a = true).
  { destruct (Z.testbit ops a) eqn:Hb; [reflexivity|]. exfalso.
    assert (Hz : Z.land ops (2 ^ a) = 0).
    { apply Z.bits_inj'. intros n Hn.
      rewrite Z.land_spec, Z.pow2_bits_eqb, Z.bits_0 by lia.
      destruct (Z.eqb_spec a n) as [->|_];
        [rewrite Hb; reflexivity | apply andb_false_r]. }
    rewrite Hz in Ht. discriminate Ht. }
  apply Z.bits_inj'. intros n Hn.
  rewrite Z.land_spec, Z.lnot_spec, Z.pow2_bits_eqb, Z.bits_0 by lia.
  destruct (Z.eqb_spec a n) as [<-|_]; [rewrite Hb|]; reflexivity.
Qed.



End Bits.

Section Select.
Context `{E : Env}.

(** The value of [select_try]: the requested operations on a hung-up line,
    with SEL_RD and SEL_WR put in when asked for and possible. *)
Lemma select_try_shape (tp : tty) (ops : Z) :
  select_try tp ops =
    Z.lor (Z.lor (if c_ospeed (tty_termios tp) =? B0 then ops else 0)
                 (if tst ops SEL_RD
                       && ((0 <? tty_inleft tp)
                           || (0 <? tty_incount tp)
                              && (negb (tst (lflag tp) ICANON)
                                  || (0 <? tty_eotct tp)))
                  then SEL_RD else 0))
          (if tst ops SEL_WR
                && ((0 <? tty_outleft tp) || negb (tty_devwrite_try tp =? 0))
           then SEL_WR else 0).
Proof.
  unfold select_try.
  destruct (c_ospeed (tty_termios tp) =? B0), (tst ops SEL_RD),
    (0 <? tty_inleft tp), (0 <? tty_incount tp),
    (negb (tst (lflag tp) ICANON) || (0 <? tty_eotct tp)),
    (tst ops SEL_WR), (0 <? tty_outleft tp),
    (negb (tty_devwrite_try tp =? 0));
    cbn [andb orb negb]; rewrite ?Z.lor_0_l, ?Z.lor_0_r; reflexivity.
Qed.

(** X17.  [select_try] reports no operation that was not asked for; on a
    hung-up line (output speed B0) it reports every operation asked for;
    and asked for nothing it reports nothing.  SEL_RD and SEL_WR are single
    bits. *)
Theorem select_try_ready_set (tp : tty) (ops a b : Z) :
  0 <= a -> 0 <= b -> SEL_RD = 2 ^ a -> SEL_WR = 2 ^ b ->
  Z.land (select_try tp ops) (Z.lnot ops) = 0 /\
  (c_ospeed (tty_termios tp) = B0 -> Z.land (select_try tp ops) ops = ops) /\
  select_try tp 0 = 0.
Proof.
  intros Ha Hb Hrd Hwr. split; [|split].
  - rewrite select_try_shape. apply within_lor; [apply within_lor|].
    + destruct (c_ospeed (tty_termios tp) =? B0);
        [apply Z.land_lnot_diag | reflexivity].
    + destruct (tst ops SEL_RD) eqn:Ht; cbn [andb]; [|reflexivity].
      destruct (_ || _); [|reflexivity].
      rewrite Hrd in *. apply within_bit; assumption.
    + destruct (tst ops SEL_WR) eqn:Ht; cbn [andb]; [|reflexivity].
      destruct (_ || _); [|reflexivity].
      rewrite Hwr in *. apply within_bit; assumption.
  - intros Hup. rewrite select_try_shape.
    apply covers_lor, covers_lor.
    destruct (Z.eqb_spec (c_ospeed (tty_termios tp)) B0) as [_|Hne];
      [apply Z.land_diag | contradiction].
  - rewrite select_try_shape, !tst_zero. cbn [andb].
    destruct (c_ospeed (tty_termios tp) =? B0); reflexivity.
Qed.


End Select.

Lemma select_try_ready_set_witness :
  Z.land (select_try typed_line 3) (Z.lnot 3) = 0 /\
  select_try typed_line 0 = 0.
Proof.
  destruct (select_try_ready_set typed_line 3 0 1) as (Hw & _ & Hn);
    [lia | lia | reflexivity | reflexivity |].
  split; [exact Hw | exact Hn].
Defined.


(** ** Properties of SELECT, CANCEL and CLOSE requests *)

Ltac hfields :=
  unfold set_select_proc, set_winsize, set_ioslot, call_close, call_icancel,
    call_ocancel, call_ioctl, tty_reply, notify in *;
  fields.

Section SlotFrames.
Context `{E : Env}.

Lemma same_slots_refl tp : same_slots tp tp.
Proof. repeat split. Qed.

Lemma same_slots_trans a b c :
  same_slots a b -> same_slots b c -> same_slots a c.
Proof.
  intros (r1 & w1 & i1 & s1 & o1 & t1) (r2 & w2 & i2 & s2 & o2 & t2).
  repeat split; congruence.
Qed.

Lemma quiet_ext_refl tr : quiet_ext tr tr.
Proof. exists []. rewrite app_nil_r. split; [reflexivity | intros p s []]. Qed.

Lemma quiet_ext_trans tr1 tr2 tr3 :
  quiet_ext tr1 tr2 -> quiet_ext tr2 tr3 -> quiet_ext tr1 tr3.
Proof.
  intros (c1 & -> & H1) (c2 & -> & H2). exists (c1 ++ c2).
  rewrite app_assoc. split; [reflexivity|].
  intros p s Hin. apply in_app_iff in Hin. destruct Hin as [Hin|Hin];
    [exact (H1 p s Hin) | exact (H2 p s Hin)].
Qed.

Lemma quiet_ext_one tr e :
  (forall p s, e <> EvKill p s) -> quiet_ext tr (tr ++ [e]).
Proof.
  intros Hne. exists [e]. split; [reflexivity|].
  intros p s [Heq | []]. exact (Hne p s Heq).
Qed.

Lemma tty_icancel_slots tp :
  same_slots tp (tty_icancel tp) /\ flushed (tty_icancel tp) /\
  ctl (tty_icancel tp) = ctl tp /\
  tty_trace (tty_icancel tp) = tty_trace tp ++ [EvIcancel].
Proof. unfold tty_icancel, same_slots, flushed. hfields. repeat split. Qed.

Lemma call_ocancel_slots tp :
  same_slots tp (call_ocancel tp) /\ inq (call_ocancel tp) = inq tp /\
  ctl (call_ocancel tp) = ctl tp /\
  tty_trace (call_ocancel tp) = tty_trace tp ++ [EvOcancel].
Proof. unfold same_slots. hfields. repeat split. Qed.

Lemma sigchar_slots tp sig :
  same_slots tp (sigchar tp sig) /\
  (flushed tp -> flushed (sigchar tp sig)) /\
  tty_pgrp (sigchar tp sig) = tty_pgrp tp /\
  (tty_pgrp tp = 0 ->
   quiet_ext (tty_trace tp) (tty_trace (sigchar tp sig))) /\
  exists calls, tty_trace (sigchar tp sig) = tty_trace tp ++ calls /\
                Forall no_message calls.
Proof.
  unfold sigchar, same_slots, flushed.
  destruct (Z.eqb_spec (tty_pgrp tp) 0) as [Hp|Hp]; cbn [negb].
  - destruct (negb (tst (lflag tp) NOFLSH)); hfields.
    + repeat split; [intros _; apply quiet_ext_one; discriminate|].
      exists [EvOcancel]. split; [reflexivity|]. repeat constructor.
    + repeat split; try tauto; [intros _; apply quiet_ext_refl|].
      exists []. rewrite app_nil_r. split; [reflexivity | constructor].
  - destruct (negb (tst (lflag (emit (EvKill (tty_pgrp tp) sig) tp)) NOFLSH));
      hfields; repeat split; try tauto; try (intros Hc; contradiction).
    + exists [EvKill (tty_pgrp tp) sig; EvOcancel].
      rewrite <- app_assoc. split; [reflexivity|]. repeat constructor.
    + exists [EvKill (tty_pgrp tp) sig]. split; [reflexivity|].
      repeat constructor.
Qed.

Lemma setattr_slots tp :
  same_slots tp (setattr tp) /\
  (flushed tp -> flushed (setattr tp)) /\
  tty_pgrp (setattr tp) = tty_pgrp tp /\
  (tty_pgrp tp = 0 ->
   quiet_ext (tty_trace tp) (tty_trace (setattr tp))) /\
  exists calls, tty_trace (setattr tp) = tty_trace tp ++ calls /\
                Forall no_message calls.
Proof.
  unfold setattr.
  set (tp1 := setattr_raw tp).
  assert (H1 : same_slots tp tp1 /\ (flushed tp -> flushed tp1) /\
               tty_pgrp tp1 = tty_pgrp tp /\ tty_trace tp1 = tty_trace tp).
  { subst tp1. unfold setattr_raw, same_slots, flushed.
    destruct (negb (tst (lflag tp) ICANON)); fields; repeat split; tauto. }
  clearbody tp1.
  set (tp2 := settimer tp1 false).
  assert (H2 : same_slots tp1 tp2 /\ inq tp2 = inq tp1 /\
               tty_pgrp tp2 = tty_pgrp tp1 /\
               tty_trace tp2 = tty_trace tp1 ++ [EvClrTimer]).
  { subst tp2. unfold settimer, same_slots. fields. repeat split. }
  clearbody tp2.
  set (tp3 := setattr_min tp2).
  assert (H3 : same_slots tp2 tp3 /\ inq tp3 = inq tp2 /\
               tty_pgrp tp3 = tty_pgrp tp2 /\ tty_trace tp3 = tty_trace tp2).
  { subst tp3. unfold setattr_min, same_slots.
    destruct (tst (lflag tp2) ICANON); [fields; repeat split|].
    destruct ((tty_min (set_min (cc tp2 VMIN) tp2) =? 0)
              && (0 <? cc (set_min (cc tp2 VMIN) tp2) VTIME));
      fields; repeat split. }
  clearbody tp3.
  set (tp4 := setattr_flow tp3).
  assert (H4 : same_slots tp3 tp4 /\ inq tp4 = inq tp3 /\
               tty_pgrp tp4 = tty_pgrp tp3 /\ tty_trace tp4 = tty_trace tp3).
  { subst tp4. unfold setattr_flow, same_slots.
    destruct (negb (tst (iflag tp3) IXON)); fields; repeat split. }
  clearbody tp4.
  set (tp5 := if c_ospeed (tty_termios tp4) =? B0 then sigchar tp4 SIGHUP
              else tp4).
  assert (H5 : same_slots tp4 tp5 /\ (flushed tp4 -> flushed tp5) /\
               tty_pgrp tp5 = tty_pgrp tp4 /\
               (tty_pgrp tp4 = 0 ->
                quiet_ext (tty_trace tp4) (tty_trace tp5)) /\
               exists calls, tty_trace tp5 = tty_trace tp4 ++ calls /\
                             Forall no_message calls).
  { subst tp5. destruct (c_ospeed (tty_termios tp4) =? B0);
      [apply sigchar_slots|].
    split; [apply same_slots_refl|]. split; [tauto|].
    split; [reflexivity|]. split; [intros _; apply quiet_ext_refl|].
    exists []. rewrite app_nil_r. split; [reflexivity | constructor]. }
  clearbody tp5.
  destruct H1 as (S1 & F1 & P1 & T1), H2 as (S2 & Q2 & P2 & T2),
    H3 as (S3 & Q3 & P3 & T3), H4 as (S4 & Q4 & P4 & T4),
    H5 as (S5 & F5 & P5 & T5 & calls5 & C5 & N5).
  split; [|split; [|split; [|split]]].
  - apply (same_slots_trans _ tp5); [|unfold same_slots; hfields; repeat split].
    apply (same_slots_trans _ tp4); [|exact S5].
    apply (same_slots_trans _ tp3); [|exact S4].
    apply (same_slots_trans _ tp2); [|exact S3].
    apply (same_slots_trans _ tp1); [exact S1 | exact S2].
  - intros Hf. apply F1 in Hf.
    assert (Hf4 : flushed tp4)
      by (unfold flushed in *; rewrite Q4, Q3, Q2; exact Hf).
    apply F5 in Hf4. unfold flushed in *. hfields. exact Hf4.
  - hfields. congruence.
  - intros Hp.
    assert (Hp4 : tty_pgrp tp4 = 0) by congruence.
    apply T5 in Hp4. hfields.
    apply (quiet_ext_trans _ (tty_trace tp5));
      [|apply quiet_ext_one; discriminate].
    apply (quiet_ext_trans _ (tty_trace tp4)); [|exact Hp4].
    rewrite T4, T3, T2, T1. apply quiet_ext_one. discriminate.
  - exists (EvClrTimer :: calls5 ++ [EvIoctl]). hfields.
    rewrite C5, T4, T3, T2, T1, <- !app_assoc. split; [reflexivity|].
    constructor; [exact I|]. apply Forall_app. split; [exact N5|].
    repeat constructor.
Qed.

End SlotFrames.

Section SelectRequest.
Context `{DE : DriverEnv} `{DP : !DriverParams}.

(** X19.  A SELECT request is answered with the operations that are ready
    now.  It records a subscription -- the operations added to
    [tty_select_ops], the sender as [tty_select_proc] -- only when none is
    ready, some operation was asked for and SEL_NOTIFY is set; so it never
    both reports and subscribes, and never subscribes on a hung-up line.
    Nothing else of the line changes. *)
Theorem do_select_reply_or_subscribe (tp : tty) (m_ptr : message) :
  let ops := Z.land (PROC_NR m_ptr) (Z.lor (Z.lor SEL_RD SEL_WR) SEL_ERR) in
  let ready := select_try tp ops in
  let tp' := do_select tp m_ptr in
  tty_trace tp' =
    tty_trace tp ++
      [EvReply TASK_REPLY (m_source m_ptr) (PROC_NR m_ptr) ready] /\
  (inq tp', rd tp', wr tp', io tp', ctl tp', dev tp', tty_termios tp')
    = (inq tp, rd tp, wr tp, io tp, ctl tp, dev tp, tty_termios tp) /\
  (ready <> 0 \/ ops = 0 \/ tst (PROC_NR m_ptr) SEL_NOTIFY = false \/
   c_ospeed (tty_termios tp) = B0 ->
   sel tp' = sel tp) /\
  (ready = 0 -> ops <> 0 -> tst (PROC_NR m_ptr) SEL_NOTIFY = true ->
   tty_select_ops tp' = Z.lor (tty_select_ops tp) ops /\
   tty_select_proc tp' = m_source m_ptr).
Proof.
  cbn zeta. unfold do_select.
  set (ops := Z.land (PROC_NR m_ptr) (Z.lor (Z.lor SEL_RD SEL_WR) SEL_ERR)).
  set (ready := select_try tp ops).
  assert (Hup : c_ospeed (tty_termios tp) = B0 -> ops <> 0 -> ready <> 0).
  { intros Hb Ho Hr. subst ready. rewrite select_try_shape in Hr.
    destruct (Z.eqb_spec (c_ospeed (tty_termios tp)) B0); [|contradiction].
    apply Z.lor_eq_0_iff in Hr. destruct Hr as [Hr _].
    apply Z.lor_eq_0_iff in Hr. tauto. }
  clearbody ready ops.
  destruct (Z.eqb_spec ready 0) as [Hr|Hr],
           (Z.eqb_spec ops 0) as [Ho|Ho],
           (tst (PROC_NR m_ptr) SEL_NOTIFY) eqn:Hn;
    cbn [andb negb Z.eqb]; hfields;
    (split; [reflexivity|]); (split; [reflexivity|]);
    (split; [|intros; try contradiction; try discriminate; auto]);
    try (intros _; reflexivity).
  intros [Hx | [Hx | [Hx | Hx]]]; try contradiction; try discriminate.
  exfalso. exact (Hup Hx Ho Hr).
Qed.

End SelectRequest.

Lemma do_select_reply_or_subscribe_witness :
  tty_select_ops (do_select pending_line select_msg) = 1 /\
  tty_select_proc (do_select pending_line select_msg) = 1.
Proof.
  pose proof (do_select_reply_or_subscribe pending_line select_msg)
    as (_ & _ & _ & Hs).
  apply Hs; [vm_compute; reflexivity | vm_compute; intros Hx; discriminate Hx
            | reflexivity].
Defined.

Section CancelClose.
Context `{DE : DriverEnv} `{DP : !DriverParams}.

(** The three tests of [do_cancel]. *)
Lemma do_cancel_shape (tp : tty) (m_ptr : message) :
  let cr := tst (COUNT m_ptr) R_BIT && negb (tty_inleft tp =? 0)
            && (PROC_NR m_ptr =? tty_inproc tp) in
  let cw := tst (COUNT m_ptr) W_BIT && negb (tty_outleft tp =? 0)
            && (PROC_NR m_ptr =? tty_outproc tp) in
  let ci := negb (tty_ioreq tp =? 0) && (PROC_NR m_ptr =? tty_ioproc tp) in
  let tp' := do_cancel tp m_ptr in
  rd tp' = (if cr then rd (set_inleft 0 (set_incum 0 tp)) else rd tp) /\
  inq tp' = (if cr then inq (tty_icancel tp) else inq tp) /\
  wr tp' = (if cw then wr (set_outleft 0 (set_outcum 0 tp)) else wr tp) /\
  io tp' = (if ci then io (set_ioreq 0 tp) else io tp) /\
  (sel tp', ctl tp', tty_termios tp') = (sel tp, ctl tp, tty_termios tp) /\
  tty_events tp' = 1 /\
  tty_trace tp' =
    tty_trace tp ++ (if cr then [EvIcancel] else [])
                 ++ (if cw then [EvOcancel] else [])
                 ++ [EvReply TASK_REPLY (m_source m_ptr) (PROC_NR m_ptr) EINTR].
Proof.
  cbn zeta. unfold do_cancel. cbn zeta.
  destruct (tst (COUNT m_ptr) R_BIT && negb (tty_inleft tp =? 0)
            && (PROC_NR m_ptr =? tty_inproc tp));
    unfold tty_icancel; hfields;
    destruct (tst (COUNT m_ptr) W_BIT && negb (tty_outleft tp =? 0)
              && (PROC_NR m_ptr =? tty_outproc tp));
    hfields;
    destruct (negb (tty_ioreq tp =? 0) && (PROC_NR m_ptr =? tty_ioproc tp));
    hfields; rewrite <- ?app_assoc; repeat split.
Qed.

(** X20.  After a CANCEL for process [p] the events flag of the line is
    set, the answer EINTR is the last call made, and [p] holds none of the
    slots the request names: not the reader slot if R_BIT is in the mode,
    not the writer slot if W_BIT is, and never the ioctl slot.  A reader
    that is cancelled has its queue flushed; a slot that is not cancelled,
    and the queue when no reader is, stay as they are. *)
Theorem do_cancel_frees_caller (tp : tty) (m_ptr : message) :
  let p := PROC_NR m_ptr in
  let tp' := do_cancel tp m_ptr in
  tty_events tp' = 1 /\
  (exists calls,
     tty_trace tp' =
       tty_trace tp ++ calls ++ [EvReply TASK_REPLY (m_source m_ptr) p EINTR] /\
     forall e, In e calls -> e = EvIcancel \/ e = EvOcancel) /\
  (tst (COUNT m_ptr) R_BIT = true -> tty_inleft tp' <> 0 ->
   tty_inproc tp' <> p) /\
  (tst (COUNT m_ptr) W_BIT = true -> tty_outleft tp' <> 0 ->
   tty_outproc tp' <> p) /\
  (tty_ioreq tp' <> 0 -> tty_ioproc tp' <> p) /\
  (tst (COUNT m_ptr) R_BIT = true -> tty_inleft tp <> 0 ->
   tty_inproc tp = p ->
   tty_inleft tp' = 0 /\ tty_incum tp' = 0 /\ flushed tp') /\
  (tst (COUNT m_ptr) R_BIT = false \/ tty_inleft tp = 0 \/
   tty_inproc tp <> p ->
   rd tp' = rd tp /\ inq tp' = inq tp) /\
  (tst (COUNT m_ptr) W_BIT = false \/ tty_outleft tp = 0 \/
   tty_outproc tp <> p ->
   wr tp' = wr tp).
Proof.
  cbn zeta.
  destruct (do_cancel_shape tp m_ptr) as (Hrd & Hq & Hwr & Hio & _ & He & Ht).
  cbn zeta in *.
  unfold flushed. rewrite Hrd, Hq, Hwr, Hio, Ht. clear Hrd Hq Hwr Hio Ht.
  split; [exact He|]. split.
  { match goal with
    | |- context [?x ++ ?y ++ [?r]] => rewrite (app_assoc x y [r])
    end.
    eexists. split; [reflexivity|]. intros e Hin.
    apply in_app_iff in Hin.
    destruct (_ && _ && _), (_ && _ && _); cbn [In] in Hin;
      intuition auto. }
  repeat match goal with |- _ /\ _ => split end.
  all: repeat match goal with
       | |- context [Z.eqb ?a ?b] => destruct (Z.eqb_spec a b)
       | |- context [tst ?a ?b] => destruct (tst a b)
       end; cbn [andb negb]; unfold tty_icancel; hfields; intros;
       repeat match goal with
       | Hx : _ \/ _ |- _ => destruct Hx
       end; repeat split; try discriminate; try congruence.
Qed.

(** X21.  A CANCEL repeated for the same process finds nothing left to
    cancel: no device function is called, no slot and no part of the queue
    changes; it only sets the events flag, which the first CANCEL left
    set, and answers EINTR again. *)
Theorem do_cancel_twice (tp : tty) (m_ptr : message) :
  do_cancel (do_cancel tp m_ptr) m_ptr =
    tty_reply (set_events 1 (do_cancel tp m_ptr)) TASK_REPLY
      (m_source m_ptr) (PROC_NR m_ptr) EINTR.
Proof.
  destruct (do_cancel_shape tp m_ptr) as (Hrd & _ & Hwr & Hio & _).
  cbn zeta in *. set (tp' := do_cancel tp m_ptr) in *. clearbody tp'.
  assert (Cr : tst (COUNT m_ptr) R_BIT && negb (tty_inleft tp' =? 0)
               && (PROC_NR m_ptr =? tty_inproc tp') = false).
  { unfold tty_inleft, tty_inproc. rewrite Hrd.
    destruct (tst (COUNT m_ptr) R_BIT && negb (tty_inleft tp =? 0)
              && (PROC_NR m_ptr =? tty_inproc tp)) eqn:Hc;
      [fields; cbn [Z.eqb negb]; rewrite andb_false_r; reflexivity | exact Hc]. }
  assert (Cw : tst (COUNT m_ptr) W_BIT && negb (tty_outleft tp' =? 0)
               && (PROC_NR m_ptr =? tty_outproc tp') = false).
  { unfold tty_outleft, tty_outproc. rewrite Hwr.
    destruct (tst (COUNT m_ptr) W_BIT && negb (tty_outleft tp =? 0)
              && (PROC_NR m_ptr =? tty_outproc tp)) eqn:Hc;
      [fields; cbn [Z.eqb negb]; rewrite andb_false_r; reflexivity | exact Hc]. }
  assert (Ci : negb (tty_ioreq tp' =? 0) && (PROC_NR m_ptr =? tty_ioproc tp')
               = false).
  { unfold tty_ioreq, tty_ioproc. rewrite Hio.
    destruct (negb (tty_ioreq tp =? 0) && (PROC_NR m_ptr =? tty_ioproc tp))
      eqn:Hc; [fields; reflexivity | exact Hc]. }
  unfold do_cancel. cbn zeta. rewrite Cr, Cw, Ci. reflexivity.
Qed.

(** X22.  A CLOSE always answers OK.  On the log device it does nothing
    else.  On any other device it takes one from the open count, which is
    kept in a [char] (from -128 it wraps round to 127), and only when the
    count reaches 0 -- for a count that is a [char], when it was 1 -- does
    it reset the line: the process group is cleared, the input queue
    flushed, the attributes set back to the defaults.  The reset sends no
    signal, whatever the default speed, and leaves the reader and writer
    slots as they are. *)
Theorem do_close_last_resets (tp : tty) (m_ptr : message) :
  let tp' := do_close tp m_ptr in
  let ok := EvReply TASK_REPLY (m_source m_ptr) (PROC_NR m_ptr) OK in
  let left := schar_of (tty_openct tp - 1) in
  (TTY_LINE m_ptr = LOG_MINOR -> tp' = emit ok tp) /\
  (TTY_LINE m_ptr <> LOG_MINOR -> left <> 0 ->
   tp' = emit ok (set_openct left tp)) /\
  (TTY_LINE m_ptr <> LOG_MINOR -> left = 0 ->
   tty_openct tp' = 0 /\ tty_pgrp tp' = 0 /\
   tty_termios tp' = termios_defaults /\ flushed tp' /\
   rd tp' = rd tp /\ wr tp' = wr tp /\
   exists calls,
     tty_trace tp' = tty_trace tp ++ calls ++ [ok] /\
     forall p s, ~ In (EvKill p s) calls) /\
  (is_schar (tty_openct tp) -> (left = 0 <-> tty_openct tp = 1)) /\
  (-128 < tty_openct tp <= 127 -> left = tty_openct tp - 1) /\
  (tty_openct tp = -128 -> left = 127).
Proof.
  cbn zeta.
  assert (Hleft : (is_schar (tty_openct tp) ->
                   (schar_of (tty_openct tp - 1) = 0 <-> tty_openct tp = 1)) /\
                  (-128 < tty_openct tp <= 127 ->
                   schar_of (tty_openct tp - 1) = tty_openct tp - 1) /\
                  (tty_openct tp = -128 -> schar_of (tty_openct tp - 1) = 127)).
  { split; [|split].
    - unfold is_schar. intros Hr.
      destruct (Z.eq_dec (tty_openct tp) (-128)) as [Hm|Hm].
      + rewrite Hm. split; [vm_compute; discriminate | lia].
      + rewrite schar_of_id by (unfold is_schar; lia). lia.
    - intros Hr. apply schar_of_id. unfold is_schar. lia.
    - intros ->. reflexivity. }
  unfold do_close.
  destruct (Z.eqb_spec (TTY_LINE m_ptr) LOG_MINOR) as [Hlog|Hlog]; cbn [negb].
  { split; [reflexivity|].
    split; [intros Hc; contradiction|].
    split; [intros Hc; contradiction | exact Hleft]. }
  split; [intros Hc; contradiction|]. hfields.
  destruct (Z.eqb_spec (schar_of (tty_openct tp - 1)) 0) as [Hct|Hct].
  - split; [intros _ Hc; contradiction|]. split; [|exact Hleft].
    intros _ _. clear Hleft.
    set (tp1 := set_pgrp 0 (set_openct (schar_of (tty_openct tp - 1)) tp)).
    destruct (tty_icancel_slots tp1) as (S2 & F2 & C2 & T2).
    set (tp2 := tty_icancel tp1) in *.
    set (tp3 := with_dev (fun _ => tty_devocancel tp2) (emit EvOcancel tp2)).
    set (tp4 := with_dev (fun _ => tty_devclose tp3) tp3).
    set (tp5 := set_termios termios_defaults tp4).
    set (tp6 := with_dev
           (fun d => {| tty_priv := tty_priv d;
                        tty_position := tty_position d;
                        tty_reprint := tty_reprint d;
                        tty_events := tty_events d;
                        tty_winsize := (0, 0, 0, 0) |}) tp5).
    assert (H6 : rd tp6 = rd tp2 /\ wr tp6 = wr tp2 /\
                 tty_openct tp6 = tty_openct tp2 /\
                 tty_pgrp tp6 = tty_pgrp tp2 /\ inq tp6 = inq tp2 /\
                 tty_termios tp6 = termios_defaults /\
                 tty_trace tp6 = tty_trace tp2 ++ [EvOcancel])
      by (repeat split).
    clearbody tp6. clear tp3 tp4 tp5.
    destruct H6 as (R6 & W6 & O6 & P6 & Q6 & M6 & T6).
    destruct (setattr_slots tp6)
      as ((R7 & W7 & _ & _ & O7 & M7) & F7 & P7 & T7 & _).
    destruct S2 as (R2 & W2 & _ & _ & O2 & _).
    assert (Hp6 : tty_pgrp tp6 = 0).
    { rewrite P6. unfold tty_pgrp. rewrite C2. reflexivity. }
    destruct (T7 Hp6) as (calls & Ht & Hquiet).
    split; [rewrite O7, O6, O2; exact Hct|].
    split; [rewrite P7; exact Hp6|].
    split; [rewrite M7; exact M6|].
    split; [apply F7; unfold flushed in *; rewrite Q6; exact F2|].
    split; [rewrite R7, R6, R2; reflexivity|].
    split; [rewrite W7, W6, W2; reflexivity|].
    exists ([EvIcancel; EvOcancel] ++ calls). split.
    + rewrite Ht, T6, T2. subst tp1. fields.
      rewrite <- !app_assoc. reflexivity.
    + intros p s Hin. apply in_app_iff in Hin.
      destruct Hin as [[Hx | [Hx | []]] | Hin]; try discriminate.
      exact (Hquiet p s Hin).
  - split; [intros _ _; reflexivity|].
    split; [intros _ Hc; contradiction | exact Hleft].
Qed.

(** X23.  An OPEN followed by a CLOSE of the same device, on a line that
    somebody else still holds open, leaves the open count, the queue, the
    slots and the attributes as they were; only the process group may have
    changed.  Both requests are answered, and no device function is
    called.  The open count is a [char]; the count going up and down again
    cancels also where it wraps. *)
Theorem open_close_round_trip (tp : tty) (m_open m_close : message) :
  is_schar (tty_openct tp) ->
  TTY_LINE m_close = TTY_LINE m_open -> tty_openct tp <> 0 ->
  let tp' := do_close (do_open tp m_open) m_close in
  tty_openct tp' = tty_openct tp /\
  (inq tp', rd tp', wr tp', io tp', sel tp', dev tp', tty_termios tp')
    = (inq tp, rd tp, wr tp, io tp, sel tp, dev tp, tty_termios tp) /\
  (tty_pgrp tp' = tty_pgrp tp \/ tty_pgrp tp' = PROC_NR m_open) /\
  exists r,
    tty_trace tp' =
      tty_trace tp ++
        [EvReply TASK_REPLY (m_source m_open) (PROC_NR m_open) r;
         EvReply TASK_REPLY (m_source m_close) (PROC_NR m_close) OK].
Proof.
  intros Hchar Hline Hopen. cbn zeta.
  assert (Hback : schar_of (schar_of (tty_openct tp + 1) - 1) = tty_openct tp).
  { replace (schar_of (tty_openct tp + 1) - 1)
      with (schar_of (tty_openct tp + 1) + -1) by lia.
    rewrite schar_of_shift.
    replace (tty_openct tp + 1 + -1) with (tty_openct tp) by lia.
    apply schar_of_id, Hchar. }
  unfold do_close, do_open. rewrite Hline.
  destruct (Z.eqb_spec (TTY_LINE m_open) LOG_MINOR) as [Hlog|Hlog];
    cbn [negb]; hfields.
  - repeat split; [left; reflexivity|].
    eexists. rewrite <- app_assoc. reflexivity.
  - destruct (tst (COUNT m_open) O_NOCTTY); cbn [negb]; hfields;
      rewrite Hback;
      (destruct (Z.eqb_spec (tty_openct tp) 0) as [Hz|Hz]; [contradiction|]);
      hfields; (split; [reflexivity|]); (split; [reflexivity|]);
      (split; [auto|]); eexists; rewrite <- app_assoc; reflexivity.
Qed.

End CancelClose.

Lemma do_cancel_frees_caller_witness :
  tty_inleft (do_cancel waiting_line cancel_msg) = 0 /\
  tty_incount (do_cancel waiting_line cancel_msg) = 0.
Proof.
  destruct (do_cancel_frees_caller waiting_line cancel_msg)
    as (_ & _ & _ & _ & _ & Hc & _).
  destruct Hc as (Hl & _ & Hf & _);
    [reflexivity | vm_compute; intros Hx; discriminate Hx | reflexivity |].
  split; [exact Hl | exact Hf].
Defined.

Lemma do_close_last_resets_witness :
  tty_openct (do_close opened_line close_cons_msg) = 0 /\
  tty_pgrp (do_close opened_line close_cons_msg) = 0 /\
  tty_incount (do_close opened_line close_cons_msg) = 0 /\
  tty_openct (do_close (set_openct (-128) opened_line) close_cons_msg) = 127.
Proof.
  destruct (do_close_last_resets opened_line close_cons_msg)
    as (_ & _ & Hlast & _).
  destruct (do_close_last_resets (set_openct (-128) opened_line)
              close_cons_msg) as (_ & Hwrap & _).
  destruct Hlast as (Ho & Hp & _ & (Hc & _) & _);
    [vm_compute; intros Hx; discriminate Hx | reflexivity |].
  split; [exact Ho | split; [exact Hp | split; [exact Hc|]]].
  rewrite Hwrap;
    [reflexivity | vm_compute; intros Hx; discriminate Hx
    | vm_compute; intros Hx; discriminate Hx].
Defined.

Lemma open_close_round_trip_witness :
  tty_openct (do_close (do_open opened_line open_cons_msg) close_cons_msg) = 1.
Proof.
  destruct (open_close_round_trip opened_line open_cons_msg close_cons_msg)
    as (Ho & _).
  - vm_compute. split; intros Hx; discriminate Hx.
  - reflexivity.
  - vm_compute. intros Hx. discriminate Hx.
  - exact Ho.
Defined.

(** ** The minor device numbers *)

Section Minors.
Context `{DE : DriverEnv} `{DP : !DriverParams}.

Lemma uint_small z : 0 <= z < 4294967296 -> uint_of z = z.
Proof. intros Hz. unfold uint_of. apply Z.mod_small, Hz. Qed.

Lemma uint_neg z : -4294967296 <= z < 0 -> uint_of z = z + 4294967296.
Proof.
  intros Hz. unfold uint_of.
  rewrite <- (Z.mod_small (z + 4294967296) 4294967296) by lia.
  rewrite <- (Z.mod_add z 1 4294967296) by lia.
  rewrite Z.mul_1_l. reflexivity.
Qed.

(** A difference below the count keeps its value; one below the base wraps
    round and lands above every count. *)
Lemma range_test line base n :
  0 <= line < 4294967296 -> 0 <= base -> 0 <= n ->
  base + n < 4294967296 ->
  (uint_of (line - base) <? uint_of n) = true ->
  base <= line < base + n /\ uint_of (line - base) = line - base.
Proof.
  intros Hl Hb Hn Htop Ht. apply Z.ltb_lt in Ht.
  rewrite (uint_small n) in Ht by lia.
  destruct (Z_lt_le_dec (line - base) 0) as [Hneg|Hpos].
  - rewrite uint_neg in Ht by lia. lia.
  - rewrite uint_small in Ht by lia. rewrite uint_small by lia. lia.
Qed.

Lemma range_test_in line base n :
  0 <= base -> 0 <= n -> base + n < 4294967296 -> base <= line < base + n ->
  (uint_of (line - base) <? uint_of n) = true /\
  uint_of (line - base) = line - base.
Proof.
  intros Hb Hn Htop Hin.
  rewrite (uint_small n), (uint_small (line - base)) by lia.
  split; [apply Z.ltb_lt; lia | reflexivity].
Qed.

(** X24.  The minor number [tty_init] gives line [s] is mapped back to
    line [s] by the dispatch of [main]; the log device is served by line
    0, the first console; the master side of pty [k] is served by the line
    of its slave side, and flagged; every other minor number is mapped to
    no line. *)
Theorem line_of_minor_round_trip :
  minor_layout ->
  (forall s, 0 <= s < NR_CONS + NR_RS_LINES + NR_PTYS ->
     line_of_minor (tty_minor (tty_init_line s)) = Some (s, false)) /\
  line_of_minor LOG_MINOR = Some (0, false) /\
  (forall k, 0 <= k < NR_PTYS ->
     line_of_minor (PTYPX_MINOR + k) =
       Some (NR_CONS + NR_RS_LINES + k, true)) /\
  (forall minor l, 0 <= minor < 4294967296 ->
     line_of_minor minor = Some l ->
     minor = LOG_MINOR \/
     CONS_MINOR <= minor < CONS_MINOR + NR_CONS \/
     RS232_MINOR <= minor < RS232_MINOR + NR_RS_LINES \/
     TTYPX_MINOR <= minor < TTYPX_MINOR + NR_PTYS \/
     PTYPX_MINOR <= minor < PTYPX_MINOR + NR_PTYS).
Proof.
  intros [Hc (Hn1 & Hn2 & Hn3) Hlog Hrs Hpty Htop].
  assert (Hout : forall line base n, 0 <= n -> base + n < 4294967296 ->
            0 <= base -> 0 <= line < 4294967296 ->
            ~ base <= line < base + n ->
            (uint_of (line - base) <? uint_of n) = false).
  { intros line base n Hn Ht Hb Hl Hnot.
    destruct (uint_of (line - base) <? uint_of n) eqn:Heq; [|reflexivity].
    destruct (range_test line base n Hl Hb Hn Ht Heq) as [Hin _].
    contradiction. }
  split; [|split; [|split]].
  - intros s Hs. unfold tty_init_line, line_of_minor. fields.
    destruct (Z.ltb_spec s NR_CONS) as [H1|H1];
      [|destruct (Z.ltb_spec s (NR_CONS + NR_RS_LINES)) as [H2|H2]].
    + rewrite (uint_small (CONS_MINOR + s)) by lia.
      destruct (range_test_in (CONS_MINOR + s) CONS_MINOR NR_CONS)
        as [-> ->]; try lia.
      f_equal. f_equal. lia.
    + rewrite (uint_small (RS232_MINOR + s - NR_CONS)) by lia.
      rewrite (Hout _ CONS_MINOR NR_CONS) by lia.
      rewrite (uint_small LOG_MINOR) by lia.
      destruct (Z.eqb_spec (RS232_MINOR + s - NR_CONS) LOG_MINOR); [lia|].
      destruct (range_test_in (RS232_MINOR + s - NR_CONS) RS232_MINOR
                  NR_RS_LINES) as [-> ->]; try lia.
      rewrite uint_small by lia. f_equal. f_equal. lia.
    + rewrite (uint_small (s - (NR_CONS + NR_RS_LINES) + TTYPX_MINOR)) by lia.
      rewrite (Hout _ CONS_MINOR NR_CONS) by lia.
      rewrite (uint_small LOG_MINOR) by lia.
      destruct (Z.eqb_spec (s - (NR_CONS + NR_RS_LINES) + TTYPX_MINOR)
                           LOG_MINOR); [lia|].
      rewrite (Hout _ RS232_MINOR NR_RS_LINES) by lia.
      destruct (range_test_in (s - (NR_CONS + NR_RS_LINES) + TTYPX_MINOR)
                  TTYPX_MINOR NR_PTYS) as [-> ->]; try lia.
      repeat match goal with
        | |- context [uint_of ?z] => rewrite (uint_small z) by lia
        end. f_equal. f_equal. lia.
  - unfold line_of_minor. rewrite (uint_small LOG_MINOR) by lia.
    rewrite (Hout _ CONS_MINOR NR_CONS) by lia.
    rewrite Z.eqb_refl. reflexivity.
  - intros k Hk. unfold line_of_minor.
    rewrite (uint_small (PTYPX_MINOR + k)) by lia.
    rewrite (Hout _ CONS_MINOR NR_CONS) by lia.
    rewrite (uint_small LOG_MINOR) by lia.
    destruct (Z.eqb_spec (PTYPX_MINOR + k) LOG_MINOR); [lia|].
    rewrite (Hout _ RS232_MINOR NR_RS_LINES) by lia.
    rewrite (Hout _ TTYPX_MINOR NR_PTYS) by lia.
    destruct (range_test_in (PTYPX_MINOR + k) PTYPX_MINOR NR_PTYS)
      as [-> ->]; try lia.
    repeat match goal with
        | |- context [uint_of ?z] => rewrite (uint_small z) by lia
        end. f_equal. f_equal. lia.
  - intros minor l Hm. unfold line_of_minor.
    rewrite (uint_small minor), (uint_small LOG_MINOR) by lia.
    destruct (uint_of (minor - CONS_MINOR) <? uint_of NR_CONS) eqn:T1.
    { apply range_test in T1; lia. }
    destruct (Z.eqb_spec minor LOG_MINOR); [auto|].
    destruct (uint_of (minor - RS232_MINOR) <? uint_of NR_RS_LINES) eqn:T2.
    { apply range_test in T2; lia. }
    destruct (uint_of (minor - TTYPX_MINOR) <? uint_of NR_PTYS) eqn:T3.
    { apply range_test in T3; lia. }
    destruct (uint_of (minor - PTYPX_MINOR) <? uint_of NR_PTYS) eqn:T4.
    { apply range_test in T4; lia. }
    discriminate.
Qed.

End Minors.

Lemma minix_minor_layout : minor_layout.
Proof. constructor; vm_compute; intuition discriminate. Qed.

Lemma line_of_minor_round_trip_witness :
  line_of_minor (tty_minor (tty_init_line 5)) = Some (5, false) /\
  line_of_minor 15 = Some (0, false).
Proof.
  destruct (line_of_minor_round_trip minix_minor_layout) as (Hs & Hlog & _).
  split; [apply Hs; vm_compute; split; [intros Hx; discriminate Hx | reflexivity]
         | exact Hlog].
Defined.

(** ** Properties of the ioctl requests *)

(** All the inequalities a list without duplicates gives. *)
Ltac apart Hnd :=
  unfold ioctl_codes in Hnd;
  repeat match goal with
  | Hx : NoDup (_ :: _) |- _ =>
      apply NoDup_cons in Hx; destruct Hx as [? Hx]
  | Hx : _ ∉ (_ :: _) |- _ =>
      apply not_elem_of_cons in Hx; destruct Hx as [? Hx]
  end.

(** Decide the tests of a request against the codes. *)
Ltac code_tests :=
  repeat match goal with
  | |- context [Z.eqb ?a ?b] =>
      destruct (Z.eqb_spec a b); try congruence; try contradiction
  end; cbn [orb negb andb].

Section Ioctl.
Context `{DE : DriverEnv} `{DP : !DriverParams}.

(** X25.  The request and the case labels being [int]s: an ioctl whose
    request is none of the labels [do_ioctl] has a case for -- TIOCGPGRP
    and TIOCSPGRP among them -- is answered ENOTTY; a TCFLSH or TCFLOW
    whose argument has no case is answered EINVAL; a request whose
    argument cannot be copied in is answered with the error of the copy.
    None of them changes the line or writes to the caller. *)
Theorem ioctl_refused (tp : tty) (m_ptr : message) :
  NoDup ioctl_codes -> Forall is_int ioctl_codes -> is_int (COUNT m_ptr) ->
  let refuse r :=
    do_ioctl tp m_ptr =
      (emit (EvReply TASK_REPLY (m_source m_ptr) (PROC_NR m_ptr) r) tp,
       OutNothing) in
  (COUNT m_ptr ∉ ioctl_codes -> refuse ENOTTY) /\
  (forall i, COUNT m_ptr = TCFLSH ->
     user_int (PROC_NR m_ptr) (ADDRESS m_ptr) = (OK, i) ->
     i ∉ flush_codes -> refuse EINVAL) /\
  (forall i, COUNT m_ptr = TCFLOW ->
     user_int (PROC_NR m_ptr) (ADDRESS m_ptr) = (OK, i) ->
     i ∉ flow_codes -> refuse EINVAL) /\
  (forall r i, COUNT m_ptr = TCFLSH \/ COUNT m_ptr = TCFLOW ->
     user_int (PROC_NR m_ptr) (ADDRESS m_ptr) = (r, i) -> r <> OK ->
     refuse r) /\
  (forall r t, COUNT m_ptr = TCSETS \/
               (tty_outleft tp <= 0 /\ COUNT m_ptr = TCSETSW) ->
     user_termios (PROC_NR m_ptr) (ADDRESS m_ptr) = (r, t) -> r <> OK ->
     refuse r).
Proof.
  intros Hnd _ _. cbn zeta. apart Hnd.
  split; [|split; [|split; [|split]]].
  - intros Hnin. unfold ioctl_codes in Hnin.
    repeat (apply not_elem_of_cons in Hnin; destruct Hnin as [? Hnin]).
    unfold do_ioctl. code_tests. hfields.
    destruct (ENOTTY =? OK); reflexivity.
  - intros i Hreq Hin Hnin. unfold flush_codes in Hnin.
    repeat (apply not_elem_of_cons in Hnin; destruct Hnin as [? Hnin]).
    unfold do_ioctl. rewrite Hreq, Hin. code_tests. hfields.
    destruct (EINVAL =? OK); reflexivity.
  - intros i Hreq Hin Hnin. unfold flow_codes in Hnin.
    repeat (apply not_elem_of_cons in Hnin; destruct Hnin as [? Hnin]).
    unfold do_ioctl. rewrite Hreq, Hin. code_tests. hfields.
    destruct (EINVAL =? OK); reflexivity.
  - intros r i [Hreq|Hreq] Hin Hr; unfold do_ioctl; rewrite Hreq, Hin;
      code_tests; hfields; code_tests; reflexivity.
  - intros r t [Hreq|[Hleft Hreq]] Hin Hr; unfold do_ioctl, ioctl_sets;
      rewrite Hreq; code_tests.
    + rewrite Hin. code_tests. hfields. code_tests; try reflexivity.
    + rewrite (proj2 (Z.ltb_ge 0 (tty_outleft tp)) Hleft).
      rewrite Hin. code_tests. hfields. code_tests; try reflexivity.
Qed.

(** What a TCSETS whose argument is copied in does. *)
Lemma ioctl_sets_ok (tp : tty) (m_ptr : message) (t : termios) :
  NoDup ioctl_codes -> COUNT m_ptr = TCSETS ->
  user_termios (PROC_NR m_ptr) (ADDRESS m_ptr) = (OK, t) ->
  do_ioctl tp m_ptr =
    (emit (EvReply TASK_REPLY (m_source m_ptr) (PROC_NR m_ptr) OK)
       (setattr (set_termios t tp)), OutNothing).
Proof.
  intros Hnd Hreq Hin. apart Hnd.
  unfold do_ioctl, ioctl_sets. rewrite Hreq. code_tests.
  rewrite Hin. code_tests. hfields. code_tests; try reflexivity.
Qed.

(** X26.  The attributes a TCSETS puts in are the ones a TCGETS that
    follows it hands out: [setattr] acts on them but does not change them.
    Both requests are answered OK.  The two requests are the two labels as
    [int]s; for TCGETS, whose code has the top bit set, that is a negative
    number. *)
Theorem ioctl_set_get_round_trip (tp : tty) (m_set m_get : message)
    (t : termios) :
  NoDup ioctl_codes -> Forall is_int ioctl_codes ->
  COUNT m_set = TCSETS -> COUNT m_get = TCGETS ->
  user_termios (PROC_NR m_set) (ADDRESS m_set) = (OK, t) ->
  copy_to_user (PROC_NR m_get) (ADDRESS m_get) = OK ->
  let tp1 := fst (do_ioctl tp m_set) in
  let tp2 := fst (do_ioctl tp1 m_get) in
  snd (do_ioctl tp m_set) = OutNothing /\
  snd (do_ioctl tp1 m_get) = OutTermios (PROC_NR m_get) (ADDRESS m_get) t /\
  tty_termios tp2 = t /\
  line_part tp2 = line_part tp1 /\ dev tp2 = dev tp1 /\
  tty_trace tp2 =
    tty_trace tp1 ++
      [EvReply TASK_REPLY (m_source m_get) (PROC_NR m_get) OK] /\
  exists calls,
    tty_trace tp1 =
      tty_trace tp ++ calls ++
        [EvReply TASK_REPLY (m_source m_set) (PROC_NR m_set) OK] /\
    Forall no_message calls.
Proof.
  intros Hnd _ Hset Hget Hin Hout. cbn zeta.
  rewrite (ioctl_sets_ok tp m_set t Hnd Hset Hin). cbn [fst snd].
  destruct (setattr_slots (set_termios t tp))
    as ((_ & _ & _ & _ & _ & Ht) & _ & _ & _ & calls & Hc & Hn).
  revert Ht Hc. generalize (setattr (set_termios t tp)). intros tp0 Ht Hc.
  unfold do_ioctl. rewrite Hget, Z.eqb_refl, Hout, Z.eqb_refl. hfields.
  split; [reflexivity|]. split; [rewrite Ht; reflexivity|].
  split; [exact Ht|]. split; [reflexivity|]. split; [reflexivity|].
  split; [reflexivity|].
  exists calls. rewrite Hc, <- app_assoc. split; [reflexivity | exact Hn].
Qed.

(** [dev_ioctl] once the write has no bytes to go. *)
Lemma dev_ioctl_done (tp : tty) :
  tty_outleft tp <= 0 ->
  tty_ioreq (dev_ioctl tp) = 0 /\
  exists calls,
    tty_trace (dev_ioctl tp) =
      tty_trace tp ++ calls ++
        [EvReply REVIVE (tty_iocaller tp) (tty_ioproc tp)
           (if tty_ioreq tp =? TCDRAIN then uninit_int
            else fst (user_termios (tty_ioproc tp) (tty_iovir tp)))] /\
    Forall no_message calls /\
    (tty_ioreq tp = TCDRAIN -> calls = []).
Proof.
  intros Hdone. unfold dev_ioctl.
  rewrite (proj2 (Z.ltb_ge 0 (tty_outleft tp)) Hdone).
  destruct (Z.eqb_spec (tty_ioreq tp) TCDRAIN) as [Hd|Hd]; cbn [negb].
  - split; [reflexivity|]. exists [].
    split; [reflexivity|]. split; [constructor | reflexivity].
  - assert (H3 : let tp3 := if tty_ioreq tp =? TCSETSF then tty_icancel tp
                            else tp in
                 io tp3 = io tp /\
                 exists c3, tty_trace tp3 = tty_trace tp ++ c3 /\
                            Forall no_message c3).
    { cbn zeta. destruct (tty_ioreq tp =? TCSETSF).
      - destruct (tty_icancel_slots tp) as ((_ & _ & Hi & _) & _ & _ & Ht).
        split; [exact Hi|]. exists [EvIcancel]. split; [exact Ht|].
        repeat constructor.
      - split; [reflexivity|]. exists []. rewrite app_nil_r.
        split; [reflexivity | constructor]. }
    cbn zeta in H3. revert H3.
    generalize (if tty_ioreq tp =? TCSETSF then tty_icancel tp else tp).
    intros tp3 (Hio3 & c3 & Ht3 & Hn3).
    change (tty_ioproc tp3) with (tty_ioproc (io tp3)).
    change (tty_iovir tp3) with (tty_iovir (io tp3)).
    rewrite Hio3.
    destruct (user_termios (tty_ioproc tp) (tty_iovir tp)) as [result t].
    assert (H4 : let tp4 := if result =? OK then set_termios t tp3 else tp3 in
                 io tp4 = io tp3 /\ tty_trace tp4 = tty_trace tp3)
      by (cbn zeta; destruct (result =? OK); split; reflexivity).
    cbn zeta in H4. revert H4.
    generalize (if result =? OK then set_termios t tp3 else tp3).
    intros tp4 (Hio4 & Ht4).
    destruct (setattr_slots tp4)
      as ((_ & _ & Hio5 & _) & _ & _ & _ & c5 & Ht5 & Hn5).
    revert Hio5 Ht5. generalize (setattr tp4). intros tp5 Hio5 Ht5.
    assert (Hio' : io tp5 = io tp) by congruence.
    assert (Ht' : tty_trace tp5 = tty_trace tp ++ c3 ++ c5)
      by (rewrite Ht5, Ht4, Ht3, <- app_assoc; reflexivity).
    clear Hio3 Hio4 Hio5 Ht3 Ht4 Ht5. unfold tty_reply. cbn [fst].
    split; [reflexivity|]. exists (c3 ++ c5).
    cbn [tty_trace emit set_ioreq with_io io tty_iocaller tty_ioproc].
    rewrite Ht', Hio', <- !app_assoc.
    split; [reflexivity|]. split; [apply Forall_app; auto|].
    intros Hc. contradiction.
Qed.

(** X27.  TCSETSW, TCSETSF and TCDRAIN wait for output to finish.  While a
    write has bytes to go the request is parked: the caller is answered
    SUSPEND, the ioctl slot records the sender, the process, the request
    and the address, and [dev_ioctl] does nothing.  Once the write has no
    bytes to go, [dev_ioctl] frees the slot and answers the parked caller
    with REVIVE, after calls that send no message.  For TCSETSW and
    TCSETSF the status of that answer is the result of copying the
    attributes in; for TCDRAIN it is the local [result], which was never
    assigned. *)
Theorem ioctl_drain_parks_and_completes (tp : tty) (m_ptr : message) :
  NoDup ioctl_codes ->
  COUNT m_ptr = TCSETSW \/ COUNT m_ptr = TCSETSF \/ COUNT m_ptr = TCDRAIN ->
  0 < tty_outleft tp ->
  let tp1 := fst (do_ioctl tp m_ptr) in
  do_ioctl tp m_ptr =
    (emit (EvReply TASK_REPLY (m_source m_ptr) (PROC_NR m_ptr) SUSPEND)
       (set_ioslot (m_source m_ptr) (PROC_NR m_ptr) (COUNT m_ptr)
                   (ADDRESS m_ptr) tp), OutNothing) /\
  dev_ioctl tp1 = tp1 /\
  (forall tp2 : tty, io tp2 = io tp1 -> tty_outleft tp2 <= 0 ->
   tty_ioreq (dev_ioctl tp2) = 0 /\
   exists calls,
     tty_trace (dev_ioctl tp2) =
       tty_trace tp2 ++ calls ++
         [EvReply REVIVE (m_source m_ptr) (PROC_NR m_ptr)
            (if COUNT m_ptr =? TCDRAIN then uninit_int
             else fst (user_termios (PROC_NR m_ptr) (ADDRESS m_ptr)))] /\
     Forall no_message calls /\
     (COUNT m_ptr = TCDRAIN -> calls = [])).
Proof.
  intros Hnd Hreq Hleft. cbn zeta.
  assert (Hpark : do_ioctl tp m_ptr =
    (emit (EvReply TASK_REPLY (m_source m_ptr) (PROC_NR m_ptr) SUSPEND)
       (set_ioslot (m_source m_ptr) (PROC_NR m_ptr) (COUNT m_ptr)
                   (ADDRESS m_ptr) tp), OutNothing)).
  { apart Hnd. unfold do_ioctl.
    rewrite (proj2 (Z.ltb_lt 0 (tty_outleft tp)) Hleft).
    destruct Hreq as [Hreq | [Hreq | Hreq]]; rewrite Hreq; code_tests;
      hfields; destruct (SUSPEND =? OK); reflexivity. }
  rewrite Hpark. cbn [fst]. clear Hpark Hnd Hreq.
  split; [reflexivity|]. split.
  { unfold dev_ioctl, set_ioslot.
    cbn [emit with_io wr tty_outleft].
    rewrite (proj2 (Z.ltb_lt 0 (tty_outleft tp)) Hleft). reflexivity. }
  intros tp2 Hio Hdone.
  destruct (dev_ioctl_done tp2 Hdone) as (Hfree & calls & Ht & Hn & Hd).
  split; [exact Hfree|]. exists calls.
  change (tty_ioreq tp2) with (tty_ioreq (io tp2)) in Ht, Hd.
  change (tty_iocaller tp2) with (tty_iocaller (io tp2)) in Ht.
  change (tty_ioproc tp2) with (tty_ioproc (io tp2)) in Ht.
  change (tty_iovir tp2) with (tty_iovir (io tp2)) in Ht.
  rewrite Hio in Ht, Hd. exact (conj Ht (conj Hn Hd)).
Qed.

End Ioctl.

Lemma minix_codes_distinct : NoDup ioctl_codes.
Proof. apply (bool_decide_unpack _). vm_compute. reflexivity. Qed.

Lemma minix_codes_int : Forall is_int ioctl_codes.
Proof.
  repeat constructor; vm_compute; intros Hx; discriminate Hx.
Qed.

Lemma ioctl_refused_witness :
  do_ioctl (tty_init_line 0) (ioctl_msg TIOCGPGRP) =
    (emit (EvReply TASK_REPLY 1 7 ENOTTY) (tty_init_line 0), OutNothing).
Proof.
  destruct (ioctl_refused (tty_init_line 0) (ioctl_msg TIOCGPGRP)
              minix_codes_distinct minix_codes_int) as (Hu & _).
  - vm_compute. split; intros Hx; discriminate Hx.
  - apply Hu. apply (bool_decide_unpack _). vm_compute. reflexivity.
Defined.

(** The request of a TCGETS is the [int] -2145102840. *)
Lemma ioctl_set_get_round_trip_witness :
  snd (do_ioctl (fst (do_ioctl (tty_init_line 0) (ioctl_msg 1076122633)))
         (ioctl_msg (-2145102840)))
  = OutTermios 7 4096 minix_termios.
Proof.
  destruct (ioctl_set_get_round_trip (tty_init_line 0)
              (ioctl_msg 1076122633) (ioctl_msg (-2145102840))
              minix_termios minix_codes_distinct minix_codes_int)
    as (_ & Hget & _);
    [reflexivity | reflexivity | reflexivity | reflexivity |].
  exact Hget.
Defined.

Lemma ioctl_drain_parks_and_completes_witness :
  tty_ioreq (fst (do_ioctl writing_line (ioctl_msg TCDRAIN))) = TCDRAIN /\
  dev_ioctl (fst (do_ioctl writing_line (ioctl_msg TCDRAIN))) =
    fst (do_ioctl writing_line (ioctl_msg TCDRAIN)).
Proof.
  destruct (ioctl_drain_parks_and_completes writing_line (ioctl_msg TCDRAIN)
              minix_codes_distinct) as (Hp & Hd & _).
  - right. right. reflexivity.
  - vm_compute. reflexivity.
  - split; [rewrite Hp; reflexivity | exact Hd].
Defined.

(** ** Output without processing *)

Section OutPlain.
Context `{P : Params}.

(** Without the LF and tab rewritings every character takes the common
    end of the loop body. *)
Lemma out_char_plain (oflag : Z) (s : olocals) :
  all_set oflag (Z.lor OPOST ONLCR) = false ->
  all_set oflag (Z.lor OPOST XTABS) = false ->
  exists pos, out_char oflag s = out_advance pos s.
Proof.
  intros Hlf Htab. unfold out_char. rewrite Hlf, Htab.
  destruct (_ =? 7); [eexists; reflexivity|].
  destruct (_ =? 8); [eexists; reflexivity|].
  destruct (_ =? 13); [eexists; reflexivity|].
  destruct (_ =? 10); [eexists; reflexivity|].
  destruct (_ =? 9); eexists; reflexivity.
Qed.

Lemma out_loop_plain (oflag : Z) (n : nat) (s : olocals) :
  all_set oflag (Z.lor OPOST ONLCR) = false ->
  all_set oflag (Z.lor OPOST XTABS) = false ->
  0 <= o_ict s <= o_oct s -> o_oct s <= INT_MAX ->
  o_ict s <= Z.of_nat n ->
  o_buf (out_loop n oflag s) = o_buf s /\
  o_ict (out_loop n oflag s) = 0 /\
  o_oct (out_loop n oflag s) = o_oct s - o_ict s.
Proof.
  intros Hlf Htab. revert s.
  induction n as [|n IH]; intros s Hio Hmax Hn; cbn [out_loop].
  - repeat split; lia.
  - destruct (Z.ltb_spec 0 (o_ict s)) as [Hpos|Hpos];
      [|repeat split; lia].
    destruct (out_char_plain oflag s Hlf Htab) as [pos ->].
    unfold out_advance.
    rewrite !int_of_id by (unfold is_int, INT_MIN, INT_MAX in *; lia).
    match goal with
    | |- context [out_loop n oflag ?t] =>
        destruct (IH t) as (Hb & Hi & Ho); cbn [o_ict o_oct o_buf];
          try lia
    end.
    cbn [o_ict o_oct o_buf] in *. rewrite Hb, Hi, Ho. repeat split; lia.
Qed.

(** X28.  When the output flags ask neither for the LF to CR LF mapping
    (OPOST and ONLCR) nor for tab expansion (OPOST and XTABS),
    [out_process] passes the characters through: the buffer is not written
    to, all [icount] characters are consumed and as many output slots are
    used, and of the line only the column changes. *)
Theorem out_process_passthrough (tp : tty) (buf : list Z) (bpos : nat)
    (icount ocount : Z) :
  all_set (c_oflag (tty_termios tp)) (Z.lor OPOST ONLCR) = false ->
  all_set (c_oflag (tty_termios tp)) (Z.lor OPOST XTABS) = false ->
  0 <= icount <= ocount -> ocount <= INT_MAX ->
  exists pos,
    out_process tp buf bpos icount ocount =
      (set_position (Z.land pos TAB_MASK) tp, buf, icount, icount).
Proof.
  intros Hlf Htab Hio Hmax. unfold out_process.
  match goal with
  | |- context [out_loop ?n ?f ?s] =>
      destruct (out_loop_plain f n s Hlf Htab) as (Hb & Hi & Ho);
        cbn [o_ict o_oct o_buf]; try lia;
        revert Hb Hi Ho; generalize (out_loop n f s)
  end.
  cbn [o_ict o_oct o_buf]. intros s' Hb Hi Ho. exists (o_pos s').
  rewrite Hb, Hi, Ho.
  rewrite !int_of_id by (unfold is_int, INT_MIN, INT_MAX in *; lia).
  repeat f_equal; lia.
Qed.

End OutPlain.

Lemma out_process_passthrough_witness :
  exists pos,
    out_process (set_termios raw_termios (tty_init_line 0))
                [65; 10; 9; 66] 0 4 4 =
      (set_position (Z.land pos TAB_MASK)
                    (set_termios raw_termios (tty_init_line 0)),
       [65; 10; 9; 66], 4, 4).
Proof.
  apply (out_process_passthrough (set_termios raw_termios (tty_init_line 0))
           [65; 10; 9; 66] 0 4 4);
    [reflexivity | reflexivity | lia | vm_compute; intros Hx; discriminate Hx].
Defined.

(** ** Callers that stay attached *)

Section Attached.
Context `{E : Env}.

Lemma select_retry_ctl (tp : tty) :
  ctl (select_retry tp) = ctl tp /\
  forall e, In e (tty_trace tp) -> In e (tty_trace (select_retry tp)).
Proof.
  unfold select_retry, notify.
  destruct (negb (select_try tp (tty_select_ops tp) =? 0)); fields;
    (split; [reflexivity|]); intros e He; [|exact He].
  apply in_app_iff. left. exact He.
Qed.

(** X29.  A READ or WRITE without O_NONBLOCK that finds its slot free and
    leaves its caller attached to the line ([tty_inleft > 0], or
    [tty_outleft > 0]) has answered SUSPEND and has set the reply code of
    the slot to REVIVE, so that the completion is announced by a
    notification and collected with a status request. *)
Theorem blocking_caller_suspended (fuel : nat) (tp tp' : tty)
    (m_ptr : message) :
  tst (TTY_FLAGS m_ptr) O_NONBLOCK = false ->
  (tty_inleft tp <= 0 -> do_read fuel tp m_ptr = Some tp' ->
   0 < tty_inleft tp' ->
   tty_inrepcode tp' = REVIVE /\
   exists tr notes,
     tty_trace tp' =
       tr ++ EvReply TASK_REPLY (m_source m_ptr) (PROC_NR m_ptr) SUSPEND
          :: notes /\
     (notes = [] \/ exists p, notes = [EvNotify p])) /\
  (tty_outleft tp <= 0 -> do_write fuel tp m_ptr = Some tp' ->
   0 < tty_outleft tp' ->
   tty_outrepcode tp' = REVIVE /\
   exists tr,
     tty_trace tp' =
       tr ++ [EvReply TASK_REPLY (m_source m_ptr) (PROC_NR m_ptr) SUSPEND]).
Proof.
  intros Hnb. split; intros Hfree.
  - unfold do_read.
    destruct (Z.ltb_spec 0 (tty_inleft tp)) as [Hx|_]; [lia|].
    assert (Hfin : forall (r : Z) (t : tty), tty_inleft t <= 0 ->
      Some (if negb (tty_select_ops (tty_reply t TASK_REPLY (m_source m_ptr)
                                       (PROC_NR m_ptr) r) =? 0)
            then select_retry (tty_reply t TASK_REPLY (m_source m_ptr)
                                 (PROC_NR m_ptr) r)
            else tty_reply t TASK_REPLY (m_source m_ptr) (PROC_NR m_ptr) r)
      = Some tp' -> 0 < tty_inleft tp' -> False).
    { intros r t Ht Heq Hpos. injection Heq as <-.
      destruct (read_finish t m_ptr r) as (Hrd & _). cbn zeta in Hrd.
      pose proof (eq_ind_r (fun z => 0 < z) Hpos
                    (eq_sym (f_equal tty_inleft Hrd))) as Hc.
      cbn beta in Hc. lia. }
    destruct (COUNT m_ptr <=? 0);
      [intros Heq Hpos; destruct (Hfin _ _ Hfree Heq Hpos)|].
    destruct (negb (sys_umap _ _ _ =? OK));
      [intros Heq Hpos; destruct (Hfin _ _ Hfree Heq Hpos)|].
    destruct (handle_events fuel _) as [tp1|]; [|discriminate].
    destruct (Z.eqb_spec (tty_inleft tp1) 0) as [Hz|Hne].
    + intros Heq Hpos. injection Heq as <-. exfalso. revert Hpos.
      destruct (negb (tty_select_ops tp1 =? 0)); [|lia].
      destruct (select_retry_frame tp1) as (Hrd & _). rewrite Hrd. lia.
    + rewrite Hnb. intros Heq _. injection Heq as <-.
      destruct (read_finish (set_inrepcode REVIVE tp1) m_ptr SUSPEND)
        as (Hrd & _ & notes & Ht & Hn).
      cbn zeta in Hrd, Ht. split.
      * exact (f_equal tty_inrepcode Hrd).
      * exists (tty_trace tp1), notes. split; [exact Ht|].
        destruct Hn as [Hn|Hn]; [left; exact Hn | right; eexists; exact Hn].
  - unfold do_write.
    destruct (Z.ltb_spec 0 (tty_outleft tp)) as [Hx|_]; [lia|].
    destruct (COUNT m_ptr <=? 0);
      [intros Heq Hpos; injection Heq as <-; unfold tty_reply in Hpos;
       fields; lia|].
    destruct (negb (sys_umap _ _ _ =? OK));
      [intros Heq Hpos; injection Heq as <-; unfold tty_reply in Hpos;
       fields; lia|].
    destruct (handle_events fuel _) as [tp1|]; [|discriminate].
    destruct (Z.eqb_spec (tty_outleft tp1) 0) as [Hz|Hne].
    + intros Heq Hpos. injection Heq as <-. lia.
    + rewrite Hnb. intros Heq _. injection Heq as <-.
      unfold tty_reply. fields. split; [reflexivity|].
      exists (tty_trace tp1). reflexivity.
Qed.

(** X30.  In a configuration without ptys, [handle_events] never returns
    with a reader attached whose request is met ([tty_incum >= tty_min])
    and who has not been told: such a reader has the reply code REVIVE,
    its revived flag is set and a notification was sent to its caller.  So
    a reader with any other reply code whose request is met is no longer
    attached when [handle_events] returns. *)
Theorem handle_events_answers_reader (fuel : nat) (tp tp' : tty) :
  NR_PTYS <= 0 -> handle_events fuel tp = Some tp' ->
  tty_min tp' <= tty_incum tp' -> 0 < tty_inleft tp' ->
  tty_inrepcode tp' = REVIVE /\ tty_inrevived tp' = 1 /\
  In (EvNotify (tty_incaller tp')) (tty_trace tp').
Proof.
  intros Hpty. unfold handle_events.
  destruct (poll_devices fuel tp) as [tp0|]; [|discriminate].
  generalize (in_transfer tp0). clear tp0. intros tp1.
  destruct (Z.ltb_spec 0 NR_PTYS) as [Hx|_]; [lia|]. cbn [andb].
  set (tp2 := if (tty_min tp1 <=? tty_incum tp1) && (0 <? tty_inleft tp1)
              then
                if tty_inrepcode tp1 =? REVIVE
                then set_inrevived 1 (notify tp1 (tty_incaller tp1))
                else set_inleft 0 (set_incum 0
                       (tty_reply tp1 (tty_inrepcode tp1) (tty_incaller tp1)
                          (tty_inproc tp1) (tty_incum tp1)))
              else tp1).
  assert (H2 : tty_min tp2 <= tty_incum tp2 -> 0 < tty_inleft tp2 ->
               tty_inrepcode tp2 = REVIVE /\ tty_inrevived tp2 = 1 /\
               In (EvNotify (tty_incaller tp2)) (tty_trace tp2)).
  { subst tp2.
    destruct (Z.leb_spec (tty_min tp1) (tty_incum tp1)) as [Hm|Hm];
      cbn [andb]; [|intros; lia].
    destruct (Z.ltb_spec 0 (tty_inleft tp1)) as [Hl|Hl]; [|intros; lia].
    destruct (Z.eqb_spec (tty_inrepcode tp1) REVIVE) as [Hr|Hr];
      unfold notify, tty_reply; fields; [|intros; lia].
    intros _ _. split; [exact Hr|]. split; [reflexivity|].
    apply in_app_iff. right. left. reflexivity. }
  revert H2. generalize tp2. clear tp2 tp1. intros tp2 H2 Heq.
  injection Heq as <-.
  destruct (negb (tty_select_ops tp2 =? 0)); [|exact H2].
  destruct (select_retry_frame tp2) as (Hrd & _).
  destruct (select_retry_ctl tp2) as (Hctl & Hin).
  unfold tty_min. rewrite Hrd, Hctl. intros Hm Hl.
  destruct (H2 Hm Hl) as (Hr & Hv & Hn).
  split; [exact Hr|]. split; [exact Hv|]. apply Hin, Hn.
Qed.

End Attached.

Lemma blocking_caller_suspended_witness :
  exists tp', do_read 2 (tty_init_line 0) rw_msg = Some tp' /\
              tty_inrepcode tp' = REVIVE.
Proof.
  eexists. split; [vm_compute; reflexivity|].
  refine (proj1 (proj1 (blocking_caller_suspended 2 (tty_init_line 0) _
                          rw_msg _) _ _ _)).
  - reflexivity.
  - vm_compute. intros Hx. discriminate Hx.
  - vm_compute. reflexivity.
  - vm_compute. reflexivity.
Defined.

Lemma handle_events_answers_reader_witness :
  exists tp', handle_events 1 revived_reader = Some tp' /\
              tty_inrevived tp' = 1.
Proof.
  eexists. split; [vm_compute; reflexivity|].
  refine (proj1 (proj2 (handle_events_answers_reader 1 revived_reader _
                          _ _ _ _))).
  - vm_compute. intros Hx. discriminate Hx.
  - vm_compute. reflexivity.
  - vm_compute. intros Hx. discriminate Hx.
  - vm_compute. reflexivity.
Defined.
